(** * TurbEye light-sensor firmware: scheduler, sampler, link supervisor, server

    A shallow embedding of the ESP32 sketch (the [setup]/[loop] pair and the
    functions they call) and the properties of its cooperative scheduler,
    its sensor snapshot, its WiFi supervision and its HTTP routes.

    The sketch is sequential code over global variables and platform
    singletons ([WiFi], [tsl], [server], [Serial]).  It is embedded as
    state-passing functions over one record [Sys]; the platform's answers
    (clock, link status, sensor readings, inbound requests) come from a
    [Platform] record of oracles indexed by the number of calls made so far,
    so every behaviour of the hardware is covered by quantifying over the
    platform.  Loops carry a fuel argument and return [None] when it runs
    out, which is how the endless blink loop of a failed boot shows up.

    The web pages that poll the device are embedded in module [Dashboard]:
    a page is its state and the state updates of its callbacks, over the
    array operations of the JavaScript runtime. *)

From Stdlib Require Import ZArith List String Ascii Bool Lia.
From Stdlib Require Import DecimalString DecimalPos DecimalN.
From Stdlib Require Import Permutation.
Import ListNotations.
Open Scope Z_scope.

(** ** Integer types of the target

    The ESP32 is an ILP32 target: [int], [long] and [unsigned long] are 32
    bits wide, [uint16_t] is 16 bits wide. *)
Module Int.

Definition uint16 (x : Z) : Z := x mod 2 ^ 16.
Definition uint32 (x : Z) : Z := x mod 2 ^ 32.
(** [unsigned long] *)
Definition ulong (x : Z) : Z := x mod 2 ^ 32.
(** [int], two's complement *)
Definition sint (x : Z) : Z := (x + 2 ^ 31) mod 2 ^ 32 - 2 ^ 31.
Definition INT_MAX : Z := 2 ^ 31 - 1.

End Int.
Import Int.

(** ** Platform types *)

(** [wl_status_t] of the Arduino WiFi library. *)
Inductive wl_status_t : Type :=
| WL_NO_SHIELD
| WL_IDLE_STATUS
| WL_NO_SSID_AVAIL
| WL_SCAN_COMPLETED
| WL_CONNECTED
| WL_CONNECT_FAILED
| WL_CONNECTION_LOST
| WL_DISCONNECTED.

Definition is_connected (st : wl_status_t) : bool :=
  match st with WL_CONNECTED => true | _ => false end.

(** The functions of the sketch, used to mark calls in the trace and as the
    function pointers handed to [server.on]. *)
Inductive Fn : Type :=
| Fsetup
| Floop
| FreadLightSensor
| FhandleRoot
| FhandleData
| FconnectToNYUWiFi
| FmonitorWiFiConnection
| FlogDetailedWiFiStatus
| FprintConnectionDetails
| FtestInternetConnection.

Definition Fn_eq_dec (f g : Fn) : {f = g} + {f <> g}.
Proof. decide equality. Defined.

(** What the hardware and the libraries answer.  [float] is the target's
    single-precision type, kept abstract together with the driver's
    calibration function and the [String(float, places)] formatter. *)
Record Platform : Type := {
  float : Type;
  float_zero : float;
  calculateLux : Z -> Z -> float;
  String_float : float -> Z -> string;
  (** [tsl.begin()] *)
  tsl_begin : bool;
  (** [tsl.getFullLuminosity()], k-th call *)
  luminosity_at : nat -> Z;
  (** milliseconds since boot (unbounded) at the k-th call of [millis()] *)
  millis_at : nat -> Z;
  (** [WiFi.status()], k-th call *)
  status_at : nat -> wl_status_t;
  (** result code of the k-th [http.GET()] *)
  http_get_at : nat -> Z;
  (** path requested by the client waiting at the k-th [handleClient()] *)
  client_at : nat -> option string;
  (** the page [handleRoot] assembles from address and signal strength *)
  status_page : string
}.

(** ** Text helpers *)

Definition dquote : ascii := "034"%char.

(** A C string literal in quotes, as in ["\"ir\":"]. *)
Definition quoted (s : string) : string :=
  String dquote (s ++ String dquote EmptyString).

(** [String(n)] for a non-negative integer: decimal digits. *)
Definition String_int (n : Z) : string :=
  NilZero.string_of_uint (N.to_uint (Z.to_N n)).

Section Firmware.

Context {P : Platform}.

(** ** Data model *)

Record SensorData : Type := {
  visible_ir : Z;
  ir : Z;
  lux : float P;
  timestamp : Z
}.

Record Response : Type := {
  code : Z;
  content_type : string;
  body : string;
  allow_origin : bool
}.

Record Server : Type := {
  listening : bool;
  routes : list (string * Fn);
  cors : bool
}.

Inductive WiFiOp : Type :=
| OpDisconnect | OpModeSTA | OpEapConfig | OpEnterpriseEnable | OpBegin.

Inductive Msg : Type :=
| MsgBanner
| MsgLedInit
| MsgI2C
| MsgTslNotFound
| MsgTslFound
| MsgSensorConfigured
| MsgServerStarted
| MsgInitialized
| MsgSensor (broadband ir : Z) (lux : float P) (wifi : bool)
| MsgConnecting
| MsgDot
| MsgWifiOk
| MsgWifiFail
| MsgConnLost
| MsgServerRestarted
| MsgConnRestored
| MsgSignal
| MsgDetailed (connected : bool)
| MsgConnDetails
| MsgTesting
| MsgInternetOk
| MsgHttpFailed (code : Z)
| MsgNotConnected.

Inductive Event : Type :=
| EvCall (f : Fn)
| EvSerial (m : Msg)
| EvDelay (ms : Z)
| EvLed (high : bool)
| EvSensorConfig
| EvWiFi (op : WiFiOp)
| EvHttpGet
| EvSend (r : Response).

(** Globals of the sketch, the server object, how many answers of each
    oracle have been consumed, and the trace (most recent event first). *)
Record Sys : Type := {
  latestData : SensorData;
  prevSensorMillis : Z;
  previousWiFiMillis : Z;
  wifiLogMillis : Z;
  wifiConnected : bool;
  wifiReconnectAttempts : Z;
  server : Server;
  clock_reads : nat;
  status_reads : nat;
  sensor_reads : nat;
  client_polls : nat;
  http_gets : nat;
  trace : list Event
}.

(** Globals are zero-initialised; the server is constructed unbound. *)
Definition boot : Sys := {|
  latestData := {| visible_ir := 0; ir := 0; lux := float_zero P; timestamp := 0 |};
  prevSensorMillis := 0;
  previousWiFiMillis := 0;
  wifiLogMillis := 0;
  wifiConnected := false;
  wifiReconnectAttempts := 0;
  server := {| listening := false; routes := []; cors := false |};
  clock_reads := 0; status_reads := 0; sensor_reads := 0;
  client_polls := 0; http_gets := 0;
  trace := []
|}.

Definition set_latestData (d : SensorData) (s : Sys) : Sys :=
  Build_Sys d (prevSensorMillis s) (previousWiFiMillis s) (wifiLogMillis s)
    (wifiConnected s) (wifiReconnectAttempts s) (server s) (clock_reads s)
    (status_reads s) (sensor_reads s) (client_polls s) (http_gets s) (trace s).
Definition set_prevSensorMillis (v : Z) (s : Sys) : Sys :=
  Build_Sys (latestData s) v (previousWiFiMillis s) (wifiLogMillis s)
    (wifiConnected s) (wifiReconnectAttempts s) (server s) (clock_reads s)
    (status_reads s) (sensor_reads s) (client_polls s) (http_gets s) (trace s).
Definition set_previousWiFiMillis (v : Z) (s : Sys) : Sys :=
  Build_Sys (latestData s) (prevSensorMillis s) v (wifiLogMillis s)
    (wifiConnected s) (wifiReconnectAttempts s) (server s) (clock_reads s)
    (status_reads s) (sensor_reads s) (client_polls s) (http_gets s) (trace s).
Definition set_wifiLogMillis (v : Z) (s : Sys) : Sys :=
  Build_Sys (latestData s) (prevSensorMillis s) (previousWiFiMillis s) v
    (wifiConnected s) (wifiReconnectAttempts s) (server s) (clock_reads s)
    (status_reads s) (sensor_reads s) (client_polls s) (http_gets s) (trace s).
Definition set_wifiConnected (v : bool) (s : Sys) : Sys :=
  Build_Sys (latestData s) (prevSensorMillis s) (previousWiFiMillis s)
    (wifiLogMillis s) v (wifiReconnectAttempts s) (server s) (clock_reads s)
    (status_reads s) (sensor_reads s) (client_polls s) (http_gets s) (trace s).
Definition set_wifiReconnectAttempts (v : Z) (s : Sys) : Sys :=
  Build_Sys (latestData s) (prevSensorMillis s) (previousWiFiMillis s)
    (wifiLogMillis s) (wifiConnected s) v (server s) (clock_reads s)
    (status_reads s) (sensor_reads s) (client_polls s) (http_gets s) (trace s).
Definition set_server (v : Server) (s : Sys) : Sys :=
  Build_Sys (latestData s) (prevSensorMillis s) (previousWiFiMillis s)
    (wifiLogMillis s) (wifiConnected s) (wifiReconnectAttempts s) v
    (clock_reads s) (status_reads s) (sensor_reads s) (client_polls s)
    (http_gets s) (trace s).
Definition set_clock_reads (v : nat) (s : Sys) : Sys :=
  Build_Sys (latestData s) (prevSensorMillis s) (previousWiFiMillis s)
    (wifiLogMillis s) (wifiConnected s) (wifiReconnectAttempts s) (server s)
    v (status_reads s) (sensor_reads s) (client_polls s) (http_gets s)
    (trace s).
Definition set_status_reads (v : nat) (s : Sys) : Sys :=
  Build_Sys (latestData s) (prevSensorMillis s) (previousWiFiMillis s)
    (wifiLogMillis s) (wifiConnected s) (wifiReconnectAttempts s) (server s)
    (clock_reads s) v (sensor_reads s) (client_polls s) (http_gets s)
    (trace s).
Definition set_sensor_reads (v : nat) (s : Sys) : Sys :=
  Build_Sys (latestData s) (prevSensorMillis s) (previousWiFiMillis s)
    (wifiLogMillis s) (wifiConnected s) (wifiReconnectAttempts s) (server s)
    (clock_reads s) (status_reads s) v (client_polls s) (http_gets s)
    (trace s).
Definition set_client_polls (v : nat) (s : Sys) : Sys :=
  Build_Sys (latestData s) (prevSensorMillis s) (previousWiFiMillis s)
    (wifiLogMillis s) (wifiConnected s) (wifiReconnectAttempts s) (server s)
    (clock_reads s) (status_reads s) (sensor_reads s) v (http_gets s)
    (trace s).
Definition set_http_gets (v : nat) (s : Sys) : Sys :=
  Build_Sys (latestData s) (prevSensorMillis s) (previousWiFiMillis s)
    (wifiLogMillis s) (wifiConnected s) (wifiReconnectAttempts s) (server s)
    (clock_reads s) (status_reads s) (sensor_reads s) (client_polls s) v
    (trace s).
Definition set_trace (v : list Event) (s : Sys) : Sys :=
  Build_Sys (latestData s) (prevSensorMillis s) (previousWiFiMillis s)
    (wifiLogMillis s) (wifiConnected s) (wifiReconnectAttempts s) (server s)
    (clock_reads s) (status_reads s) (sensor_reads s) (client_polls s)
    (http_gets s) v.

(** ** The monad: state, with [None] for a loop that ran out of fuel *)

Definition M (A : Type) : Type := Sys -> option A * Sys.

Definition ret {A} (a : A) : M A := fun s => (Some a, s).

Definition bind {A B} (m : M A) (k : A -> M B) : M B :=
  fun s =>
    match m s with
    | (Some a, s1) => k a s1
    | (None, s1) => (None, s1)
    end.

Notation "x <- c1 ;; c2" := (bind c1 (fun x => c2))
  (at level 61, c1 at next level, right associativity).
Notation "c1 ;; c2" := (bind c1 (fun _ => c2))
  (at level 61, right associativity).

Definition get {A} (f : Sys -> A) : M A := fun s => (Some (f s), s).
Definition modify (f : Sys -> Sys) : M unit := fun s => (Some tt, f s).
Definition emit (e : Event) : M unit :=
  modify (fun s => set_trace (e :: trace s) s).
Definition when (b : bool) (m : M unit) : M unit := if b then m else ret tt.

(** [while (cond) body] over the loop's local variables [l]. *)
Fixpoint while_ {L} (fuel : nat) (cond : L -> M bool) (body : L -> M L)
    (l : L) : M L :=
  match fuel with
  | O => fun s => (None, s)
  | S fuel' =>
      c <- cond l ;;
      if c then (l' <- body l ;; while_ fuel' cond body l') else ret l
  end.

Definition exec {A} (m : M A) (s : Sys) : Sys := snd (m s).
Definition result {A} (m : M A) (s : Sys) : option A := fst (m s).

(** ** Platform primitives *)

(** [millis()]: the free-running counter, truncated to [unsigned long]. *)
Definition millis : M Z := fun s =>
  (Some (ulong (millis_at P (clock_reads s))),
   set_clock_reads (S (clock_reads s)) s).

Definition WiFi_status : M wl_status_t := fun s =>
  (Some (status_at P (status_reads s)),
   set_status_reads (S (status_reads s)) s).

(** [tsl.getFullLuminosity()] returns a [uint32_t]. *)
Definition tsl_getFullLuminosity : M Z := fun s =>
  (Some (uint32 (luminosity_at P (sensor_reads s))),
   set_sensor_reads (S (sensor_reads s)) s).

Definition http_GET : M Z := fun s =>
  (Some (http_get_at P (http_gets s)),
   set_http_gets (S (http_gets s)) (set_trace (EvHttpGet :: trace s) s)).

(** The client, if any, waiting when [handleClient] polls. *)
Definition next_client : M (option string) := fun s =>
  (Some (client_at P (client_polls s)),
   set_client_polls (S (client_polls s)) s).

Definition delay (ms : Z) : M unit := emit (EvDelay ms).
Definition digitalWrite (high : bool) : M unit := emit (EvLed high).
Definition Serial_println (m : Msg) : M unit := emit (EvSerial m).
Definition WiFi_do (op : WiFiOp) : M unit := emit (EvWiFi op).

(** [server.on(path, handler)] appends a route. *)
Definition server_on (path : string) (h : Fn) : M unit :=
  modify (fun s =>
    set_server {| listening := listening (server s);
                  routes := routes (server s) ++ [(path, h)];
                  cors := cors (server s) |} s).

Definition server_enableCORS (b : bool) : M unit :=
  modify (fun s =>
    set_server {| listening := listening (server s);
                  routes := routes (server s);
                  cors := b |} s).

(** [server.begin()] binds the listener. *)
Definition server_begin : M unit :=
  modify (fun s =>
    set_server {| listening := true;
                  routes := routes (server s);
                  cors := cors (server s) |} s).

(** [server.send(code, type, body)]; the cross-origin header is added when
    CORS is enabled. *)
Definition server_send (c : Z) (ty : string) (b : string) : M unit :=
  co <- get (fun s => cors (server s)) ;;
  emit (EvSend {| code := c; content_type := ty; body := b;
                  allow_origin := co |}).

Fixpoint find_route (path : string) (rs : list (string * Fn)) : option Fn :=
  match rs with
  | [] => None
  | (p, h) :: rs' => if String.eqb p path then Some h else find_route path rs'
  end.

(** ** The sketch *)

Definition sensorInterval : Z := 500.
Definition wifiCheckInterval : Z := 10000.
Definition wifiLogInterval : Z := 30000.

Definition set_visible_ir (v : Z) (d : SensorData) : SensorData :=
  {| visible_ir := v; ir := ir d; lux := lux d; timestamp := timestamp d |}.
Definition set_ir (v : Z) (d : SensorData) : SensorData :=
  {| visible_ir := visible_ir d; ir := v; lux := lux d;
     timestamp := timestamp d |}.
Definition set_lux (v : float P) (d : SensorData) : SensorData :=
  {| visible_ir := visible_ir d; ir := ir d; lux := v;
     timestamp := timestamp d |}.
Definition set_timestamp (v : Z) (d : SensorData) : SensorData :=
  {| visible_ir := visible_ir d; ir := ir d; lux := lux d; timestamp := v |}.

(** [readLightSensor()]: one raw reading, split into its two channels,
    stored field by field, then one diagnostic line. *)
Definition readLightSensor : M unit :=
  emit (EvCall FreadLightSensor) ;;
  full <- tsl_getFullLuminosity ;;
  let ir := uint16 (Z.shiftr full 16) in
  let broadband := uint16 (Z.land full 65535) in
  let lux := calculateLux P broadband ir in
  modify (fun s => set_latestData (set_visible_ir broadband (latestData s)) s) ;;
  modify (fun s => set_latestData (set_ir ir (latestData s)) s) ;;
  modify (fun s => set_latestData (set_lux lux (latestData s)) s) ;;
  now <- millis ;;
  modify (fun s => set_latestData (set_timestamp now (latestData s)) s) ;;
  connected <- get wifiConnected ;;
  Serial_println (MsgSensor broadband ir lux connected).

(** [handleRoot()]: the status page. *)
Definition handleRoot : M unit :=
  emit (EvCall FhandleRoot) ;;
  server_send 200 "text/html" (status_page P).

(** [handleData()]: the JSON text is built by successive [+=]. *)
Definition handleData : M unit :=
  emit (EvCall FhandleData) ;;
  d <- get latestData ;;
  let json := "{"%string in
  let json := (json ++ (quoted "visible_ir" ++ ":" ++ String_int (visible_ir d) ++ ","))%string in
  let json := (json ++ (quoted "ir" ++ ":" ++ String_int (ir d) ++ ","))%string in
  let json := (json ++ (quoted "lux" ++ ":" ++ String_float P (lux d) 2 ++ ","))%string in
  let json := (json ++ (quoted "timestamp" ++ ":" ++ String_int (timestamp d)))%string in
  let json := (json ++ "}")%string in
  server_send 200 "application/json" json.

(** Calling through a registered function pointer. *)
Definition call_handler (h : Fn) : M unit :=
  match h with
  | FhandleRoot => handleRoot
  | FhandleData => handleData
  | _ => ret tt
  end.

(** [server.handleClient()]: serves the waiting client, if the listener is
    bound; an unregistered path gets the library's 404. *)
Definition server_handleClient : M unit :=
  req <- next_client ;;
  match req with
  | None => ret tt
  | Some path =>
      up <- get (fun s => listening (server s)) ;;
      if up then
        rs <- get (fun s => routes (server s)) ;;
        match find_route path rs with
        | Some h => call_handler h
        | None => server_send 404 "text/plain" "Not found"
        end
      else ret tt
  end.

(** [connectToNYUWiFi()]: tear down, configure, [WiFi.begin], then poll the
    status once per second while it is not connected and fewer than 30
    attempts were made. *)
Definition connectToNYUWiFi (fuel : nat) : M unit :=
  emit (EvCall FconnectToNYUWiFi) ;;
  Serial_println MsgConnecting ;;
  WiFi_do OpDisconnect ;;
  delay 1000 ;;
  WiFi_do OpModeSTA ;;
  WiFi_do OpEapConfig ;;
  WiFi_do OpEnterpriseEnable ;;
  WiFi_do OpBegin ;;
  let attempts := 0 in
  _ <- while_ fuel
         (fun attempts =>
            st <- WiFi_status ;;
            ret (negb (is_connected st) && (attempts <? 30)))
         (fun attempts =>
            delay 1000 ;;
            Serial_println MsgDot ;;
            ret (sint (attempts + 1)))
         attempts ;;
  st <- WiFi_status ;;
  if is_connected st then Serial_println MsgWifiOk
  else Serial_println MsgWifiFail.

(** [monitorWiFiConnection()]: the periodic link check. *)
Definition monitorWiFiConnection (fuel : nat) : M unit :=
  emit (EvCall FmonitorWiFiConnection) ;;
  st <- WiFi_status ;;
  if negb (is_connected st) then
    connected <- get wifiConnected ;;
    when connected
      (Serial_println MsgConnLost ;;
       modify (set_wifiConnected false) ;;
       modify (fun s =>
         set_wifiReconnectAttempts (sint (wifiReconnectAttempts s + 1)) s)) ;;
    connectToNYUWiFi fuel ;;
    st' <- WiFi_status ;;
    connected' <- get wifiConnected ;;
    when (is_connected st' && negb connected')
      (modify (set_wifiConnected true) ;;
       server_begin ;;
       Serial_println MsgServerRestarted)
  else
    connected <- get wifiConnected ;;
    when (negb connected)
      (modify (set_wifiConnected true) ;;
       Serial_println MsgConnRestored) ;;
    Serial_println MsgSignal.

(** [logDetailedWiFiStatus()], [printConnectionDetails()] and
    [testInternetConnection()]: diagnostics; the first and the last probe
    the status once. *)
Definition logDetailedWiFiStatus : M unit :=
  emit (EvCall FlogDetailedWiFiStatus) ;;
  st <- WiFi_status ;;
  Serial_println (MsgDetailed (is_connected st)).

Definition printConnectionDetails : M unit :=
  emit (EvCall FprintConnectionDetails) ;;
  Serial_println MsgConnDetails.

Definition testInternetConnection : M unit :=
  emit (EvCall FtestInternetConnection) ;;
  Serial_println MsgTesting ;;
  st <- WiFi_status ;;
  if is_connected st then
    code <- http_GET ;;
    if code =? 200 then Serial_println MsgInternetOk
    else Serial_println (MsgHttpFailed code)
  else Serial_println MsgNotConnected.

(** [setup()].  [Serial.begin], [pinMode] and [Wire.begin] leave nothing in
    the model; a missing sensor ends in the [while (1)] indicator loop. *)
Definition setup (fuel : nat) : M unit :=
  emit (EvCall Fsetup) ;;
  delay 2000 ;;
  Serial_println MsgBanner ;;
  digitalWrite true ;;
  Serial_println MsgLedInit ;;
  Serial_println MsgI2C ;;
  when (negb (tsl_begin P))
    (Serial_println MsgTslNotFound ;;
     while_ fuel
       (fun _ => ret true)
       (fun _ =>
          digitalWrite true ;;
          delay 100 ;;
          digitalWrite false ;;
          delay 100)
       tt) ;;
  Serial_println MsgTslFound ;;
  emit EvSensorConfig ;;
  Serial_println MsgSensorConfigured ;;
  connectToNYUWiFi fuel ;;
  st <- WiFi_status ;;
  when (is_connected st)
    (modify (set_wifiConnected true) ;;
     printConnectionDetails ;;
     testInternetConnection ;;
     server_on "/" FhandleRoot ;;
     server_on "/data" FhandleData ;;
     server_enableCORS true ;;
     server_begin ;;
     Serial_println MsgServerStarted) ;;
  Serial_println MsgInitialized.

(** The scheduler's test [now - last >= interval] in [unsigned long]
    arithmetic; a [long] interval is converted to [unsigned long] first. *)
Definition due (now last interval : Z) : bool :=
  ulong (now - last) >=? ulong interval.

(** [loop()]: one tick of the scheduler. *)
Definition loop (fuel : nat) : M unit :=
  emit (EvCall Floop) ;;
  currentMillis <- millis ;;
  server_handleClient ;;
  prev <- get prevSensorMillis ;;
  when (due currentMillis prev sensorInterval)
    (modify (set_prevSensorMillis currentMillis) ;;
     readLightSensor) ;;
  prev <- get previousWiFiMillis ;;
  when (due currentMillis prev wifiCheckInterval)
    (modify (set_previousWiFiMillis currentMillis) ;;
     monitorWiFiConnection fuel) ;;
  prev <- get wifiLogMillis ;;
  when (due currentMillis prev wifiLogInterval)
    (modify (set_wifiLogMillis currentMillis) ;;
     logDetailedWiFiStatus).

(** [n] iterations of [loop]. *)
Fixpoint ticks (fuel : nat) (n : nat) : M unit :=
  match n with
  | O => ret tt
  | S n' => ticks fuel n' ;; loop fuel
  end.

(** The Arduino core's [main]: [setup()] once, then [loop()] for ever; here
    the first [n] iterations. *)
Definition sketch (fuel : nat) (n : nat) : M unit :=
  setup fuel ;; ticks fuel n.

(** How often function [f] was entered according to a trace. *)
Fixpoint calls (f : Fn) (tr : list Event) : nat :=
  match tr with
  | [] => O
  | EvCall g :: tr' =>
      if Fn_eq_dec f g then S (calls f tr') else calls f tr'
  | _ :: tr' => calls f tr'
  end.

End Firmware.

(** ** Vocabulary of the properties *)

Section Vocabulary.

Context {P : Platform}.

(** A relation between the state before and after a computation holds
    whatever the computation does, also when it runs out of fuel. *)
Definition preserves {A} (R : @Sys P -> @Sys P -> Prop) (m : M A) : Prop :=
  forall s, R s (exec m s).

(** The computation returns (does not run out of fuel) from every state. *)
Definition returns {A} (m : @M P A) : Prop :=
  forall s, result m s <> None.

Definition same {B} (f : @Sys P -> B) : @Sys P -> @Sys P -> Prop :=
  fun s s' => f s' = f s.

Definition grows (f : @Sys P -> nat) : @Sys P -> @Sys P -> Prop :=
  fun s s' => (f s <= f s')%nat.

(** The snapshot one sample produces from the composite raw value [full]
    read at counter value [now]. *)
Definition snapshot_of (full now : Z) : @SensorData P :=
  let hi := full / 2 ^ 16 in
  let lo := full mod 2 ^ 16 in
  {| visible_ir := lo; ir := hi; lux := calculateLux P lo hi;
     timestamp := now |}.

(** A JSON object given by its members, rendered without white space. *)
Fixpoint json_members (kvs : list (string * string)) : string :=
  match kvs with
  | [] => EmptyString
  | [(k, v)] => quoted k ++ ":" ++ v
  | (k, v) :: rest => quoted k ++ ":" ++ v ++ "," ++ json_members rest
  end.

Definition json_object (kvs : list (string * string)) : string :=
  ("{" ++ json_members kvs ++ "}")%string.

(** The four members of a [/data] response. *)
Definition data_members (d : @SensorData P) : list (string * string) :=
  [ ("visible_ir", String_int (visible_ir d));
    ("ir", String_int (ir d));
    ("lux", String_float P (lux d) 2);
    ("timestamp", String_int (timestamp d)) ]%string.

Definition data_response (d : @SensorData P) (co : bool) : @Response :=
  {| code := 200; content_type := "application/json";
     body := json_object (data_members d); allow_origin := co |}.

End Vocabulary.


Section Outcomes.

Context {P : Platform}.

(** The state one sampler invocation leaves. *)
Definition sampled (s : @Sys P) : @Sys P :=
  let full := uint32 (luminosity_at P (sensor_reads s)) in
  let now := ulong (millis_at P (clock_reads s)) in
  let d := snapshot_of full now in
  {| latestData := d;
     prevSensorMillis := prevSensorMillis s;
     previousWiFiMillis := previousWiFiMillis s;
     wifiLogMillis := wifiLogMillis s;
     wifiConnected := wifiConnected s;
     wifiReconnectAttempts := wifiReconnectAttempts s;
     server := server s;
     clock_reads := S (clock_reads s);
     status_reads := status_reads s;
     sensor_reads := S (sensor_reads s);
     client_polls := client_polls s;
     http_gets := http_gets s;
     trace := EvSerial (MsgSensor (visible_ir d) (ir d) (lux d) (wifiConnected s))
              :: EvCall FreadLightSensor :: trace s |}.

(** The state one [/data] request leaves. *)
Definition served (s : @Sys P) : @Sys P :=
  set_trace (EvSend (data_response (latestData s) (cors (server s)))
             :: EvCall FhandleData :: trace s) s.

End Outcomes.


Section ConnectOutcome.

Context {P : Platform}.

(** How many one-second waits the connect loop makes when its first probe
    is the [i]-th status answer and [n] attempts are left: it stops at the
    first connected answer. *)
Fixpoint waits (n : nat) (i : nat) : nat :=
  match n with
  | O => O
  | S n' =>
      if is_connected (status_at P i) then O else S (waits n' (S i))
  end.

(** What one wait adds to the trace. *)
Definition wait_events (tr : list (@Event P)) : list (@Event P) :=
  EvSerial MsgDot :: EvDelay 1000 :: tr.

(** The state the connect loop leaves after [k] waits and [k + 1] probes. *)
Definition waited (k : nat) (s : @Sys P) : @Sys P :=
  set_status_reads (status_reads s + S k)
    (set_trace (Nat.iter k wait_events (trace s)) s).

(** The state [connectToNYUWiFi] leaves. *)
Definition connect_outcome (s : @Sys P) : @Sys P :=
  let k := waits 30 (status_reads s) in
  let final := status_at P (status_reads s + S k) in
  set_status_reads (status_reads s + S (S k))
    (set_trace
       (EvSerial (if is_connected final then MsgWifiOk else MsgWifiFail)
        :: Nat.iter k wait_events
             (EvWiFi OpBegin :: EvWiFi OpEnterpriseEnable
              :: EvWiFi OpEapConfig :: EvWiFi OpModeSTA :: EvDelay 1000
              :: EvWiFi OpDisconnect :: EvSerial MsgConnecting
              :: EvCall FconnectToNYUWiFi :: trace s)) s).

(** Sum of the [delay] arguments in a trace. *)
Fixpoint delayed (tr : list (@Event P)) : Z :=
  match tr with
  | [] => 0
  | EvDelay ms :: tr' => ms + delayed tr'
  | _ :: tr' => delayed tr'
  end.

(** Number of [WiFi.begin] calls in a trace. *)
Fixpoint begins (tr : list (@Event P)) : nat :=
  match tr with
  | [] => O
  | EvWiFi OpBegin :: tr' => S (begins tr')
  | _ :: tr' => begins tr'
  end.

End ConnectOutcome.

Arguments waits : clear implicits.


Section TickPhases.

Context {P : Platform}.

(** The four phases of one scheduler tick that read the counter as [now]:
    request handling, then the three periodic tasks in their fixed order. *)
Definition tick_requests (s : @Sys P) : @Sys P :=
  exec server_handleClient
    (set_clock_reads (S (clock_reads s))
       (set_trace (EvCall Floop :: trace s) s)).

Definition tick_sensor (now : Z) (s : @Sys P) : @Sys P :=
  if due now (prevSensorMillis s) sensorInterval
  then exec readLightSensor (set_prevSensorMillis now s)
  else s.

Definition tick_link (fuel : nat) (now : Z) (s : @Sys P) : @Sys P :=
  if due now (previousWiFiMillis s) wifiCheckInterval
  then exec (monitorWiFiConnection fuel) (set_previousWiFiMillis now s)
  else s.

Definition tick_log (now : Z) (s : @Sys P) : @Sys P :=
  if due now (wifiLogMillis s) wifiLogInterval
  then exec logDetailedWiFiStatus (set_wifiLogMillis now s)
  else s.

(** 1 when the task ran, 0 when it did not. *)
Definition ran (b : bool) : nat := if b then 1%nat else 0%nat.

End TickPhases.


Section Frames.

Context {P : Platform}.

(** The scheduler's three timers. *)
Definition timers (s : @Sys P) : Z * Z * Z :=
  (prevSensorMillis s, previousWiFiMillis s, wifiLogMillis s).

(** How often each periodic task has run. *)
Definition task_calls (s : @Sys P) : nat * nat * nat :=
  (calls FreadLightSensor (trace s),
   calls FmonitorWiFiConnection (trace s),
   calls FlogDetailedWiFiStatus (trace s)).

End Frames.


(** ** Test benches

    Platforms for concrete runs.  The stand-in for [float] is [Z] (whole
    lux), with a stand-in calibration; only the oracles matter. *)

Definition bench (begin_ok : bool) (lum clock : nat -> Z)
    (st : nat -> wl_status_t) (req : nat -> option string) : Platform := {|
  float := Z;
  float_zero := 0;
  calculateLux := fun broadband ir => broadband - ir;
  String_float := fun x _ => (String_int x ++ ".00")%string;
  tsl_begin := begin_ok;
  luminosity_at := lum;
  millis_at := clock;
  status_at := st;
  http_get_at := fun _ => 200;
  client_at := req;
  status_page := "status"
|}.

(** The counter reads 31,000 ms at the first tick; the link is up. *)
Definition bench_late_tick : Platform :=
  bench true (fun _ => 0) (fun _ => 31000) (fun _ => WL_CONNECTED)
    (fun _ => None).


Section Bounds.

Context {P : Platform}.

(** A counter read off the state grows by at most [n]. *)
Definition upto (f : @Sys P -> nat) (n : nat) : @Sys P -> @Sys P -> Prop :=
  fun s s' => (f s' <= f s + n)%nat.

End Bounds.


Section LinkCheckOutcome.

Context {P : Platform}.

(** A link check found the link down: the state in which its connect
    sequence starts.  The drop is noted when the flag was still set. *)
Definition drop_noted (s : @Sys P) : @Sys P :=
  let s0 := set_status_reads (S (status_reads s))
              (set_trace (EvCall FmonitorWiFiConnection :: trace s) s) in
  if wifiConnected s then
    set_wifiReconnectAttempts (sint (wifiReconnectAttempts s + 1))
      (set_wifiConnected false
         (set_trace (EvSerial MsgConnLost :: trace s0) s0))
  else s0.

(** After the connect sequence: the status is probed once more and, when
    the link is up and the flag clear, the server is restarted. *)
Definition relinked (s : @Sys P) : @Sys P :=
  let st := status_at P (status_reads s) in
  let s1 := set_status_reads (S (status_reads s)) s in
  if is_connected st && negb (wifiConnected s) then
    set_trace (EvSerial MsgServerRestarted :: trace s)
      (set_server {| listening := true;
                     routes := routes (server s);
                     cors := cors (server s) |}
         (set_wifiConnected true s1))
  else s1.

(** A link check found the link up. *)
Definition link_seen_up (s : @Sys P) : @Sys P :=
  let s0 := set_status_reads (S (status_reads s))
              (set_trace (EvCall FmonitorWiFiConnection :: trace s) s) in
  if wifiConnected s then
    set_trace (EvSerial MsgSignal :: trace s0) s0
  else
    set_trace (EvSerial MsgSignal :: EvSerial MsgConnRestored :: trace s0)
      (set_wifiConnected true s0).

(** The state one link check leaves. *)
Definition link_checked (s : @Sys P) : @Sys P :=
  if is_connected (status_at P (status_reads s))
  then link_seen_up s
  else relinked (connect_outcome (drop_noted s)).

End LinkCheckOutcome.


Section LinkVocabulary.

Context {P : Platform}.

(** What the link supervisor owns: its flag, its counter, and the server
    whose listener it restarts. *)
Definition link_view (s : @Sys P) : bool * Z * @Server :=
  (wifiConnected s, wifiReconnectAttempts s, server s).

(** The network answers not-connected from the [i]-th probe on. *)
Definition link_down_from (i : nat) : Prop :=
  forall j, (i <= j)%nat -> is_connected (status_at P j) = false.

End LinkVocabulary.

Arguments link_down_from : clear implicits.


Section BootOutcome.

Context {P : Platform}.

(** One cycle of the indicator in the failed-sensor loop. *)
Definition blink_events (tr : list (@Event P)) : list (@Event P) :=
  EvDelay 100 :: EvLed false :: EvDelay 100 :: EvLed true :: tr.

(** What [setup] has put on the trace when it finds the sensor missing. *)
Definition sensor_missing (tr : list (@Event P)) : list (@Event P) :=
  EvSerial MsgTslNotFound :: EvSerial MsgI2C :: EvSerial MsgLedInit
  :: EvLed true :: EvSerial MsgBanner :: EvDelay 2000 :: EvCall Fsetup :: tr.

(** The server as [setup] leaves it when the boot-time connect succeeded. *)
Definition registered (srv : @Server) : @Server :=
  {| listening := true;
     routes := routes srv ++ [("/", FhandleRoot); ("/data", FhandleData)]%string;
     cors := true |}.

(** Server and link flag as [setup] found them. *)
Definition untouched (s s' : @Sys P) : Prop :=
  server s' = server s /\ wifiConnected s' = wifiConnected s.

(** The two ways [setup] can leave the server. *)
Definition boot_result (s s' : @Sys P) : Prop :=
  untouched s s' \/
  (wifiConnected s' = true /\ server s' = registered (server s)).

(** Whatever [m] does from a state related to [s0] by [R], it ends in a
    state related to [s0] by [Q]. *)
Definition after {A} (R Q : @Sys P -> @Sys P -> Prop) (m : M A) : Prop :=
  forall s0 s1, R s0 s1 -> Q s0 (exec m s1).

End BootOutcome.


Section Observations.

Context {P : Platform}.

(** The responses sent according to a trace, most recent first. *)
Fixpoint sends (tr : list (@Event P)) : list Response :=
  match tr with
  | [] => []
  | EvSend r :: tr' => r :: sends tr'
  | _ :: tr' => sends tr'
  end.

(** Routes and cross-origin policy of the server. *)
Definition route_table (s : @Sys P) : list (string * Fn) * bool :=
  (routes (server s), cors (server s)).

End Observations.


Section Clock.

Context {P : Platform}.

(** The true time never runs backwards. *)
Definition clock_monotone : Prop :=
  forall i j, (i <= j)%nat -> 0 <= millis_at P i <= millis_at P j.

(** The 32-bit counter did not wrap around between its [i]-th and its
    [j]-th reading: the true time did not run backwards and both readings
    lie in the same period of 2^32 ms. *)
Definition no_wrap_between (i j : nat) : Prop :=
  millis_at P i <= millis_at P j /\
  millis_at P i / 2 ^ 32 = millis_at P j / 2 ^ 32.

End Clock.

Arguments clock_monotone : clear implicits.
Arguments no_wrap_between : clear implicits.


Section DataTypes.

Context {P : Platform}.

(** Reading back a decimal member of the response. *)
Definition parse_uint (s : string) : option Z :=
  option_map (fun d => Z.of_N (N.of_uint d)) (NilZero.uint_of_string s).

(** The integer fields are within their C types ([uint16_t], [uint16_t],
    [unsigned long]). *)
Definition well_typed (d : @SensorData P) : Prop :=
  0 <= visible_ir d < 2 ^ 16 /\
  0 <= ir d < 2 ^ 16 /\
  0 <= timestamp d < 2 ^ 32.

End DataTypes.


(** The network never connects. *)
Definition bench_link_down : Platform :=
  bench true (fun _ => 0) (fun k => 40000 * Z.of_nat (k / 2 + 1))
    (fun _ => WL_DISCONNECTED) (fun _ => None).

(** The link is up during boot (four probes) and down ever after; ticks are
    40 s apart. *)
Definition bench_link_drop : Platform :=
  bench true (fun _ => 0) (fun k => 40000 * Z.of_nat (k / 2 + 1))
    (fun k => if (k <? 4)%nat then WL_CONNECTED else WL_DISCONNECTED)
    (fun _ => None).

(** The boot-time connect fails (33 probes), then the link comes up by
    itself; ticks are 10 s apart and a client asks for [/data] at the
    second tick. *)
Definition bench_late_link : Platform :=
  bench true (fun _ => 0) (fun k => 10000 * Z.of_nat (k / 2 + 1))
    (fun k => if (k <? 33)%nat then WL_DISCONNECTED else WL_CONNECTED)
    (fun k => if (k =? 1)%nat then Some "/data"%string else None).

(** The boot-time connect fails, the first link check finds the link still
    down (34th probe) and its connect sequence succeeds at once; a client
    asks for [/data] at the second tick. *)
Definition bench_reconnect : Platform :=
  bench true (fun _ => 0) (fun k => 10000 * Z.of_nat (k / 2 + 1))
    (fun k => if (k <? 34)%nat then WL_DISCONNECTED else WL_CONNECTED)
    (fun k => if (k =? 1)%nat then Some "/data"%string else None).

(** The sensor does not answer at boot. *)
Definition bench_no_sensor : Platform :=
  bench false (fun _ => 0) (fun k => Z.of_nat k) (fun _ => WL_CONNECTED)
    (fun _ => None).

(** A steady clock: 600 ms between readings. *)
Definition bench_steady : Platform :=
  bench true (fun _ => 0) (fun k => 600 * Z.of_nat k) (fun _ => WL_CONNECTED)
    (fun _ => None).

(** Two raw readings: broadband 100 with infrared 10, then broadband 50
    with infrared 5. *)
Definition bench_two_samples : Platform :=
  bench true
    (fun k => if (k =? 0)%nat then 10 * 65536 + 100 else 5 * 65536 + 50)
    (fun k => 600 * Z.of_nat k) (fun _ => WL_CONNECTED) (fun _ => None).

(** The counter passes 2^32 between two ticks: the readings are taken at
    true times 4294967000, 4294967001, 4294967600 and 4294967601 ms. *)
Definition bench_wrap : Platform :=
  bench true (fun _ => 0)
    (fun k => 4294967000 + 600 * Z.of_nat (k / 2) + Z.of_nat (k mod 2))
    (fun _ => WL_CONNECTED) (fun _ => None).

(** The state of a device that has been up for almost 2^32 ms: server
    registered, link up, last sample stamped 4294966501. *)
Definition near_wrap : @Sys bench_wrap := {|
  latestData := @Build_SensorData bench_wrap 0 0 0 4294966501;
  prevSensorMillis := 4294966500;
  previousWiFiMillis := 4294966000;
  wifiLogMillis := 4294960000;
  wifiConnected := true;
  wifiReconnectAttempts := 0;
  server := registered {| listening := false; routes := []; cors := false |};
  clock_reads := 0; status_reads := 0; sensor_reads := 0;
  client_polls := 0; http_gets := 0;
  trace := []
|}.


Section Decoding.

Context {P : Platform}.

(** A client's view of the [/data] body: the four members in order, the
    integer ones read back as numbers, the illuminance kept as text. *)
Fixpoint strip_prefix (p s : string) : option string :=
  match p with
  | EmptyString => Some s
  | String a p' =>
      match s with
      | String b s' => if Ascii.eqb a b then strip_prefix p' s' else None
      | EmptyString => None
      end
  end.

(** The text before the first occurrence of [c], and the text after it. *)
Fixpoint split_at (c : ascii) (s : string) : string * string :=
  match s with
  | EmptyString => (EmptyString, EmptyString)
  | String a s' =>
      if Ascii.eqb a c then (EmptyString, s')
      else let (before, rest) := split_at c s' in (String a before, rest)
  end.

(** [c] does not occur in [s]. *)
Fixpoint free_of (c : ascii) (s : string) : Prop :=
  match s with
  | EmptyString => True
  | String a s' => a <> c /\ free_of c s'
  end.

Definition member (key : string) (sep : ascii) (s : string)
    : option (string * string) :=
  match strip_prefix (quoted key ++ ":") s with
  | Some r => Some (split_at sep r)
  | None => None
  end.

Definition decode_data (body : string) : option (Z * Z * string * Z) :=
  match strip_prefix "{" body with
  | None => None
  | Some r0 =>
    match member "visible_ir" "," r0 with
    | None => None
    | Some (v1, r1) =>
      match member "ir" "," r1 with
      | None => None
      | Some (v2, r2) =>
        match member "lux" "," r2 with
        | None => None
        | Some (v3, r3) =>
          match member "timestamp" "}" r3 with
          | Some (v4, EmptyString) =>
              match parse_uint v1, parse_uint v2, parse_uint v4 with
              | Some a, Some b, Some t => Some (a, b, v3, t)
              | _, _, _ => None
              end
          | _ => None
          end
        end
      end
    end
  end.

End Decoding.


Section TickVocabulary.

Context {P : Platform}.

(** What the sketch's own logic owns besides the trace: snapshot, timers,
    link flag and counter, server. *)
Definition globals (s : @Sys P) :=
  (latestData s, timers s, link_view s).

(** The response [handleRoot] sends. *)
Definition root_response (co : bool) : Response :=
  {| code := 200; content_type := "text/html"; body := status_page P;
     allow_origin := co |}.

(** The library's answer to a path without handler. *)
Definition not_found_response (co : bool) : Response :=
  {| code := 404; content_type := "text/plain"; body := "Not found";
     allow_origin := co |}.

End TickVocabulary.

Arguments root_response : clear implicits.


(** Sensor and link are there at boot; the first three ticks find a client
    waiting, for [/data], for [/] and for a path that is not registered. *)
Definition bench_requests : Platform :=
  bench true (fun _ => 10 * 65536 + 100) (fun k => 600 * Z.of_nat k)
    (fun _ => WL_CONNECTED)
    (fun k => match k with
              | O => Some "/data"%string
              | S O => Some "/"%string
              | S (S O) => Some "/favicon.ico"%string
              | _ => None
              end).


(** * The dashboards

    The web pages that poll the sensor.  A component is its state together
    with what each callback does to it.  React applies the state updates of
    a callback in order, a functional update to the latest state; what a
    callback closes over (state of the render that created it) is an
    explicit argument of its model.  A fetch that is in flight keeps the
    callback that started it: the pages that can restart their polling
    effect carry their fetches in flight, each with what it closed over. *)

Module Dashboard.

(** What the pages use of the JavaScript runtime: numbers with integer
    literals and [<], and [String.prototype.trim]. *)
Record Runtime : Type := {
  number : Type;
  of_Z : Z -> number;
  lt : number -> number -> bool;
  trim : string -> string
}.

Section Arrays.

Context {A : Type}.

(** [arr.slice(start)]: a negative [start] counts from the end, and the
    start is clamped to the array. *)
Definition slice (start : Z) (arr : list A) : list A :=
  let len := Z.of_nat (List.length arr) in
  let k := if start <? 0 then Z.max (len + start) 0 else Z.min start len in
  skipn (Z.to_nat k) arr.

(** The last [n] elements of an array. *)
Definition lastn (n : nat) (arr : list A) : list A :=
  skipn (List.length arr - n) arr.

(** The array without its [i]-th element. *)
Fixpoint without (i : nat) (arr : list A) : list A :=
  match arr, i with
  | [], _ => []
  | _ :: arr', O => arr'
  | x :: arr', S i' => x :: without i' arr'
  end.

End Arrays.


(** ** [page.tsx]: the page over the mock API *)

Module Home.

Section Component.

Context {R : Runtime}.

Record DataPoint : Type := { time : string; value : number R }.

Definition THRESHOLD : number R := of_Z R 30.

(** [alert] holds the value the alert message reports. *)
Record State : Type := {
  dataPoints : list DataPoint;
  alert : option (number R);
  isPaused : bool;
  bufferedPoints : list DataPoint
}.

Definition initial : State :=
  {| dataPoints := []; alert := None; isPaused := false;
     bufferedPoints := [] |}.

(** The interval callback once the reading has arrived; [paused] is the
    [isPaused] of the render whose effect started the interval. *)
Definition on_reading (paused : bool) (newValue : DataPoint) (s : State)
    : State :=
  {| dataPoints :=
       if paused then dataPoints s
       else slice (-29) (dataPoints s) ++ [newValue];
     alert :=
       if lt R (value newValue) THRESHOLD then Some (value newValue)
       else None;
     isPaused := isPaused s;
     bufferedPoints :=
       if paused then bufferedPoints s ++ [newValue]
       else bufferedPoints s |}.

Definition handlePause (s : State) : State :=
  {| dataPoints := dataPoints s; alert := alert s; isPaused := true;
     bufferedPoints := bufferedPoints s |}.

(** [buffered] is the [bufferedPoints] of the render that created the
    handler. *)
Definition handleResume (buffered : list DataPoint) (s : State) : State :=
  {| dataPoints :=
       slice (-29 + Z.of_nat (List.length buffered)) (dataPoints s)
       ++ buffered;
     alert := alert s;
     isPaused := false;
     bufferedPoints := [] |}.

(** The mounted page: its state and the fetches in flight, oldest first,
    each with the [isPaused] its interval callback closed over. *)
Record Mounted : Type := {
  state : State;
  in_flight : list bool
}.

Definition mount : Mounted := {| state := initial; in_flight := [] |}.

Inductive Event : Type :=
| Tick
| Reading (i : nat) (p : DataPoint)
| Lost (i : nat)
| ClickPause
| ClickResume.

(** [Tick]: the interval of the running effect fires and its callback
    starts a fetch; the effect is restarted on every change of [isPaused],
    so this callback closed over the current [isPaused].  [Reading i p]:
    the [i]-th fetch in flight resolves with reading [p] and its callback
    goes on with what it closed over, whatever has been clicked meanwhile
    ([clearInterval] does not cancel a fetch).  [Lost i]: that fetch
    fails and the callback throws.  A click is handled by the handlers of
    the render of the current state; a disabled button (Pause while
    paused, Resume while running) does not click. *)
Definition step (m : Mounted) (e : Event) : Mounted :=
  match e with
  | Tick =>
      {| state := state m;
         in_flight := in_flight m ++ [isPaused (state m)] |}
  | Reading i p =>
      match nth_error (in_flight m) i with
      | Some paused =>
          {| state := on_reading paused p (state m);
             in_flight := without i (in_flight m) |}
      | None => m
      end
  | Lost i => {| state := state m; in_flight := without i (in_flight m) |}
  | ClickPause =>
      if isPaused (state m) then m
      else {| state := handlePause (state m); in_flight := in_flight m |}
  | ClickResume =>
      if isPaused (state m)
      then {| state := handleResume (bufferedPoints (state m)) (state m);
              in_flight := in_flight m |}
      else m
  end.

Definition run (es : list Event) (m : Mounted) : Mounted :=
  fold_left step es m.

(** The readings that arrive during a run, in order of arrival, each with
    the [isPaused] its callback had closed over. *)
Fixpoint handled (es : list Event) (m : Mounted) : list (bool * DataPoint) :=
  match es with
  | [] => []
  | e :: es' =>
      match e with
      | Reading i p =>
          match nth_error (in_flight m) i with
          | Some paused => [(paused, p)]
          | None => []
          end
      | _ => []
      end ++ handled es' (step m e)
  end.

Definition is_pause (e : Event) : bool :=
  match e with ClickPause => true | _ => false end.


End Component.

End Home.


(** ** [SensorDashboard.tsx], lines 250-297: the plain chart *)

Module Chart.

Section Component.

Context {R : Runtime}.

(** The update of [dataPoints] by the interval callback. *)
Definition on_reading (p : @Home.DataPoint R) (prev : list Home.DataPoint)
    : list Home.DataPoint :=
  slice (-29) prev ++ [p].

End Component.

End Chart.


(** ** [SensorDashboard.tsx], lines 1-185: the dashboard of the device *)

Module SensorDashboard.

Section Component.

Context {R : Runtime}.

Record SensorData : Type := {
  visible_ir : number R;
  ir : number R;
  lux : number R;
  timestamp : number R
}.

Inductive Status : Type := connected | disconnected | loading.

Definition DEFAULT_IP : string := "192.168.1.51".

Definition fetch_failed : string :=
  "Failed to fetch sensor data. Please check connection and IP address.".

Record State : Type := {
  ip : string;
  inputIp : string;
  dataPoints : list SensorData;
  status : Status;
  error : option string;
  lastUpdate : option (number R)
}.

Definition initial : State :=
  {| ip := DEFAULT_IP; inputIp := DEFAULT_IP; dataPoints := [];
     status := loading; error := None; lastUpdate := None |}.

(** The head of the polling effect. *)
Definition effect_start (s : State) : State :=
  {| ip := ip s; inputIp := inputIp s; dataPoints := [];
     status := loading; error := None; lastUpdate := None |}.

(** [fetchData], the response was [ok] and its body parsed to [json]. *)
Definition on_success (json : SensorData) (s : State) : State :=
  {| ip := ip s; inputIp := inputIp s;
     dataPoints := slice (-60) (dataPoints s ++ [json]);
     status := connected; error := None;
     lastUpdate := Some (timestamp json) |}.

(** [fetchData], the fetch was rejected, the response not [ok] or its body
    no JSON; [seen] is the [dataPoints] of the render whose effect defined
    [fetchData]. *)
Definition on_failure (seen : list SensorData) (s : State) : State :=
  {| ip := ip s; inputIp := inputIp s; dataPoints := dataPoints s;
     status := if (List.length seen =? 0)%nat then loading else disconnected;
     error := Some fetch_failed;
     lastUpdate := lastUpdate s |}.

Definition setInputIp (text : string) (s : State) : State :=
  {| ip := ip s; inputIp := text; dataPoints := dataPoints s;
     status := status s; error := error s; lastUpdate := lastUpdate s |}.

Definition setIp (new_ip : string) (s : State) : State :=
  {| ip := new_ip; inputIp := inputIp s; dataPoints := dataPoints s;
     status := status s; error := error s; lastUpdate := lastUpdate s |}.

(** The mounted component: its state and the [dataPoints] the running
    effect closed over. *)
Record Mounted : Type := {
  state : State;
  closed_over : list SensorData
}.

Definition mount : Mounted :=
  {| state := effect_start initial; closed_over := dataPoints initial |}.

Inductive Event : Type :=
| Success (json : SensorData)
| Failure
| Type_ (text : string)
| Submit.

(** The effect depends on [ip] alone: it is restarted, closing over the
    state of that render, only when a submit changes [ip].  A fetch is
    taken to complete before the next restart. *)
Definition step (m : Mounted) (e : Event) : Mounted :=
  match e with
  | Success json =>
      {| state := on_success json (state m); closed_over := closed_over m |}
  | Failure =>
      {| state := on_failure (closed_over m) (state m);
         closed_over := closed_over m |}
  | Type_ text =>
      {| state := setInputIp text (state m); closed_over := closed_over m |}
  | Submit =>
      let new_ip := trim R (inputIp (state m)) in
      if String.eqb new_ip (ip (state m)) then m
      else {| state := effect_start (setIp new_ip (state m));
              closed_over := dataPoints (state m) |}
  end.

Definition run (es : list Event) (m : Mounted) : Mounted :=
  fold_left step es m.


Definition successes (es : list Event) : list SensorData :=
  flat_map (fun e => match e with Success json => [json] | _ => [] end) es.

End Component.

End SensorDashboard.


(** ** [page.tsx], second version: the page over the device *)

Module HomeLive.

Section Component.

Context {R : Runtime}.

Definition SensorData : Type := @SensorDashboard.SensorData R.
Definition Status : Type := SensorDashboard.Status.

Definition THRESHOLD : number R := of_Z R 30.
Definition DEFAULT_IP : string := "192.168.1.51".

Inductive Alert : Type :=
| TurbidityAlert (visible_ir : number R)
| FetchFailed.

Record State : Type := {
  ip : string;
  inputIp : string;
  dataPoints : list SensorData;
  alert : option Alert;
  isPaused : bool;
  bufferedPoints : list SensorData;
  status : Status;
  lastUpdate : option (number R)
}.

Definition initial : State :=
  {| ip := DEFAULT_IP; inputIp := DEFAULT_IP; dataPoints := [];
     alert := None; isPaused := false; bufferedPoints := [];
     status := SensorDashboard.loading; lastUpdate := None |}.

(** The head of the polling effect: the collected points stay. *)
Definition effect_start (s : State) : State :=
  {| ip := ip s; inputIp := inputIp s; dataPoints := dataPoints s;
     alert := None; isPaused := isPaused s;
     bufferedPoints := bufferedPoints s;
     status := SensorDashboard.loading; lastUpdate := None |}.

(** [fetchData] with an [ok] response parsed to [json]; [paused] is the
    [isPaused] the effect closed over. *)
Definition on_success (paused : bool) (json : SensorData) (s : State)
    : State :=
  {| ip := ip s; inputIp := inputIp s;
     dataPoints := if paused then dataPoints s else dataPoints s ++ [json];
     alert :=
       if lt R (SensorDashboard.visible_ir json) THRESHOLD
       then Some (TurbidityAlert (SensorDashboard.visible_ir json))
       else None;
     isPaused := isPaused s;
     bufferedPoints :=
       if paused then bufferedPoints s ++ [json] else bufferedPoints s;
     status := SensorDashboard.connected;
     lastUpdate := Some (SensorDashboard.timestamp json) |}.

(** [fetchData] failing; [seen] is the [dataPoints] the effect closed
    over. *)
Definition on_failure (seen : list SensorData) (s : State) : State :=
  {| ip := ip s; inputIp := inputIp s; dataPoints := dataPoints s;
     alert := Some FetchFailed;
     isPaused := isPaused s;
     bufferedPoints := bufferedPoints s;
     status := if (List.length seen =? 0)%nat then SensorDashboard.loading
               else SensorDashboard.disconnected;
     lastUpdate := lastUpdate s |}.

Definition handlePause (s : State) : State :=
  {| ip := ip s; inputIp := inputIp s; dataPoints := dataPoints s;
     alert := alert s; isPaused := true;
     bufferedPoints := bufferedPoints s;
     status := status s; lastUpdate := lastUpdate s |}.

(** [buffered] is the [bufferedPoints] of the render that created the
    handler. *)
Definition handleResume (buffered : list SensorData) (s : State) : State :=
  {| ip := ip s; inputIp := inputIp s;
     dataPoints := dataPoints s ++ buffered;
     alert := alert s; isPaused := false;
     bufferedPoints := [];
     status := status s; lastUpdate := lastUpdate s |}.

Definition setInputIp (text : string) (s : State) : State :=
  {| ip := ip s; inputIp := text; dataPoints := dataPoints s;
     alert := alert s; isPaused := isPaused s;
     bufferedPoints := bufferedPoints s;
     status := status s; lastUpdate := lastUpdate s |}.

Definition setIp (new_ip : string) (s : State) : State :=
  {| ip := new_ip; inputIp := inputIp s; dataPoints := dataPoints s;
     alert := alert s; isPaused := isPaused s;
     bufferedPoints := bufferedPoints s;
     status := status s; lastUpdate := lastUpdate s |}.

(** The mounted page: its state, the [dataPoints] the running effect
    closed over, and the fetches in flight, oldest first, each with the
    [isPaused] and the [dataPoints] that its [fetchData] closed over. *)
Record Mounted : Type := {
  state : State;
  closed_over : list SensorData;
  in_flight : list (bool * list SensorData)
}.

(** A render that changed [ip] or [isPaused] restarts the effect: its head
    runs, and [fetchData], closing over that render's [isPaused] and
    [dataPoints], is called at once.  The fetches already in flight are
    not cancelled. *)
Definition restart (s : State) (pending : list (bool * list SensorData))
    : Mounted :=
  {| state := effect_start s;
     closed_over := dataPoints s;
     in_flight := pending ++ [(isPaused s, dataPoints s)] |}.

Definition mount : Mounted := restart initial [].

Inductive Event : Type :=
| Tick
| Success (i : nat) (json : SensorData)
| Failure (i : nat)
| ClickPause
| ClickResume
| Type_ (text : string)
| Submit.

(** [Tick]: the interval of the running effect calls [fetchData].
    [Success i json], [Failure i]: the [i]-th fetch in flight settles and
    its handlers run with what their [fetchData] closed over, whatever has
    been clicked or submitted meanwhile.  A click is handled by the
    handlers of the render of the current state; a disabled button does
    not click. *)
Definition step (m : Mounted) (e : Event) : Mounted :=
  match e with
  | Tick =>
      {| state := state m; closed_over := closed_over m;
         in_flight := in_flight m ++ [(isPaused (state m), closed_over m)] |}
  | Success i json =>
      match nth_error (in_flight m) i with
      | Some (paused, _) =>
          {| state := on_success paused json (state m);
             closed_over := closed_over m;
             in_flight := without i (in_flight m) |}
      | None => m
      end
  | Failure i =>
      match nth_error (in_flight m) i with
      | Some (_, seen) =>
          {| state := on_failure seen (state m);
             closed_over := closed_over m;
             in_flight := without i (in_flight m) |}
      | None => m
      end
  | ClickPause =>
      if isPaused (state m) then m
      else restart (handlePause (state m)) (in_flight m)
  | ClickResume =>
      if isPaused (state m)
      then restart (handleResume (bufferedPoints (state m)) (state m))
             (in_flight m)
      else m
  | Type_ text =>
      {| state := setInputIp text (state m); closed_over := closed_over m;
         in_flight := in_flight m |}
  | Submit =>
      let new_ip := trim R (inputIp (state m)) in
      if String.eqb new_ip (ip (state m)) then m
      else restart (setIp new_ip (state m)) (in_flight m)
  end.

Definition run (es : list Event) (m : Mounted) : Mounted :=
  fold_left step es m.


(** The events that restart the effect when they change anything. *)
Definition is_restart (e : Event) : bool :=
  match e with ClickPause | ClickResume | Submit => true | _ => false end.

Definition is_pause (e : Event) : bool :=
  match e with ClickPause => true | _ => false end.

(** Every point the page holds, shown or buffered. *)
Definition collected (s : State) : list SensorData :=
  dataPoints s ++ bufferedPoints s.

End Component.

End HomeLive.

End Dashboard.


(** A runtime for concrete runs of the pages: whole numbers, and a
    stand-in for [trim] that is right for text without blanks. *)
Definition bench_runtime : Dashboard.Runtime :=
  {| Dashboard.number := Z; Dashboard.of_Z := fun z => z;
     Dashboard.lt := Z.ltb; Dashboard.trim := fun text => text |}.

(** Readings numbered [first], [first + 1], ... as the mock API could
    deliver them. *)
Definition bench_points (first count : nat)
    : list (@Dashboard.Home.DataPoint bench_runtime) :=
  map (fun k => @Dashboard.Home.Build_DataPoint bench_runtime
                  EmptyString (Z.of_nat k))
    (seq first count).

(** A reading of the device with the given broadband count. *)
Definition bench_sample (v : Z)
    : @Dashboard.SensorDashboard.SensorData bench_runtime :=
  @Dashboard.SensorDashboard.Build_SensorData bench_runtime v 0 0 0.

(** * Properties *)

Section Properties.

Context {P : Platform}.

Implicit Types (s : @Sys P) (fuel n : nat).

(** ** Sequencing *)

Lemma bind_some {A B} (m : @M P A) (k : A -> M B) s a s1 :
  m s = (Some a, s1) -> bind m k s = k a s1.
Proof. unfold bind. intros ->. reflexivity. Qed.

Lemma bind_none {A B} (m : @M P A) (k : A -> M B) s s1 :
  m s = (None, s1) -> bind m k s = (None, s1).
Proof. unfold bind. intros ->. reflexivity. Qed.

Lemma run_eta {A} (m : @M P A) s : m s = (result m s, exec m s).
Proof. unfold result, exec. destruct (m s); reflexivity. Qed.

Lemma exec_bind {A B} (m : @M P A) (k : A -> M B) s a :
  result m s = Some a -> exec (bind m k) s = exec (k a) (exec m s).
Proof.
  intros H. unfold exec at 1. rewrite (bind_some m k s a (exec m s)); [reflexivity|].
  rewrite run_eta. now rewrite H.
Qed.

Lemma result_bind {A B} (m : @M P A) (k : A -> M B) s a :
  result m s = Some a -> result (bind m k) s = result (k a) (exec m s).
Proof.
  intros H. unfold result at 1. rewrite (bind_some m k s a (exec m s)); [reflexivity|].
  rewrite run_eta. now rewrite H.
Qed.

Lemma exec_bind_none {A B} (m : @M P A) (k : A -> M B) s :
  result m s = None -> exec (bind m k) s = exec m s.
Proof.
  intros H. unfold exec at 1. rewrite (bind_none m k s (exec m s)); [reflexivity|].
  rewrite run_eta. now rewrite H.
Qed.


(** ** Preserved relations compose *)

Section Preserve.

Variable R : @Sys P -> @Sys P -> Prop.
Hypothesis R_refl : forall s, R s s.
Hypothesis R_trans : forall s1 s2 s3, R s1 s2 -> R s2 s3 -> R s1 s3.

Lemma preserves_ret {A} (a : A) : preserves R (ret a).
Proof. intros s. apply R_refl. Qed.

Lemma preserves_get {A} (f : @Sys P -> A) : preserves R (get f).
Proof. intros s. apply R_refl. Qed.

Lemma preserves_bind {A B} (m : M A) (k : A -> M B) :
  preserves R m -> (forall a, preserves R (k a)) -> preserves R (bind m k).
Proof.
  intros Hm Hk s. destruct (result m s) as [a|] eqn:E.
  - rewrite (exec_bind m k s a E). eapply R_trans; [apply Hm | apply Hk].
  - rewrite (exec_bind_none m k s E). apply Hm.
Qed.

Lemma preserves_when (b : bool) (m : M unit) :
  preserves R m -> preserves R (when b m).
Proof. destruct b; simpl; auto using @preserves_ret. Qed.

Lemma preserves_while {L} fuel (c : L -> M bool) (b : L -> M L) :
  (forall l, preserves R (c l)) -> (forall l, preserves R (b l)) ->
  forall l, preserves R (while_ fuel c b l).
Proof.
  intros Hc Hb. induction fuel as [|fuel IH]; intros l; simpl.
  - intros s. apply R_refl.
  - apply preserves_bind; [apply Hc|]. intros [|].
    + apply preserves_bind; [apply Hb | apply IH].
    + apply preserves_ret.
Qed.

End Preserve.

(** ** Returning computations compose *)

Lemma returns_ret {A} (a : A) : returns (@ret P A a).
Proof. intros s. discriminate. Qed.

Lemma returns_get {A} (f : @Sys P -> A) : returns (get f).
Proof. intros s. discriminate. Qed.

Lemma returns_modify (f : @Sys P -> @Sys P) : returns (modify f).
Proof. intros s. discriminate. Qed.

Lemma returns_bind {A B} (m : @M P A) (k : A -> M B) :
  returns m -> (forall a, returns (k a)) -> returns (bind m k).
Proof.
  intros Hm Hk s. destruct (result m s) as [a|] eqn:E.
  - rewrite (result_bind m k s a E). apply Hk.
  - elim (Hm s E).
Qed.

Lemma returns_when (b : bool) (m : @M P unit) :
  returns m -> returns (when b m).
Proof. destruct b; simpl; auto using @returns_ret. Qed.

Lemma returns_unit (m : @M P unit) s : returns m -> result m s = Some tt.
Proof. intros H. specialize (H s). destruct (result m s) as [[]|]; congruence. Qed.

(** ** Tactics for frame conditions *)

Ltac rel_side :=
  unfold same, grows; intros; cbv beta in *;
  solve [ reflexivity | congruence | lia | simpl; lia
        | etransitivity; eassumption ].

Ltac pres :=
  lazymatch goal with
  | H : preserves ?R ?m |- preserves ?R ?m => exact H
  | |- preserves _ (bind _ _) =>
      apply preserves_bind; [rel_side | pres | intro; cbv beta; pres]
  | |- preserves _ (when _ _) => apply preserves_when; [rel_side | pres]
  | |- preserves _ (ret _) => apply preserves_ret; rel_side
  | |- preserves _ (get _) => apply preserves_get; rel_side
  | |- preserves _ (while_ _ _ _ _) =>
      apply preserves_while;
        [rel_side | rel_side | intro; cbv beta; pres | intro; cbv beta; pres]
  | |- preserves _ (match ?x with _ => _ end) => destruct x; pres
  | |- preserves _ (loop _) => unfold loop; pres
  | |- preserves _ readLightSensor => unfold readLightSensor; cbv zeta; pres
  | |- preserves _ handleRoot => unfold handleRoot; pres
  | |- preserves _ handleData => unfold handleData; cbv zeta; pres
  | |- preserves _ (call_handler _) => unfold call_handler; pres
  | |- preserves _ server_handleClient => unfold server_handleClient; pres
  | |- preserves _ (monitorWiFiConnection _) =>
      unfold monitorWiFiConnection; pres
  | |- preserves _ (connectToNYUWiFi _) =>
      unfold connectToNYUWiFi; cbv zeta; pres
  | |- preserves _ logDetailedWiFiStatus => unfold logDetailedWiFiStatus; pres
  | |- preserves _ printConnectionDetails =>
      unfold printConnectionDetails; pres
  | |- preserves _ testInternetConnection =>
      unfold testInternetConnection; pres
  | |- preserves _ (setup _) => unfold setup; pres
  | |- preserves _ (server_send _ _ _) => unfold server_send; pres
  | |- preserves _ _ =>
      intros ?s;
      unfold exec, millis, WiFi_status, tsl_getFullLuminosity, http_GET,
        next_client, server_on, server_enableCORS, server_begin, delay,
        digitalWrite, Serial_println, WiFi_do, emit, modify;
      simpl; rel_side
  end.


(** ** Machine arithmetic *)

Lemma ulong_range x : 0 <= ulong x < 2 ^ 32.
Proof. unfold ulong. apply Z.mod_pos_bound. lia. Qed.

Lemma ulong_small x : 0 <= x < 2 ^ 32 -> ulong x = x.
Proof. unfold ulong. intros H. apply Z.mod_small. exact H. Qed.

Lemma ulong_sub_mod a b : ulong (ulong a - ulong b) = ulong (a - b).
Proof. unfold ulong. symmetry. apply Zminus_mod. Qed.

Lemma sint_small x : - 2 ^ 31 <= x < 2 ^ 31 -> sint x = x.
Proof.
  unfold sint. intros H. rewrite Z.mod_small; lia.
Qed.

Lemma due_spec now last interval :
  due now last interval = (ulong interval <=? ulong (now - last)).
Proof. unfold due. apply Z.geb_leb. Qed.

(** C9.  The due-time test is safe across wrap-around of the 32-bit
    millisecond counter: when the counter is read at true times
    [t_last <= t_now] less than one full period (2^32 ms) apart, the test on
    the two truncated readings decides exactly whether the true elapsed
    time has reached the interval, for every interval below 2^31 (so also
    for the intervals declared as signed [long]) and wherever the counter
    wrapped in between. *)
Theorem due_wraparound_safe (t_last t_now interval : Z) :
  0 <= t_last <= t_now ->
  t_now - t_last < 2 ^ 32 ->
  0 <= interval < 2 ^ 31 ->
  due (ulong t_now) (ulong t_last) interval = (interval <=? t_now - t_last).
Proof.
  intros Ht Hel Hi. rewrite due_spec, ulong_sub_mod.
  rewrite (ulong_small interval) by lia.
  rewrite (ulong_small (t_now - t_last)) by lia.
  reflexivity.
Qed.

(** At true times 2^32 - 100 and 2^32 + 400 the readings are 4294967196 and
    400; the 500 ms task is found due. *)
Lemma due_wraparound_safe_witness :
  due (ulong (2 ^ 32 + 400)) (ulong (2 ^ 32 - 100)) sensorInterval
  = (sensorInterval <=? (2 ^ 32 + 400) - (2 ^ 32 - 100)).
Proof. apply due_wraparound_safe; unfold sensorInterval; lia. Defined.

(** ** Strings *)

Lemma append_assoc (a b c : string) : ((a ++ b) ++ c = a ++ (b ++ c))%string.
Proof. induction a as [|x a IH]; simpl; [reflexivity | now rewrite IH]. Qed.

(** ** The sampler and the data route *)

Lemma high_low_halves full :
  0 <= full < 2 ^ 32 ->
  uint16 (Z.shiftr full 16) = full / 2 ^ 16 /\
  uint16 (Z.land full 65535) = full mod 2 ^ 16.
Proof.
  intros H. unfold uint16.
  rewrite Z.shiftr_div_pow2 by lia.
  change 65535 with (Z.ones 16). rewrite Z.land_ones by lia.
  split.
  - apply Z.mod_small. split.
    + apply Z.div_pos; lia.
    + apply Z.div_lt_upper_bound; lia.
  - apply Z.mod_mod. lia.
Qed.

Lemma readLightSensor_run s : readLightSensor s = (Some tt, sampled s).
Proof.
  unfold readLightSensor, sampled, snapshot_of, bind, emit, modify,
    tsl_getFullLuminosity, millis, get, Serial_println. simpl.
  destruct (high_low_halves (uint32 (luminosity_at P (sensor_reads s))))
    as [Hhi Hlo].
  { unfold uint32. apply Z.mod_pos_bound. lia. }
  rewrite Hhi, Hlo. reflexivity.
Qed.

Lemma handleData_run s : handleData s = (Some tt, served s).
Proof.
  unfold handleData, served, data_response, json_object, data_members,
    server_send, bind, emit, modify, get. simpl.
  unfold set_trace. simpl. do 5 f_equal.
  repeat (progress (rewrite ?append_assoc; simpl)). reflexivity.
Qed.

Lemma exec_readLightSensor s : exec readLightSensor s = sampled s.
Proof. unfold exec. now rewrite readLightSensor_run. Qed.

Lemma exec_handleData s : exec handleData s = served s.
Proof. unfold exec. now rewrite handleData_run. Qed.

(** C6.  One sampler invocation returns; it splits the 32-bit composite
    value into its high 16 bits (infrared) and its low 16 bits
    (broadband/visible), takes the illuminance from the driver's calibration
    function on those two channels, stamps the counter, and leaves a
    snapshot that does not depend on the snapshot it found.  After a second
    sample the [/data] response is the rendering of the second sample
    alone. *)
Theorem sample_overwrites_snapshot s :
  let full1 := uint32 (luminosity_at P (sensor_reads s)) in
  let s1 := exec readLightSensor s in
  let d1 := latestData s1 in
  let full2 := uint32 (luminosity_at P (S (sensor_reads s))) in
  let now2 := ulong (millis_at P (S (clock_reads s))) in
  let s2 := exec readLightSensor s1 in
  result readLightSensor s = Some tt /\
  0 <= full1 < 2 ^ 32 /\
  ir d1 = Z.shiftr full1 16 /\
  visible_ir d1 = Z.land full1 (2 ^ 16 - 1) /\
  full1 = ir d1 * 2 ^ 16 + visible_ir d1 /\
  0 <= ir d1 < 2 ^ 16 /\
  0 <= visible_ir d1 < 2 ^ 16 /\
  lux d1 = calculateLux P (visible_ir d1) (ir d1) /\
  timestamp d1 = ulong (millis_at P (clock_reads s)) /\
  (forall d, latestData (exec readLightSensor (set_latestData d s)) = d1) /\
  latestData s2 = snapshot_of full2 now2 /\
  trace (exec handleData s2)
  = EvSend (data_response (@snapshot_of P full2 now2) (cors (server s)))
    :: EvCall FhandleData :: trace s2.
Proof.
  cbv zeta.
  assert (Hr : 0 <= uint32 (luminosity_at P (sensor_reads s)) < 2 ^ 32).
  { unfold uint32. apply Z.mod_pos_bound. lia. }
  assert (Hd : forall s0, latestData (exec readLightSensor s0)
                 = snapshot_of (uint32 (luminosity_at P (sensor_reads s0)))
                               (ulong (millis_at P (clock_reads s0)))).
  { intros s0. rewrite exec_readLightSensor. reflexivity. }
  rewrite !Hd.
  set (full := uint32 (luminosity_at P (sensor_reads s))) in *.
  unfold snapshot_of at 1 2 3 4 5 6 7 8 9 10 11 12 13.
  cbn [ir visible_ir lux timestamp].
  split; [unfold result; now rewrite readLightSensor_run|].
  split; [exact Hr|].
  split; [now rewrite Z.shiftr_div_pow2 by lia|].
  split; [change (2 ^ 16 - 1) with (Z.ones 16); now rewrite Z.land_ones by lia|].
  split; [rewrite Z.mul_comm; apply Z.div_mod; lia|].
  split; [split; [apply Z.div_pos; lia | apply Z.div_lt_upper_bound; lia]|].
  split; [apply Z.mod_pos_bound; lia|].
  split; [reflexivity|].
  split; [reflexivity|].
  split; [intros d; rewrite Hd; reflexivity|].
  rewrite !exec_readLightSensor, exec_handleData.
  split; reflexivity.
Qed.

(** ** The connect sequence *)

Lemma Sys_eta s :
  s = Build_Sys (latestData s) (prevSensorMillis s) (previousWiFiMillis s)
        (wifiLogMillis s) (wifiConnected s) (wifiReconnectAttempts s)
        (server s) (clock_reads s) (status_reads s) (sensor_reads s)
        (client_polls s) (http_gets s) (trace s).
Proof. destruct s; reflexivity. Qed.

Lemma set_trace_set_trace v v' s :
  set_trace v (set_trace v' s) = set_trace v s.
Proof. reflexivity. Qed.

Lemma waits_0 i : waits P 0 i = 0%nat.
Proof. reflexivity. Qed.

Lemma waits_S n i :
  waits P (S n) i
  = if is_connected (status_at P i) then 0%nat else S (waits P n (S i)).
Proof. reflexivity. Qed.

Lemma waits_le n i : (waits P n i <= n)%nat.
Proof.
  revert i. induction n as [|n IH]; intros i;
    [rewrite waits_0 | rewrite waits_S]; [lia|].
  destruct (is_connected (status_at P i)); [lia|]. specialize (IH (S i)). lia.
Qed.

Lemma wait_loop_run fuel :
  forall n a s,
    (n <= 30)%nat -> a = 30 - Z.of_nat n -> (n < fuel)%nat ->
    while_ fuel
      (fun attempts =>
         bind WiFi_status (fun st =>
         ret (negb (is_connected st) && (attempts <? 30))))
      (fun attempts =>
         bind (delay 1000) (fun _ =>
         bind (Serial_println MsgDot) (fun _ =>
         ret (sint (attempts + 1)))))
      a s
    = (Some (a + Z.of_nat (waits P n (status_reads s))),
       waited (waits P n (status_reads s)) s).
Proof.
  induction fuel as [|fuel IH]; intros n a s Hn Ha Hf; [lia|].
  cbn [while_]. unfold bind at 1. unfold bind at 1. unfold WiFi_status at 1.
  cbn [ret].
  destruct n as [|n]; [rewrite !waits_0 | rewrite !waits_S].
  - (* no attempt left *)
    assert (Hlt : (a <? 30) = false) by (apply Z.ltb_ge; lia). rewrite Hlt.
    rewrite andb_false_r. unfold ret, waited. f_equal.
    + f_equal. lia.
    + rewrite (Sys_eta s) at 3. unfold set_status_reads, set_trace; simpl.
      f_equal. lia.
  - destruct (is_connected (status_at P (status_reads s))) eqn:E; cbn [negb andb].
    + unfold ret, waited. f_equal.
      * f_equal. lia.
      * rewrite (Sys_eta s) at 3. unfold set_status_reads, set_trace; simpl.
        f_equal. lia.
    + assert (Hlt : (a <? 30) = true) by (apply Z.ltb_lt; lia). rewrite Hlt.
      unfold bind at 1. unfold bind at 1. unfold delay, emit, modify at 1.
      unfold bind at 1. unfold Serial_println, emit, modify at 1. cbn [ret].
      rewrite sint_small by lia.
      rewrite (IH n (a + 1)); [|lia|lia|lia].
      cbn [status_reads set_trace set_status_reads trace].
      f_equal.
      * f_equal. lia.
      * unfold waited, set_status_reads, set_trace; simpl.
        change (EvSerial MsgDot :: EvDelay 1000 :: trace s)
          with (wait_events (trace s)).
        rewrite <- Nat.iter_succ_r. simpl. f_equal. lia.
Qed.

Lemma connectToNYUWiFi_run fuel s :
  (31 <= fuel)%nat ->
  connectToNYUWiFi fuel s = (Some tt, connect_outcome s).
Proof.
  intros Hf. unfold connectToNYUWiFi. cbv zeta.
  do 8 (unfold bind at 1; unfold Serial_println, WiFi_do, delay, emit, modify at 1).
  unfold bind at 1.
  rewrite (wait_loop_run fuel 30 0); [|lia|lia|lia].
  unfold bind at 1. unfold WiFi_status at 1.
  cbn [status_reads set_trace set_status_reads trace waited].
  unfold connect_outcome. cbv zeta.
  rewrite !set_trace_set_trace.
  destruct (is_connected _); unfold modify, waited;
    cbn [status_reads trace set_trace set_status_reads];
    unfold set_trace, set_status_reads; simpl; do 2 f_equal; lia.
Qed.

Lemma connectToNYUWiFi_returns fuel :
  (31 <= fuel)%nat -> returns (@connectToNYUWiFi P fuel).
Proof.
  intros Hf s. unfold result. rewrite connectToNYUWiFi_run by exact Hf.
  discriminate.
Qed.

Ltac rets :=
  lazymatch goal with
  | H : returns ?m |- returns ?m => exact H
  | |- returns (bind _ _) =>
      apply returns_bind; [rets | intro; cbv beta; rets]
  | |- returns (when _ _) => apply returns_when; rets
  | |- returns (ret _) => apply returns_ret
  | |- returns (get _) => apply returns_get
  | |- returns (modify _) => apply returns_modify
  | |- returns (match ?x with _ => _ end) => destruct x; rets
  | |- returns (connectToNYUWiFi _) =>
      apply connectToNYUWiFi_returns; assumption
  | |- returns (loop _) => unfold loop; rets
  | |- returns readLightSensor => unfold readLightSensor; cbv zeta; rets
  | |- returns handleRoot => unfold handleRoot; rets
  | |- returns handleData => unfold handleData; cbv zeta; rets
  | |- returns (call_handler _) => unfold call_handler; rets
  | |- returns server_handleClient => unfold server_handleClient; rets
  | |- returns (monitorWiFiConnection _) => unfold monitorWiFiConnection; rets
  | |- returns logDetailedWiFiStatus => unfold logDetailedWiFiStatus; rets
  | |- returns printConnectionDetails => unfold printConnectionDetails; rets
  | |- returns testInternetConnection => unfold testInternetConnection; rets
  | |- returns (server_send _ _ _) => unfold server_send; rets
  | |- returns _ =>
      intros ?s;
      unfold result, millis, WiFi_status, tsl_getFullLuminosity, http_GET,
        next_client, server_on, server_enableCORS, server_begin, delay,
        digitalWrite, Serial_println, WiFi_do, emit, modify;
      cbn [fst]; discriminate
  end.

Lemma server_handleClient_returns : returns (@server_handleClient P).
Proof. rets. Qed.

Lemma readLightSensor_returns : returns (@readLightSensor P).
Proof. rets. Qed.

Lemma logDetailedWiFiStatus_returns : returns (@logDetailedWiFiStatus P).
Proof. rets. Qed.

Lemma monitorWiFiConnection_returns fuel :
  (31 <= fuel)%nat -> returns (@monitorWiFiConnection P fuel).
Proof. intros Hf. rets. Qed.

Lemma loop_returns fuel : (31 <= fuel)%nat -> returns (@loop P fuel).
Proof. intros Hf. rets. Qed.

Lemma ticks_returns fuel n : (31 <= fuel)%nat -> returns (@ticks P fuel n).
Proof.
  intros Hf. induction n as [|n IH]; simpl.
  - apply returns_ret.
  - apply returns_bind; [exact IH | intros _; apply loop_returns; exact Hf].
Qed.

Lemma exec_modify (f : @Sys P -> @Sys P) s : exec (modify f) s = f s.
Proof. reflexivity. Qed.

Lemma exec_when b (m : @M P unit) s :
  exec (when b m) s = if b then exec m s else s.
Proof. destruct b; reflexivity. Qed.

Lemma exec_seq (m : @M P unit) {B} (k : unit -> M B) s :
  returns m -> exec (bind m k) s = exec (k tt) (exec m s).
Proof. intros H. apply exec_bind. apply returns_unit, H. Qed.

(** One tick is its four phases in order. *)
Lemma exec_loop fuel s :
  (31 <= fuel)%nat ->
  exec (loop fuel) s
  = let now := ulong (millis_at P (clock_reads s)) in
    tick_log now (tick_link fuel now (tick_sensor now (tick_requests s))).
Proof.
  intros Hf. cbv zeta. unfold loop.
  rewrite exec_seq by rets.
  rewrite (exec_bind millis _ _
             (ulong (millis_at P (clock_reads (exec (emit (EvCall Floop)) s)))))
    by reflexivity.
  rewrite exec_seq by rets.
  change (exec server_handleClient (exec millis (exec (emit (EvCall Floop)) s)))
    with (tick_requests s).
  change (clock_reads (exec (emit (EvCall Floop)) s)) with (clock_reads s).
  set (now := ulong (millis_at P (clock_reads s))).
  set (s1 := tick_requests s).
  rewrite (exec_bind (get prevSensorMillis) _ s1 (prevSensorMillis s1))
    by reflexivity.
  change (exec (get prevSensorMillis) s1) with s1.
  rewrite exec_seq by rets.
  rewrite exec_when. rewrite (exec_seq (modify _)) by rets.
  change (if due now (prevSensorMillis s1) sensorInterval
          then exec readLightSensor (exec (modify (set_prevSensorMillis now)) s1)
          else s1) with (tick_sensor now s1).
  set (s2 := tick_sensor now s1).
  rewrite (exec_bind (get previousWiFiMillis) _ s2 (previousWiFiMillis s2))
    by reflexivity.
  change (exec (get previousWiFiMillis) s2) with s2.
  rewrite exec_seq by rets.
  rewrite exec_when. rewrite (exec_seq (modify _)) by rets.
  change (if due now (previousWiFiMillis s2) wifiCheckInterval
          then exec (monitorWiFiConnection fuel)
                 (exec (modify (set_previousWiFiMillis now)) s2)
          else s2) with (tick_link fuel now s2).
  set (s3 := tick_link fuel now s2).
  rewrite (exec_bind (get wifiLogMillis) _ s3 (wifiLogMillis s3)) by reflexivity.
  change (exec (get wifiLogMillis) s3) with s3.
  rewrite exec_when. rewrite (exec_seq (modify _)) by rets.
  reflexivity.
Qed.


(** ** What each phase of a tick touches *)

Lemma tick_requests_frame s :
  timers (tick_requests s) = timers s /\
  task_calls (tick_requests s) = task_calls s.
Proof.
  unfold tick_requests.
  set (s0 := set_clock_reads _ _).
  assert (H1 : preserves (same timers) (@server_handleClient P)) by pres.
  assert (H2 : preserves (same task_calls) (@server_handleClient P)) by pres.
  rewrite (H1 s0), (H2 s0). split; reflexivity.
Qed.

Lemma tick_sensor_frame now s :
  prevSensorMillis (tick_sensor now s)
  = (if due now (prevSensorMillis s) sensorInterval
     then now else prevSensorMillis s) /\
  previousWiFiMillis (tick_sensor now s) = previousWiFiMillis s /\
  wifiLogMillis (tick_sensor now s) = wifiLogMillis s /\
  task_calls (tick_sensor now s)
  = (calls FreadLightSensor (trace s)
     + ran (due now (prevSensorMillis s) sensorInterval),
     calls FmonitorWiFiConnection (trace s),
     calls FlogDetailedWiFiStatus (trace s))%nat.
Proof.
  unfold tick_sensor, task_calls.
  destruct (due now (prevSensorMillis s) sensorInterval); simpl ran.
  - rewrite exec_readLightSensor. simpl.
    repeat split; try reflexivity. now rewrite Nat.add_1_r.
  - repeat split; try reflexivity. now rewrite Nat.add_0_r.
Qed.

Lemma tick_link_frame fuel now s :
  (31 <= fuel)%nat ->
  prevSensorMillis (tick_link fuel now s) = prevSensorMillis s /\
  previousWiFiMillis (tick_link fuel now s)
  = (if due now (previousWiFiMillis s) wifiCheckInterval
     then now else previousWiFiMillis s) /\
  wifiLogMillis (tick_link fuel now s) = wifiLogMillis s /\
  task_calls (tick_link fuel now s)
  = (calls FreadLightSensor (trace s),
     calls FmonitorWiFiConnection (trace s)
     + ran (due now (previousWiFiMillis s) wifiCheckInterval),
     calls FlogDetailedWiFiStatus (trace s))%nat.
Proof.
  intros Hf. unfold tick_link, task_calls.
  destruct (due now (previousWiFiMillis s) wifiCheckInterval); simpl ran.
  - set (s0 := set_previousWiFiMillis now s).
    assert (H1 : preserves (same timers) (@monitorWiFiConnection P fuel)) by pres.
    specialize (H1 s0). unfold same, timers in H1.
    injection H1 as Ha Hb Hc.
    unfold monitorWiFiConnection. rewrite exec_seq by rets.
    match goal with |- context [exec ?m (exec (emit ?e) s0)] =>
      assert (H2 : preserves (same task_calls) m) by pres;
      specialize (H2 (exec (emit e) s0)); unfold same, task_calls in H2;
      injection H2 as Hd He Hg;
      assert (H3 : preserves (same timers) m) by pres;
      specialize (H3 (exec (emit e) s0)); unfold same, timers in H3;
      injection H3 as Hh Hi Hj
    end.
    rewrite Hd, He, Hg, Hh, Hi, Hj. simpl.
    repeat split; try reflexivity. now rewrite Nat.add_1_r.
  - repeat split; try reflexivity. now rewrite Nat.add_0_r.
Qed.

Lemma tick_log_frame now s :
  prevSensorMillis (tick_log now s) = prevSensorMillis s /\
  previousWiFiMillis (tick_log now s) = previousWiFiMillis s /\
  wifiLogMillis (tick_log now s)
  = (if due now (wifiLogMillis s) wifiLogInterval
     then now else wifiLogMillis s) /\
  task_calls (tick_log now s)
  = (calls FreadLightSensor (trace s),
     calls FmonitorWiFiConnection (trace s),
     calls FlogDetailedWiFiStatus (trace s)
     + ran (due now (wifiLogMillis s) wifiLogInterval))%nat.
Proof.
  unfold tick_log, task_calls.
  destruct (due now (wifiLogMillis s) wifiLogInterval); simpl ran.
  - unfold logDetailedWiFiStatus, exec, bind, emit, modify, WiFi_status,
      Serial_println. simpl.
    repeat split; try reflexivity. now rewrite Nat.add_1_r.
  - repeat split; try reflexivity. now rewrite Nat.add_0_r.
Qed.

(** ** The scheduler *)

(** What one tick does to the task counts and the timers. *)
Lemma loop_tasks fuel s :
  (31 <= fuel)%nat ->
  let now := ulong (millis_at P (clock_reads s)) in
  task_calls (exec (loop fuel) s)
  = (calls FreadLightSensor (trace s)
     + ran (due now (prevSensorMillis s) sensorInterval),
     calls FmonitorWiFiConnection (trace s)
     + ran (due now (previousWiFiMillis s) wifiCheckInterval),
     calls FlogDetailedWiFiStatus (trace s)
     + ran (due now (wifiLogMillis s) wifiLogInterval))%nat /\
  timers (exec (loop fuel) s)
  = (if due now (prevSensorMillis s) sensorInterval
     then now else prevSensorMillis s,
     if due now (previousWiFiMillis s) wifiCheckInterval
     then now else previousWiFiMillis s,
     if due now (wifiLogMillis s) wifiLogInterval
     then now else wifiLogMillis s).
Proof.
  intros Hf. cbv zeta. rewrite exec_loop by exact Hf. cbv zeta.
  set (now := ulong (millis_at P (clock_reads s))).
  destruct (tick_requests_frame s) as [Ht1 Hc1].
  set (s1 := tick_requests s) in *.
  destruct (tick_sensor_frame now s1) as (Ha2 & Hb2 & Hc2 & Hd2).
  set (s2 := tick_sensor now s1) in *.
  destruct (tick_link_frame fuel now s2 Hf) as (Ha3 & Hb3 & Hc3 & Hd3).
  set (s3 := tick_link fuel now s2) in *.
  destruct (tick_log_frame now s3) as (Ha4 & Hb4 & Hc4 & Hd4).
  set (s4 := tick_log now s3) in *.
  unfold timers in *. unfold task_calls in Hc1, Hd2, Hd3.
  injection Ht1 as T1 T2 T3. injection Hc1 as C1 C2 C3.
  injection Hd2 as D1 D2 D3. injection Hd3 as E1 E2 E3.
  rewrite Hd4, Ha4, Hb4, Hc4.
  rewrite E1, E2, E3, Ha3, Hb3, Hc3.
  rewrite D1, D2, D3, Ha2, Hb2, Hc2.
  rewrite C1, C2, C3, T1, T2, T3.
  split; reflexivity.
Qed.

(** C1.  On every tick, each periodic task whose elapsed time (current
    counter value minus its last-run value, in [unsigned long] arithmetic)
    has reached its interval is entered exactly once and its timer is set
    to the tick's counter value; a task that is not due is not entered and
    keeps its timer.  In particular a tick at 31,000 ms with all three
    timers at 0 enters each of the three tasks exactly once, whatever the
    number of intervals that have passed. *)
Theorem tick_runs_due_tasks_once fuel s :
  (31 <= fuel)%nat ->
  let now := ulong (millis_at P (clock_reads s)) in
  let s' := exec (loop fuel) s in
  let sensor_due := due now (prevSensorMillis s) sensorInterval in
  let link_due := due now (previousWiFiMillis s) wifiCheckInterval in
  let log_due := due now (wifiLogMillis s) wifiLogInterval in
  result (loop fuel) s = Some tt /\
  task_calls s'
  = (calls FreadLightSensor (trace s) + ran sensor_due,
     calls FmonitorWiFiConnection (trace s) + ran link_due,
     calls FlogDetailedWiFiStatus (trace s) + ran log_due)%nat /\
  timers s'
  = (if sensor_due then now else prevSensorMillis s,
     if link_due then now else previousWiFiMillis s,
     if log_due then now else wifiLogMillis s) /\
  (now = 31000 -> timers s = (0, 0, 0) ->
   task_calls s'
   = (calls FreadLightSensor (trace s) + 1,
      calls FmonitorWiFiConnection (trace s) + 1,
      calls FlogDetailedWiFiStatus (trace s) + 1)%nat /\
   timers s' = (31000, 31000, 31000)).
Proof.
  intros Hf. cbv zeta.
  pose proof (loop_tasks fuel s Hf) as Hmain. cbv zeta in Hmain.
  destruct Hmain as [Hcalls Htimers].
  split; [apply returns_unit, loop_returns, Hf|].
  split; [exact Hcalls|]. split; [exact Htimers|].
  intros Hnow Hzero. rewrite Hcalls, Htimers.
  unfold timers in Hzero. injection Hzero as Z1 Z2 Z3.
  rewrite Hnow, Z1, Z2, Z3. split; reflexivity.
Qed.

(** ** Counting in traces *)

Lemma calls_waits f k (tr : list (@Event P)) :
  calls f (Nat.iter k wait_events tr) = calls f tr.
Proof. induction k as [|k IH]; simpl; [reflexivity | exact IH]. Qed.

Lemma calls_serial f m (tr : list (@Event P)) :
  calls f (EvSerial m :: tr) = calls f tr.
Proof. reflexivity. Qed.

Lemma begins_waits k (tr : list (@Event P)) :
  begins (Nat.iter k wait_events tr) = begins tr.
Proof. induction k as [|k IH]; simpl; [reflexivity | exact IH]. Qed.

Lemma delayed_waits k (tr : list (@Event P)) :
  delayed (Nat.iter k wait_events tr) = 1000 * Z.of_nat k + delayed tr.
Proof.
  induction k as [|k IH]; [simpl; lia|].
  rewrite Nat2Z.inj_succ, Nat.iter_succ. unfold wait_events at 1.
  cbn [delayed]. rewrite IH. lia.
Qed.

Lemma upto_bind (f : @Sys P -> nat) a b c {A B} (m : M A) (k : A -> M B) :
  c = (a + b)%nat ->
  preserves (upto f a) m -> (forall x, preserves (upto f b) (k x)) ->
  preserves (upto f c) (bind m k).
Proof.
  intros -> Hm Hk s. unfold upto. destruct (result m s) as [x|] eqn:E.
  - rewrite (exec_bind m k s x E).
    specialize (Hm s). specialize (Hk x (exec m s)). unfold upto in *. lia.
  - rewrite (exec_bind_none m k s E). specialize (Hm s). unfold upto in *. lia.
Qed.

Lemma upto_same (f : @Sys P -> nat) n {A} (m : M A) :
  preserves (same f) m -> preserves (upto f n) m.
Proof. intros H s. specialize (H s). unfold same, upto in *. lia. Qed.

Lemma upto_refl (f : @Sys P -> nat) n s : upto f n s s.
Proof. unfold upto. lia. Qed.

Lemma connect_calls_once fuel :
  (31 <= fuel)%nat ->
  preserves (upto (fun s => calls FconnectToNYUWiFi (trace s)) 1)
    (@connectToNYUWiFi P fuel).
Proof.
  intros Hf s. unfold upto, exec. rewrite connectToNYUWiFi_run by exact Hf.
  unfold connect_outcome. cbn [snd trace set_status_reads set_trace].
  rewrite calls_serial, calls_waits. simpl. lia.
Qed.

Lemma connect_begins_once fuel :
  (31 <= fuel)%nat ->
  preserves (upto (fun s => begins (trace s)) 1) (@connectToNYUWiFi P fuel).
Proof.
  intros Hf s. unfold upto, exec. rewrite connectToNYUWiFi_run by exact Hf.
  unfold connect_outcome. cbn [snd trace set_status_reads set_trace].
  cbn [begins]. rewrite begins_waits. simpl. lia.
Qed.

(** At most one connect sequence per call: everything around the call to
    [connectToNYUWiFi] leaves the counter alone. *)
Ltac bump Hconnect :=
  lazymatch goal with
  | |- preserves (upto _ 1) (bind (connectToNYUWiFi _) _) =>
      eapply (upto_bind _ 1 0); [reflexivity | apply Hconnect; assumption
                                | intro; cbv beta; apply upto_same; pres]
  | |- preserves (upto _ 1) (bind _ _) =>
      first
        [ eapply (upto_bind _ 0 1);
            [reflexivity | solve [apply upto_same; pres]
            | intro; cbv beta; bump Hconnect]
        | eapply (upto_bind _ 1 0);
            [reflexivity | bump Hconnect
            | intro; cbv beta; apply upto_same; pres] ]
  | |- preserves (upto _ 1) (when _ _) =>
      apply preserves_when; [intro; apply upto_refl | bump Hconnect]
  | |- preserves (upto _ 1) (match ?x with _ => _ end) =>
      destruct x; bump Hconnect
  | |- preserves (upto _ 1) _ =>
      first [ progress unfold loop, monitorWiFiConnection; bump Hconnect
            | apply upto_same; pres ]
  end.

Lemma loop_connects_once fuel :
  (31 <= fuel)%nat ->
  preserves (upto (fun s => calls FconnectToNYUWiFi (trace s)) 1)
    (@loop P fuel).
Proof. intros Hf. bump connect_calls_once. Qed.

Lemma loop_begins_once fuel :
  (31 <= fuel)%nat ->
  preserves (upto (fun s => begins (trace s)) 1) (@loop P fuel).
Proof. intros Hf. bump connect_begins_once. Qed.

(** C7.  Whatever the network answers, one connect sequence returns.  It
    makes [k <= 30] one-second waits, where [k] is the number of
    not-connected answers before the first connected one (capped at 30),
    probes the status [k + 2] times, starts the association exactly once,
    sleeps at most 31 s in all, does not depend on the fuel once there is
    enough of it, and leaves the sketch's own link flag and counter to its
    caller.  It stops because the link came up or because the 30 attempts
    are used up.  One tick contains at most one connect sequence and one
    [WiFi.begin]: a failed sequence is not retried before the next link
    check. *)
Theorem connect_sequence_bounded fuel s :
  (31 <= fuel)%nat ->
  let s' := exec (connectToNYUWiFi fuel) s in
  let k := waits P 30 (status_reads s) in
  result (connectToNYUWiFi fuel) s = Some tt /\
  s' = exec (connectToNYUWiFi 31) s /\
  (k <= 30)%nat /\
  (k = 30%nat \/
   is_connected (status_at P (status_reads s + k)) = true) /\
  status_reads s' = (status_reads s + k + 2)%nat /\
  delayed (trace s') = delayed (trace s) + 1000 + 1000 * Z.of_nat k /\
  delayed (trace s') <= delayed (trace s) + 31000 /\
  begins (trace s') = S (begins (trace s)) /\
  wifiConnected s' = wifiConnected s /\
  wifiReconnectAttempts s' = wifiReconnectAttempts s /\
  (calls FconnectToNYUWiFi (trace (exec (loop fuel) s))
   <= S (calls FconnectToNYUWiFi (trace s)))%nat /\
  (begins (trace (exec (loop fuel) s)) <= S (begins (trace s)))%nat.
Proof.
  intros Hf. cbv zeta.
  assert (Hk : (waits P 30 (status_reads s) <= 30)%nat) by apply waits_le.
  assert (Hstop : forall n i, waits P n i = n \/
                    is_connected (status_at P (i + waits P n i)) = true).
  { induction n as [|n IH]; intros i;
      [rewrite waits_0 | rewrite !waits_S]; [now left|].
    destruct (is_connected (status_at P i)) eqn:E.
    - right. now rewrite Nat.add_0_r.
    - destruct (IH (S i)) as [H|H].
      + left. now rewrite H.
      + right. now rewrite Nat.add_succ_r. }
  unfold exec, result. rewrite !connectToNYUWiFi_run by lia.
  cbn [fst snd]. unfold connect_outcome. cbv zeta.
  cbn [status_reads trace set_status_reads set_trace wifiConnected
       wifiReconnectAttempts].
  split; [reflexivity|]. split; [reflexivity|]. split; [exact Hk|].
  split; [apply Hstop|].
  split; [lia|].
  assert (Hd : delayed
     (EvSerial
        (if is_connected
              (status_at P (status_reads s + S (waits P 30 (status_reads s))))
         then MsgWifiOk else MsgWifiFail)
      :: Nat.iter (waits P 30 (status_reads s)) wait_events
           (EvWiFi OpBegin :: EvWiFi OpEnterpriseEnable :: EvWiFi OpEapConfig
            :: EvWiFi OpModeSTA :: EvDelay 1000 :: EvWiFi OpDisconnect
            :: EvSerial MsgConnecting :: EvCall FconnectToNYUWiFi :: trace s))
     = delayed (trace s) + 1000 + 1000 * Z.of_nat (waits P 30 (status_reads s))).
  { cbn [delayed]. rewrite delayed_waits. cbn [delayed]. lia. }
  split; [exact Hd|]. split; [rewrite Hd; lia|].
  split; [cbn [begins]; rewrite begins_waits; reflexivity|].
  split; [reflexivity|]. split; [reflexivity|].
  split.
  - pose proof (loop_connects_once fuel Hf s) as H. unfold upto, exec in H. lia.
  - pose proof (loop_begins_once fuel Hf s) as H. unfold upto, exec in H. lia.
Qed.

(** ** The link check *)

Lemma monitorWiFiConnection_run fuel s :
  (31 <= fuel)%nat ->
  monitorWiFiConnection fuel s = (Some tt, link_checked s).
Proof.
  intros Hf. unfold monitorWiFiConnection, link_checked.
  unfold bind at 1. unfold emit, modify at 1.
  unfold bind at 1. unfold WiFi_status at 1.
  cbn [status_reads set_trace].
  destruct (is_connected (status_at P (status_reads s))) eqn:E; cbn [negb].
  - unfold link_seen_up. cbv zeta.
    unfold bind at 1. unfold get at 1.
    cbn [wifiConnected set_status_reads set_trace].
    destruct (wifiConnected s); reflexivity.
  - unfold bind at 1. unfold get at 1.
    cbn [wifiConnected set_status_reads set_trace].
    unfold bind at 1.
    assert (Hd : when (wifiConnected s)
              (bind (Serial_println MsgConnLost) (fun _ =>
               bind (modify (set_wifiConnected false)) (fun _ =>
               modify (fun s0 =>
                 set_wifiReconnectAttempts (sint (wifiReconnectAttempts s0 + 1)) s0))))
              (set_status_reads (S (status_reads s))
                 (set_trace (EvCall FmonitorWiFiConnection :: trace s) s))
            = (Some tt, drop_noted s)).
    { unfold drop_noted. destruct (wifiConnected s); reflexivity. }
    rewrite Hd. clear Hd.
    unfold bind at 1. rewrite connectToNYUWiFi_run by exact Hf.
    set (s2 := connect_outcome (drop_noted s)).
    unfold bind at 1. unfold WiFi_status at 1.
    unfold bind at 1. unfold get at 1.
    cbn [wifiConnected set_status_reads].
    unfold relinked. cbv zeta.
    destruct (is_connected (status_at P (status_reads s2)) && negb (wifiConnected s2));
      reflexivity.
Qed.

Lemma exec_monitorWiFiConnection fuel s :
  (31 <= fuel)%nat -> exec (monitorWiFiConnection fuel) s = link_checked s.
Proof. intros Hf. unfold exec. now rewrite monitorWiFiConnection_run. Qed.

Lemma tick_sensor_preserves R now :
  (forall s, R s s) -> (forall s1 s2 s3, R s1 s2 -> R s2 s3 -> R s1 s3) ->
  preserves R (modify (set_prevSensorMillis now)) ->
  preserves R (@readLightSensor P) ->
  forall s, R s (tick_sensor now s).
Proof.
  intros Hr Ht Hm Hs s. unfold tick_sensor.
  destruct (due _ _ _); [|apply Hr].
  eapply Ht; [apply (Hm s) | apply Hs].
Qed.

Lemma tick_log_preserves R now :
  (forall s, R s s) -> (forall s1 s2 s3, R s1 s2 -> R s2 s3 -> R s1 s3) ->
  preserves R (modify (set_wifiLogMillis now)) ->
  preserves R (@logDetailedWiFiStatus P) ->
  forall s, R s (tick_log now s).
Proof.
  intros Hr Ht Hm Hs s. unfold tick_log.
  destruct (due _ _ _); [|apply Hr].
  eapply Ht; [apply (Hm s) | apply Hs].
Qed.

Lemma tick_requests_preserves R :
  (forall s1 s2 s3, R s1 s2 -> R s2 s3 -> R s1 s3) ->
  preserves R (emit (EvCall Floop)) ->
  preserves R (@millis P) ->
  preserves R (@server_handleClient P) ->
  forall s, R s (tick_requests s).
Proof.
  intros Ht He Hm Hs s. unfold tick_requests.
  eapply Ht; [apply (He s)|]. eapply Ht; [apply (Hm _)|]. apply Hs.
Qed.

Lemma tick_requests_link s :
  same link_view s (tick_requests s) /\ grows status_reads s (tick_requests s).
Proof.
  split; apply tick_requests_preserves; first [rel_side | pres].
Qed.

Lemma tick_sensor_link now s :
  same link_view s (tick_sensor now s) /\
  grows status_reads s (tick_sensor now s).
Proof.
  split; apply tick_sensor_preserves; first [rel_side | pres].
Qed.

Lemma tick_log_link now s :
  same link_view s (tick_log now s) /\ grows status_reads s (tick_log now s).
Proof.
  split; apply tick_log_preserves; first [rel_side | pres].
Qed.

Lemma monitorWiFiConnection_probes fuel :
  preserves (grows status_reads) (@monitorWiFiConnection P fuel).
Proof. pres. Qed.

Lemma tick_link_probes fuel now s :
  grows status_reads s (tick_link fuel now s).
Proof.
  unfold tick_link. destruct (due _ _ _); [|rel_side].
  apply (monitorWiFiConnection_probes fuel (set_previousWiFiMillis now s)).
Qed.

(** Up to the link check a tick leaves the link supervisor's state alone,
    and so does the logging after it. *)
Lemma loop_link_view fuel s :
  (31 <= fuel)%nat ->
  let now := ulong (millis_at P (clock_reads s)) in
  let s2 := tick_sensor now (tick_requests s) in
  link_view s2 = link_view s /\
  (status_reads s <= status_reads s2)%nat /\
  link_view (exec (loop fuel) s)
  = link_view (if due now (previousWiFiMillis s) wifiCheckInterval
               then link_checked (set_previousWiFiMillis now s2) else s2) /\
  (status_reads s2 <= status_reads (exec (loop fuel) s))%nat.
Proof.
  intros Hf. cbv zeta. rewrite exec_loop by exact Hf. cbv zeta.
  destruct (tick_requests_link s) as [H1 H1'].
  destruct (tick_requests_frame s) as [Ht1 _].
  destruct (tick_sensor_link (ulong (millis_at P (clock_reads s)))
              (tick_requests s)) as [H2 H2'].
  destruct (tick_sensor_frame (ulong (millis_at P (clock_reads s)))
              (tick_requests s)) as (_ & Hw & _).
  pose proof (tick_link_probes fuel (ulong (millis_at P (clock_reads s)))
                (tick_sensor (ulong (millis_at P (clock_reads s)))
                   (tick_requests s))) as H3'.
  destruct (tick_log_link (ulong (millis_at P (clock_reads s)))
              (tick_link fuel (ulong (millis_at P (clock_reads s)))
                 (tick_sensor (ulong (millis_at P (clock_reads s)))
                    (tick_requests s)))) as [H4 H4'].
  unfold same, grows in *.
  split; [congruence|]. split; [lia|]. split.
  - rewrite H4. unfold tick_link.
    unfold timers in Ht1. injection Ht1 as _ Hp _.
    rewrite Hw, Hp.
    destruct (due _ (previousWiFiMillis s) wifiCheckInterval); [|reflexivity].
    now rewrite exec_monitorWiFiConnection by exact Hf.
  - lia.
Qed.

Lemma link_down_from_le i j :
  (i <= j)%nat -> link_down_from P i -> link_down_from P j.
Proof. intros Hij H k Hk. apply H. lia. Qed.

Lemma link_checked_counter s :
  - 2 ^ 31 <= wifiReconnectAttempts s < INT_MAX ->
  wifiReconnectAttempts (link_checked s)
  = wifiReconnectAttempts s
    + (if negb (is_connected (status_at P (status_reads s))) && wifiConnected s
       then 1 else 0).
Proof.
  unfold INT_MAX. intros Hc. unfold link_checked.
  destruct (is_connected (status_at P (status_reads s))); cbn [negb andb].
  - unfold link_seen_up. destruct (wifiConnected s); simpl; lia.
  - unfold relinked. cbv zeta.
    destruct (_ && _); cbn [wifiReconnectAttempts set_trace set_server
      set_wifiConnected set_status_reads connect_outcome];
    unfold drop_noted; destruct (wifiConnected s); simpl;
      rewrite ?sint_small; lia.
Qed.

Lemma drop_noted_counter s :
  wifiReconnectAttempts (drop_noted s)
  = if wifiConnected s then sint (wifiReconnectAttempts s + 1)
    else wifiReconnectAttempts s.
Proof. unfold drop_noted. destruct (wifiConnected s); reflexivity. Qed.

Lemma link_checked_down s :
  link_down_from P (status_reads s) ->
  wifiConnected (link_checked s) = false /\
  wifiReconnectAttempts (link_checked s)
  = wifiReconnectAttempts (drop_noted s) /\
  server (link_checked s) = server s.
Proof.
  intros Hd. unfold link_checked. rewrite (Hd (status_reads s)) by lia.
  unfold relinked. cbv zeta.
  assert (Hs : status_reads (connect_outcome (drop_noted s))
               = (S (status_reads s) + S (S (waits P 30 (S (status_reads s)))))%nat).
  { unfold drop_noted. destruct (wifiConnected s); reflexivity. }
  rewrite Hs. rewrite (Hd _) by lia. cbn [andb].
  unfold drop_noted.
  destruct (wifiConnected s) eqn:E; repeat split; try reflexivity; exact E.
Qed.

(** The two ways a link check enters the connected state.  On the
    reconnect path (link found down, connect sequence, link up) the
    listener is bound; on the restore path (link found up while the flag is
    clear) the server is left as it is. *)
Lemma reconnect_path_binds_listener fuel s :
  (31 <= fuel)%nat ->
  is_connected (status_at P (status_reads s)) = false ->
  is_connected
    (status_at P (status_reads s + waits P 30 (S (status_reads s)) + 3))
  = true ->
  wifiConnected (exec (monitorWiFiConnection fuel) s) = true /\
  listening (server (exec (monitorWiFiConnection fuel) s)) = true.
Proof.
  intros Hf Hdown Hup. rewrite exec_monitorWiFiConnection by exact Hf.
  unfold link_checked. rewrite Hdown.
  assert (Hi : status_reads (connect_outcome (drop_noted s))
           = (status_reads s + waits P 30 (S (status_reads s)) + 3)%nat).
  { unfold drop_noted. destruct (wifiConnected s); simpl; lia. }
  assert (Hfl : wifiConnected (connect_outcome (drop_noted s)) = false).
  { unfold drop_noted.
    destruct (wifiConnected s) eqn:E; simpl; try reflexivity; exact E. }
  unfold relinked. cbv zeta. rewrite Hi, Hup, Hfl. split; reflexivity.
Qed.

Lemma restore_path_skips_listener fuel s :
  (31 <= fuel)%nat ->
  is_connected (status_at P (status_reads s)) = true ->
  wifiConnected s = false ->
  wifiConnected (exec (monitorWiFiConnection fuel) s) = true /\
  server (exec (monitorWiFiConnection fuel) s) = server s.
Proof.
  intros Hf Hup Hflag. rewrite exec_monitorWiFiConnection by exact Hf.
  unfold link_checked, link_seen_up. rewrite Hup, Hflag.
  split; reflexivity.
Qed.

(** C2.  One link check returns and raises [wifiReconnectAttempts] by one
    exactly when it finds the network not connected while the connected
    flag is set, and leaves it alone otherwise.  Hence, from a state with
    the flag set and a link that stays down, any number of ticks raises
    the counter by exactly one as soon as one link check has run, however
    many failed checks follow.  (The counter is an [int]; it is taken below
    [INT_MAX], beyond which the increment is undefined in C++.) *)
Theorem reconnect_counter_counts_drops fuel s :
  (31 <= fuel)%nat ->
  - 2 ^ 31 <= wifiReconnectAttempts s < INT_MAX ->
  let up := is_connected (status_at P (status_reads s)) in
  let s' := exec (monitorWiFiConnection fuel) s in
  result (monitorWiFiConnection fuel) s = Some tt /\
  wifiReconnectAttempts s'
  = wifiReconnectAttempts s + (if negb up && wifiConnected s then 1 else 0) /\
  (wifiConnected s = true ->
   link_down_from P (status_reads s) ->
   forall n,
     let sn := exec (ticks fuel n) s in
     let checks := (calls FmonitorWiFiConnection (trace sn)
                    - calls FmonitorWiFiConnection (trace s))%nat in
     wifiReconnectAttempts sn
     = wifiReconnectAttempts s + (if (checks =? 0)%nat then 0 else 1)).
Proof.
  intros Hf Hc. cbv zeta.
  split; [apply returns_unit, monitorWiFiConnection_returns, Hf|].
  split; [rewrite exec_monitorWiFiConnection by exact Hf;
          apply link_checked_counter, Hc|].
  intros Hflag Hdown n.
  set (m0 := calls FmonitorWiFiConnection (trace s)).
  set (c := wifiReconnectAttempts s) in *.
  assert (Inv :
    (status_reads s <= status_reads (exec (ticks fuel n) s))%nat /\
    (m0 <= calls FmonitorWiFiConnection (trace (exec (ticks fuel n) s)))%nat /\
    (calls FmonitorWiFiConnection (trace (exec (ticks fuel n) s)) = m0 ->
     wifiConnected (exec (ticks fuel n) s) = true /\
     wifiReconnectAttempts (exec (ticks fuel n) s) = c) /\
    (calls FmonitorWiFiConnection (trace (exec (ticks fuel n) s)) <> m0 ->
     wifiConnected (exec (ticks fuel n) s) = false /\
     wifiReconnectAttempts (exec (ticks fuel n) s) = c + 1)).
  { induction n as [|n IH].
    - cbn [ticks]. change (exec (ret tt) s) with s.
      repeat split; try lia; try assumption; try reflexivity; congruence.
    - cbn [ticks]. rewrite exec_seq by (apply ticks_returns, Hf).
      set (sn := exec (ticks fuel n) s) in *.
      destruct IH as (Hs & Hm & Hsame & Hdiff).
      destruct (loop_tasks fuel sn Hf) as (Hcalls & _).
      cbv zeta in Hcalls. unfold task_calls in Hcalls.
      injection Hcalls as _ Hcm _.
      destruct (loop_link_view fuel sn Hf) as (Hv2 & Hs2 & Hv & Hs3).
      cbv zeta in Hv2, Hs2, Hv, Hs3.
      set (now := ulong (millis_at P (clock_reads sn))) in *.
      set (s2 := tick_sensor now (tick_requests sn)) in *.
      unfold link_view in Hv2. injection Hv2 as Hfl2 Hct2 _.
      destruct (due now (previousWiFiMillis sn) wifiCheckInterval);
        cbn [ran] in Hcm; unfold link_view in Hv; injection Hv as Hfl Hct _.
      + destruct (link_checked_down (set_previousWiFiMillis now s2)) as (Hl1 & Hl2 & _).
        { apply (link_down_from_le (status_reads s)); [|exact Hdown].
          cbn [status_reads set_previousWiFiMillis]. lia. }
        rewrite Hl1 in Hfl. rewrite Hl2 in Hct.
        split; [lia|]. split; [lia|]. split; [intros; lia|]. intros _.
        split; [exact Hfl|]. rewrite Hct, drop_noted_counter.
        cbn [wifiConnected wifiReconnectAttempts set_previousWiFiMillis].
        rewrite Hfl2, Hct2.
        destruct (Nat.eq_dec (calls FmonitorWiFiConnection (trace sn)) m0) as [E|E].
        * destruct (Hsame E) as [Ha Hb]. rewrite Ha, Hb.
          apply sint_small. unfold INT_MAX in Hc. lia.
        * destruct (Hdiff E) as [Ha Hb]. rewrite Ha. exact Hb.
      + rewrite Nat.add_0_r in Hcm. rewrite Hcm, Hfl, Hct, Hfl2, Hct2.
        split; [lia|]. split; [lia|]. split; assumption. }
  destruct Inv as (_ & Hm & Hsame & Hdiff).
  destruct (Nat.eqb_spec
    (calls FmonitorWiFiConnection (trace (exec (ticks fuel n) s)) - m0) 0) as [E|E].
  - destruct Hsame as [_ ->]; lia.
  - destruct Hdiff as [_ ->]; lia.
Qed.

(** ** Boot *)

Lemma blink_run fuel :
  forall s,
    while_ fuel (fun _ : unit => ret true)
      (fun _ =>
         bind (digitalWrite true) (fun _ =>
         bind (delay 100) (fun _ =>
         bind (digitalWrite false) (fun _ => delay 100))))
      tt s
    = (None, set_trace (Nat.iter fuel blink_events (trace s)) s).
Proof.
  induction fuel as [|fuel IH]; intros s.
  - cbn [while_ Nat.iter]. f_equal. rewrite (Sys_eta s) at 1. reflexivity.
  - cbn [while_]. unfold bind at 1. cbn [ret].
    unfold bind at 1.
    unfold bind at 1. unfold digitalWrite at 1. unfold emit, modify at 1.
    unfold bind at 1. unfold delay at 1. unfold emit, modify at 1.
    unfold bind at 1. unfold digitalWrite at 1. unfold emit, modify at 1.
    unfold delay at 1. unfold emit, modify at 1.
    rewrite IH. cbn [trace set_trace]. f_equal.
    change (EvDelay 100 :: EvLed false :: EvDelay 100 :: EvLed true :: trace s)
      with (blink_events (trace s)).
    rewrite <- Nat.iter_succ_r. reflexivity.
Qed.

Lemma setup_without_sensor fuel s :
  tsl_begin P = false ->
  setup fuel s
  = (None, set_trace (Nat.iter fuel blink_events (sensor_missing (trace s))) s).
Proof.
  intros Hb. unfold setup. rewrite Hb. cbn [negb when].
  do 6 (unfold bind at 1;
        unfold Serial_println, delay, digitalWrite, emit, modify at 1).
  unfold bind at 1. unfold bind at 1.
  unfold Serial_println, emit, modify at 1.
  rewrite blink_run. reflexivity.
Qed.

Lemma after_bind {A B} R Q (m : @M P A) (k : A -> M B) :
  (forall s1 s2 s3, R s1 s2 -> R s2 s3 -> R s1 s3) ->
  (forall s s', R s s' -> Q s s') ->
  preserves R m -> (forall a, after R Q (k a)) -> after R Q (bind m k).
Proof.
  intros Ht Hsub Hm Hk s0 s1 H01.
  destruct (result m s1) as [a|] eqn:E.
  - rewrite (exec_bind m k s1 a E). apply Hk. eapply Ht; [exact H01 | apply Hm].
  - rewrite (exec_bind_none m k s1 E). apply Hsub. eapply Ht; [exact H01 | apply Hm].
Qed.

Lemma after_preserves {A} R Q (m : @M P A) :
  (forall s1 s2 s3, R s1 s2 -> R s2 s3 -> R s1 s3) ->
  (forall s s', R s s' -> Q s s') ->
  preserves R m -> after R Q m.
Proof. intros Ht Hsub Hm s0 s1 H01. apply Hsub. eapply Ht; [exact H01 | apply Hm]. Qed.

Lemma untouched_refl s : untouched s s.
Proof. split; reflexivity. Qed.

Lemma untouched_trans s1 s2 s3 :
  untouched s1 s2 -> untouched s2 s3 -> untouched s1 s3.
Proof. unfold untouched. intros [] []. split; congruence. Qed.

Ltac pres_untouched :=
  match goal with
  | |- preserves untouched ?m =>
      let H1 := fresh in let H2 := fresh in
      assert (H1 : preserves (same server) m) by pres;
      assert (H2 : preserves (same wifiConnected) m) by pres;
      let s := fresh "s" in
      intros s; split; [apply (H1 s) | apply (H2 s)]
  end.

(** [setup] either leaves server and flag as they were (no sensor, or the
    boot-time connect failed), or sets the flag and registers the routes,
    the cross-origin policy and the listener. *)
Lemma setup_boot_result fuel s : boot_result s (exec (setup fuel) s).
Proof.
  assert (H : after untouched boot_result (@setup P fuel)).
  2:{ apply H, untouched_refl. }
  unfold setup.
  do 11 (apply after_bind;
    [exact untouched_trans | intros ? ? ?; left; assumption
    | pres_untouched | intros _]).
  apply after_bind;
    [exact untouched_trans | intros ? ? ?; left; assumption
    | pres_untouched | intros st].
  destruct (is_connected st); cbn [when].
  - intros s0 s1 [Hs Hf]. right.
    repeat (rewrite exec_seq by rets).
    assert (H1 : preserves (same wifiConnected) (@testInternetConnection P)) by pres.
    assert (H2 : preserves (same server) (@testInternetConnection P)) by pres.
    assert (H3 : preserves (same wifiConnected) (@printConnectionDetails P)) by pres.
    assert (H4 : preserves (same server) (@printConnectionDetails P)) by pres.
    unfold same in *.
    unfold Serial_println, emit, server_begin, server_enableCORS, server_on.
    rewrite !exec_modify.
    cbn [wifiConnected server set_trace set_server routes cors listening].
    rewrite H1, H2, H3, H4. unfold registered.
    cbn [wifiConnected server set_wifiConnected].
    rewrite Hs. split; [reflexivity|].
    rewrite <- app_assoc. reflexivity.
  - apply after_preserves;
      [exact untouched_trans | intros ? ? ?; left; assumption | pres_untouched].
Qed.

Lemma calls_blink f k (tr : list (@Event P)) :
  calls f (Nat.iter k blink_events tr) = calls f tr.
Proof. induction k as [|k IH]; simpl; [reflexivity | exact IH]. Qed.

Lemma sends_blink k (tr : list (@Event P)) :
  sends (Nat.iter k blink_events tr) = sends tr.
Proof. induction k as [|k IH]; simpl; [reflexivity | exact IH]. Qed.

(** C8.  When [tsl.begin()] fails, [setup] never returns: for every amount
    of fuel the sketch is still inside the indicator loop, having blinked
    once per unit of fuel and done nothing else.  No tick is entered, no
    sample taken, no link check or connect sequence run, no client polled,
    no response sent, and the snapshot keeps its boot value. *)
Theorem failed_sensor_init_halts fuel n :
  tsl_begin P = false ->
  let s' := exec (sketch fuel n) (@boot P) in
  result (sketch fuel n) (@boot P) = None /\
  result (setup fuel) (@boot P) = None /\
  trace s' = Nat.iter fuel blink_events (sensor_missing []) /\
  calls Floop (trace s') = 0%nat /\
  calls FreadLightSensor (trace s') = 0%nat /\
  calls FmonitorWiFiConnection (trace s') = 0%nat /\
  calls FconnectToNYUWiFi (trace s') = 0%nat /\
  calls FlogDetailedWiFiStatus (trace s') = 0%nat /\
  calls FhandleRoot (trace s') = 0%nat /\
  calls FhandleData (trace s') = 0%nat /\
  sends (trace s') = [] /\
  client_polls s' = 0%nat /\
  sensor_reads s' = 0%nat /\
  status_reads s' = 0%nat /\
  clock_reads s' = 0%nat /\
  latestData s' = latestData (@boot P).
Proof.
  intros Hb. cbv zeta.
  assert (Hrun : sketch fuel n (@boot P)
                 = (None, set_trace (Nat.iter fuel blink_events (sensor_missing [])) boot)).
  { unfold sketch. apply bind_none. apply (setup_without_sensor fuel boot Hb). }
  unfold result, exec. rewrite Hrun, (setup_without_sensor fuel boot Hb).
  cbn [fst snd trace set_trace boot].
  rewrite !calls_blink, sends_blink.
  repeat split; reflexivity.
Qed.

(** ** Routes *)

Lemma ticks_preserves R fuel n :
  (forall s, R s s) -> (forall s1 s2 s3, R s1 s2 -> R s2 s3 -> R s1 s3) ->
  preserves R (@loop P fuel) -> preserves R (@ticks P fuel n).
Proof.
  intros Hr Ht Hl. induction n as [|n IH]; cbn [ticks].
  - apply preserves_ret, Hr.
  - apply preserves_bind; [exact Ht | exact IH | intros _; exact Hl].
Qed.

Lemma sketch_cases fuel n s :
  exec (sketch fuel n) s = exec (setup fuel) s \/
  exec (sketch fuel n) s = exec (ticks fuel n) (exec (setup fuel) s).
Proof.
  unfold sketch. destruct (result (setup fuel) s) as [[]|] eqn:E.
  - right. exact (exec_bind (setup fuel) (fun _ => ticks fuel n) s tt E).
  - left. exact (exec_bind_none (setup fuel) (fun _ => ticks fuel n) s E).
Qed.

(** After a boot with the sensor present the flag records the answer of
    the status probe that follows the boot-time connect sequence. *)
Lemma setup_flag fuel s :
  (31 <= fuel)%nat -> tsl_begin P = true -> wifiConnected s = false ->
  wifiConnected (exec (setup fuel) s)
  = is_connected
      (status_at P (status_reads s + waits P 30 (status_reads s) + 2)).
Proof.
  intros Hf Hb Hflag. unfold setup. rewrite Hb. cbn [negb when].
  do 11 (rewrite exec_seq by rets).
  match goal with |- context [exec (connectToNYUWiFi fuel) ?y0] =>
    set (y := y0) end.
  assert (Hy : status_reads y = status_reads s) by reflexivity.
  unfold exec at 2. rewrite connectToNYUWiFi_run by exact Hf. cbn [snd].
  rewrite (exec_bind WiFi_status _ _
             (status_at P (status_reads (connect_outcome y)))) by reflexivity.
  assert (Hi : status_reads (connect_outcome y)
               = (status_reads s + waits P 30 (status_reads s) + 2)%nat).
  { unfold connect_outcome. cbv zeta. cbn [status_reads set_status_reads].
    rewrite Hy. lia. }
  rewrite Hi.
  destruct (is_connected _) eqn:E; cbn [when].
  - rewrite exec_seq by rets. rewrite exec_seq by rets.
    match goal with
    | |- wifiConnected (exec ?p (exec ?r (exec (modify _) ?x))) = true =>
        let H1 := fresh in let H2 := fresh in
        assert (H1 : preserves (same wifiConnected) p) by pres;
        assert (H2 : preserves (same wifiConnected) r) by pres;
        rewrite (H1 _), (H2 _)
    end.
    reflexivity.
  - rewrite exec_seq by rets.
    assert (H : preserves (same wifiConnected) (@Serial_println P MsgInitialized))
      by pres.
    rewrite (H _). exact Hflag.
Qed.

(** C10.  Routes and cross-origin policy are installed by [setup] only, and
    only in its connected branch.  When [setup] leaves the connected flag
    clear (the boot-time connect failed, or the sensor was missing), the
    route table is empty and the policy off after [setup] and after any
    number of ticks.  A link check never changes either, also not the one
    that finds the link down, reconnects and binds the listener.  (With the
    sensor present, the flag after [setup] is the answer of the status
    probe that guards the connected branch.) *)
Theorem routes_registered_only_at_boot fuel n :
  wifiConnected (exec (setup fuel) (@boot P)) = false ->
  let s' := exec (sketch fuel n) (@boot P) in
  ((31 <= fuel)%nat -> tsl_begin P = true ->
   is_connected (status_at P (waits P 30 0 + 2)) = false) /\
  routes (server s') = [] /\
  cors (server s') = false /\
  (forall path, find_route path (routes (server s')) = None) /\
  (forall s,
     (31 <= fuel)%nat ->
     let checked := exec (monitorWiFiConnection fuel) s in
     route_table checked = route_table s /\
     (is_connected (status_at P (status_reads s)) = false ->
      is_connected
        (status_at P (status_reads s + waits P 30 (S (status_reads s)) + 3))
      = true ->
      wifiConnected checked = true /\ listening (server checked) = true)).
Proof.
  intros Hflag. cbv zeta.
  assert (Hsetup : route_table (exec (setup fuel) (@boot P)) = ([], false)).
  { destruct (setup_boot_result fuel (@boot P)) as [[Hs _]|[Ht _]].
    - unfold route_table. rewrite Hs. reflexivity.
    - congruence. }
  assert (Hall : route_table (exec (sketch fuel n) (@boot P)) = ([], false)).
  { destruct (sketch_cases fuel n (@boot P)) as [->| ->]; [exact Hsetup|].
    rewrite <- Hsetup.
    apply (ticks_preserves (same route_table)); [rel_side | rel_side | pres]. }
  unfold route_table in Hall. injection Hall as Hr Hc.
  split.
  { intros Hf Hb. rewrite <- Hflag.
    rewrite (setup_flag fuel boot Hf Hb eq_refl). reflexivity. }
  split; [exact Hr|]. split; [exact Hc|].
  split; [intros path; rewrite Hr; reflexivity|].
  intros s Hf. split.
  - assert (H : preserves (same route_table) (@monitorWiFiConnection P fuel))
      by pres.
    apply (H s).
  - intros Hdown Hup. exact (reconnect_path_binds_listener fuel s Hf Hdown Hup).
Qed.

(** ** Around the sampler *)

(** A relation that every computation leaving snapshot and counter position
    alone preserves, and that the sampler preserves, is preserved by ticks
    and by whole runs. *)
Section AroundSensor.

Variable R : @Sys P -> @Sys P -> Prop.
Hypothesis R_refl : forall s, R s s.
Hypothesis R_trans : forall s1 s2 s3, R s1 s2 -> R s2 s3 -> R s1 s3.
Hypothesis R_frame : forall A (m : @M P A),
  preserves (same latestData) m -> preserves (grows clock_reads) m ->
  preserves R m.
Hypothesis R_sensor : preserves R (@readLightSensor P).

Ltac around :=
  lazymatch goal with
  | |- preserves _ readLightSensor => exact R_sensor
  | |- preserves _ (bind _ _) =>
      apply preserves_bind;
        [exact R_trans | around | intro; cbv beta; around]
  | |- preserves _ (when _ _) =>
      apply preserves_when; [exact R_refl | around]
  | |- preserves _ (loop _) => unfold loop; around
  | |- preserves _ _ => apply R_frame; pres
  end.

Lemma loop_around_sensor fuel : preserves R (@loop P fuel).
Proof. around. Qed.

Lemma sketch_around_sensor fuel n : preserves R (@sketch P fuel n).
Proof.
  unfold sketch. apply preserves_bind.
  - exact R_trans.
  - apply R_frame; pres.
  - intros _. apply ticks_preserves;
      [exact R_refl | exact R_trans | apply loop_around_sensor].
Qed.

End AroundSensor.

(** ** The data route *)

Lemma parse_uint_String_int (z : Z) :
  0 <= z -> parse_uint (String_int z) = Some z.
Proof.
  intros Hz. unfold parse_uint, String_int.
  rewrite NilZero.usu.
  - cbn [option_map]. rewrite DecimalN.Unsigned.of_to. f_equal. lia.
  - destruct (Z.to_N z); [discriminate|].
    apply DecimalPos.Unsigned.to_uint_nonnil.
Qed.

Lemma well_typed_sketch fuel n :
  well_typed (latestData (exec (sketch fuel n) (@boot P))).
Proof.
  assert (H : preserves
            (fun s s' => well_typed (latestData s) -> well_typed (latestData s'))
            (@sketch P fuel n)).
  { apply sketch_around_sensor.
    - intros s H. exact H.
    - intros s1 s2 s3 H12 H23 H. apply H23, H12, H.
    - intros A m Hd _ s H. rewrite (Hd s). exact H.
    - intros s _. rewrite exec_readLightSensor. unfold sampled, well_typed.
      cbv zeta. cbn [latestData]. unfold snapshot_of.
      cbn [visible_ir ir timestamp].
      assert (Hr : 0 <= uint32 (luminosity_at P (sensor_reads s)) < 2 ^ 32)
        by (unfold uint32; apply Z.mod_pos_bound; lia).
      split; [apply Z.mod_pos_bound; lia|].
      split; [|apply ulong_range].
      split; [apply Z.div_pos; lia | apply Z.div_lt_upper_bound; lia]. }
  apply H. unfold well_typed. cbn [boot latestData visible_ir ir timestamp]. lia.
Qed.

(** ** Reading the response back *)

Lemma split_at_app c v rest :
  free_of c v -> split_at c (v ++ String c rest) = (v, rest).
Proof.
  induction v as [|a v IH]; cbn [append split_at free_of].
  - intros _. now rewrite Ascii.eqb_refl.
  - intros [Ha Hv]. apply Ascii.eqb_neq in Ha. rewrite Ha, (IH Hv).
    reflexivity.
Qed.

Lemma digits_free c d :
  (c = "," \/ c = "}")%char -> free_of c (NilEmpty.string_of_uint d).
Proof.
  intros Hc. induction d; cbn [NilEmpty.string_of_uint free_of];
    try exact I; (split; [destruct Hc; subst; discriminate | assumption]).
Qed.

Lemma String_int_free c z :
  (c = "," \/ c = "}")%char -> free_of c (String_int z).
Proof.
  intros Hc. unfold String_int, NilZero.string_of_uint.
  destruct (N.to_uint (Z.to_N z)) eqn:E; try (rewrite <- E; apply digits_free; exact Hc).
  cbn [free_of]. split; [destruct Hc; subst; discriminate | exact I].
Qed.

Lemma strip_prefix_app (p r : string) : strip_prefix p (p ++ r) = Some r.
Proof.
  induction p as [|a p IH]; cbn [append strip_prefix]; [reflexivity|].
  now rewrite Ascii.eqb_refl.
Qed.

Lemma member_app key sep v rest :
  free_of sep v ->
  member key sep ((quoted key ++ ":") ++ (v ++ String sep rest))
  = Some (v, rest).
Proof.
  intros H. unfold member. now rewrite strip_prefix_app, split_at_app.
Qed.

Lemma data_body_shape (d : @SensorData P) :
  json_object (data_members d)
  = ("{" ++
     ((quoted "visible_ir" ++ ":") ++
      (String_int (visible_ir d) ++ String ","
      ((quoted "ir" ++ ":") ++
       (String_int (ir d) ++ String ","
       ((quoted "lux" ++ ":") ++
        (String_float P (lux d) 2 ++ String ","
        ((quoted "timestamp" ++ ":") ++
         (String_int (timestamp d) ++ String "}" EmptyString)))))))))%string.
Proof.
  unfold json_object, data_members. cbn [json_members].
  repeat (progress (rewrite ?append_assoc; cbn [append quoted])).
  reflexivity.
Qed.

Lemma decode_data_response (d : @SensorData P) co :
  well_typed d ->
  free_of "," (String_float P (lux d) 2) ->
  decode_data (body (data_response d co))
  = Some (visible_ir d, ir d, String_float P (lux d) 2, timestamp d).
Proof.
  intros (Hv & Hi & Ht) Hl.
  unfold data_response. cbn [body]. rewrite data_body_shape.
  unfold decode_data. rewrite strip_prefix_app.
  rewrite member_app by (apply String_int_free; now left).
  rewrite member_app by (apply String_int_free; now left).
  rewrite member_app by exact Hl.
  rewrite member_app by (apply String_int_free; now right).
  rewrite !parse_uint_String_int by lia.
  reflexivity.
Qed.

Lemma server_handleClient_data s :
  listening (server s) = true ->
  find_route "/data" (routes (server s)) = Some FhandleData ->
  client_at P (client_polls s) = Some "/data"%string ->
  server_handleClient s
  = handleData (set_client_polls (S (client_polls s)) s).
Proof.
  intros Hl Hr Hc. unfold server_handleClient.
  unfold bind at 1. unfold next_client. rewrite Hc.
  unfold bind at 1. unfold get at 1. cbn [server set_client_polls]. rewrite Hl.
  unfold bind at 1. unfold get at 1. cbn [server set_client_polls]. rewrite Hr.
  reflexivity.
Qed.

(** C4.  Whatever the snapshot holds, the [/data] handler returns and sends
    one response with status 200 and type [application/json] whose body is
    a JSON object of exactly the four members [visible_ir], [ir], [lux],
    [timestamp], in this order; there is no error path.  The same response
    is what a client requesting [/data] gets from [handleClient] once the
    listener is bound and the route registered.  Before any sample the
    members are the zero defaults.  In every state the sketch reaches the
    integer members are the decimal renderings of values within [uint16_t],
    [uint16_t] and the 32-bit [unsigned long] (which fits 64 bits), and a
    client reading the body member by member gets exactly these four
    values back (provided the formatter puts no comma into the illuminance
    text). *)
Theorem data_route_always_answers s :
  let d := latestData s in
  let r := data_response d (cors (server s)) in
  result handleData s = Some tt /\
  sends (trace (exec handleData s)) = r :: sends (trace s) /\
  code r = 200 /\
  content_type r = "application/json"%string /\
  body r = json_object (data_members d) /\
  map fst (data_members d) = ["visible_ir"; "ir"; "lux"; "timestamp"]%string /\
  (listening (server s) = true ->
   find_route "/data" (routes (server s)) = Some FhandleData ->
   client_at P (client_polls s) = Some "/data"%string ->
   result server_handleClient s = Some tt /\
   sends (trace (exec server_handleClient s)) = r :: sends (trace s)) /\
  data_members (latestData (@boot P))
  = [("visible_ir", "0"); ("ir", "0");
     ("lux", String_float P (float_zero P) 2); ("timestamp", "0")]%string /\
  (forall fuel n,
     let d' := latestData (exec (sketch fuel n) (@boot P)) in
     well_typed d' /\
     0 <= timestamp d' < 2 ^ 64 /\
     (forall co,
        free_of "," (String_float P (lux d') 2) ->
        decode_data (body (data_response d' co))
        = Some (visible_ir d', ir d', String_float P (lux d') 2,
                timestamp d'))).
Proof.
  cbv zeta.
  split; [unfold result; now rewrite handleData_run|].
  split; [rewrite exec_handleData; reflexivity|].
  split; [reflexivity|]. split; [reflexivity|]. split; [reflexivity|].
  split; [reflexivity|].
  split.
  { intros Hl Hr Hc.
    unfold result, exec.
    rewrite (server_handleClient_data s Hl Hr Hc), handleData_run.
    split; reflexivity. }
  split; [reflexivity|].
  intros fuel n.
  pose proof (well_typed_sketch fuel n) as Hw.
  split; [exact Hw|].
  split; [destruct Hw as (_ & _ & Ht); lia|].
  intros co Hl. apply decode_data_response; assumption.
Qed.

(** * Further properties of the firmware *)

(** ** Requests within a tick *)

Lemma sends_after_requests_phase fuel now s :
  (31 <= fuel)%nat ->
  sends (trace (tick_log now (tick_link fuel now (tick_sensor now s))))
  = sends (trace s) /\
  client_polls (tick_log now (tick_link fuel now (tick_sensor now s)))
  = client_polls s.
Proof.
  intros Hf.
  assert (H1 : forall s0, same (fun x => (sends (trace x), client_polls x)) s0
                            (tick_sensor now s0))
    by (apply tick_sensor_preserves; [rel_side | rel_side | pres | pres]).
  assert (H3 : forall s0, same (fun x => (sends (trace x), client_polls x)) s0
                            (tick_log now s0))
    by (apply tick_log_preserves; [rel_side | rel_side | pres | pres]).
  assert (H2 : forall s0, same (fun x => (sends (trace x), client_polls x)) s0
                            (tick_link fuel now s0)).
  { intros s0. unfold tick_link. destruct (due _ _ _); [|rel_side].
    assert (H : preserves (same (fun x => (sends (trace x), client_polls x)))
                  (@monitorWiFiConnection P fuel)) by pres.
    apply (H (set_previousWiFiMillis now s0)). }
  unfold same in *.
  specialize (H3 (tick_link fuel now (tick_sensor now s))).
  specialize (H2 (tick_sensor now s)). specialize (H1 s).
  rewrite H2, H1 in H3. injection H3 as Ha Hb. split; assumption.
Qed.

Lemma handleRoot_run s :
  handleRoot s
  = (Some tt,
     set_trace (EvSend (root_response P (cors (server s)))
                :: EvCall FhandleRoot :: trace s) s).
Proof. reflexivity. Qed.

Lemma server_handleClient_run s :
  server_handleClient s
  = let s0 := set_client_polls (S (client_polls s)) s in
    match client_at P (client_polls s) with
    | None => (Some tt, s0)
    | Some path =>
        if listening (server s) then
          match find_route path (routes (server s)) with
          | Some h => call_handler h s0
          | None => server_send 404 "text/plain" "Not found" s0
          end
        else (Some tt, s0)
    end.
Proof.
  cbv zeta. unfold server_handleClient. unfold bind at 1. unfold next_client.
  destruct (client_at P (client_polls s)) as [path|]; [|reflexivity].
  unfold bind at 1. unfold get at 1. cbn [server set_client_polls].
  destruct (listening (server s)); [|reflexivity].
  unfold bind at 1. unfold get at 1. cbn [server set_client_polls].
  destruct (find_route path (routes (server s))); reflexivity.
Qed.

(** What one poll of the server does: nothing without a waiting client or
    with the listener unbound; otherwise exactly one response, chosen by the
    route table. *)
Lemma server_handleClient_cases s :
  let s0 := set_client_polls (S (client_polls s)) s in
  let s' := exec server_handleClient s in
  result server_handleClient s = Some tt /\
  client_polls s' = S (client_polls s) /\
  match client_at P (client_polls s) with
  | None => s' = s0
  | Some path =>
      if listening (server s) then
        match find_route path (routes (server s)) with
        | Some FhandleRoot =>
            sends (trace s') = root_response P (cors (server s)) :: sends (trace s)
        | Some FhandleData =>
            sends (trace s')
            = data_response (latestData s) (cors (server s)) :: sends (trace s)
        | Some _ => s' = s0
        | None =>
            sends (trace s') = not_found_response (cors (server s)) :: sends (trace s)
        end
      else s' = s0
  end.
Proof.
  cbv zeta. split; [apply returns_unit, server_handleClient_returns|].
  unfold exec. rewrite server_handleClient_run. cbv zeta.
  destruct (client_at P (client_polls s)) as [path|]; [|split; reflexivity].
  destruct (listening (server s)); [|split; reflexivity].
  destruct (find_route path (routes (server s))) as [h|].
  - destruct h; cbn [call_handler]; try rewrite handleRoot_run;
      try rewrite handleData_run; split; reflexivity.
  - split; reflexivity.
Qed.


(** The request phase of a tick polls the server once; of the tick's
    responses it is the only source.  A client waiting when the tick starts
    is answered before the tick's sample is taken: a [/data] request gets
    the snapshot the tick started with, also on a tick that samples.  No
    response is sent when no client waits or the listener is not bound. *)
Theorem tick_answers_waiting_request fuel s :
  (31 <= fuel)%nat ->
  let s' := exec (loop fuel) s in
  client_polls s' = S (client_polls s) /\
  match client_at P (client_polls s) with
  | None => sends (trace s') = sends (trace s)
  | Some path =>
      if listening (server s) then
        match find_route path (routes (server s)) with
        | Some FhandleRoot =>
            sends (trace s')
            = root_response P (cors (server s)) :: sends (trace s)
        | Some FhandleData =>
            sends (trace s')
            = data_response (latestData s) (cors (server s)) :: sends (trace s)
        | Some _ => sends (trace s') = sends (trace s)
        | None =>
            sends (trace s')
            = not_found_response (cors (server s)) :: sends (trace s)
        end
      else sends (trace s') = sends (trace s)
  end.
Proof.
  intros Hf. cbv zeta. rewrite exec_loop by exact Hf. cbv zeta.
  destruct (sends_after_requests_phase fuel (ulong (millis_at P (clock_reads s)))
              (tick_requests s) Hf) as [Hs Hc].
  rewrite Hs, Hc. clear Hs Hc. unfold tick_requests.
  pose proof (server_handleClient_cases
                (set_clock_reads (S (clock_reads s))
                   (set_trace (EvCall Floop :: trace s) s))) as H.
  cbv zeta in H. destruct H as (_ & Hp & Hcase).
  split; [exact Hp|]. clear Hp.
  cbn [client_polls server latestData set_clock_reads set_trace trace sends]
    in Hcase.
  destruct (client_at P (client_polls s)) as [path|];
    [|rewrite Hcase; reflexivity].
  destruct (listening (server s)); [|rewrite Hcase; reflexivity].
  destruct (find_route path (routes (server s))) as [h|]; [|exact Hcase].
  destruct h; try exact Hcase; rewrite Hcase; reflexivity.
Qed.


(** ** The snapshot within a tick *)

Lemma sampler_state_after_sensor_phase fuel now s :
  (31 <= fuel)%nat ->
  same (fun x => (latestData x, clock_reads x, sensor_reads x))
    s (tick_log now (tick_link fuel now s)).
Proof.
  intros Hf.
  assert (H3 : forall s0,
             same (fun x => (latestData x, clock_reads x, sensor_reads x))
               s0 (tick_log now s0))
    by (apply tick_log_preserves; [rel_side | rel_side | pres | pres]).
  assert (H2 : forall s0,
             same (fun x => (latestData x, clock_reads x, sensor_reads x))
               s0 (tick_link fuel now s0)).
  { intros s0. unfold tick_link. destruct (due _ _ _); [|rel_side].
    assert (H : preserves
                  (same (fun x => (latestData x, clock_reads x, sensor_reads x)))
                  (@monitorWiFiConnection P fuel)) by pres.
    apply (H (set_previousWiFiMillis now s0)). }
  unfold same in *. rewrite H3. apply H2.
Qed.

Lemma sampler_state_after_requests s :
  latestData (tick_requests s) = latestData s /\
  clock_reads (tick_requests s) = S (clock_reads s) /\
  sensor_reads (tick_requests s) = sensor_reads s /\
  prevSensorMillis (tick_requests s) = prevSensorMillis s.
Proof.
  unfold tick_requests.
  assert (H : preserves
                (same (fun x => (latestData x, clock_reads x, sensor_reads x,
                                 prevSensorMillis x)))
                (@server_handleClient P)) by pres.
  specialize (H (set_clock_reads (S (clock_reads s))
                   (set_trace (EvCall Floop :: trace s) s))).
  unfold same in H. injection H as Ha Hb Hc Hd.
  rewrite Ha, Hb, Hc, Hd. repeat split; reflexivity.
Qed.

(** Within a tick only the sampler writes the snapshot.  A tick whose
    sensor task is due replaces the snapshot by the fresh reading, stamped
    with a second reading of the millisecond counter (the one made inside
    the sampler, not the tick's own [currentMillis], which goes to the
    timer); any other tick leaves the snapshot and the sensor alone and
    reads the counter once. *)
Theorem tick_snapshot_written_by_sampler fuel s :
  (31 <= fuel)%nat ->
  let now := ulong (millis_at P (clock_reads s)) in
  let s' := exec (loop fuel) s in
  if due now (prevSensorMillis s) sensorInterval then
    latestData s'
    = snapshot_of (uint32 (luminosity_at P (sensor_reads s)))
        (ulong (millis_at P (S (clock_reads s)))) /\
    prevSensorMillis s' = now /\
    sensor_reads s' = S (sensor_reads s) /\
    clock_reads s' = S (S (clock_reads s))
  else
    latestData s' = latestData s /\
    prevSensorMillis s' = prevSensorMillis s /\
    sensor_reads s' = sensor_reads s /\
    clock_reads s' = S (clock_reads s).
Proof.
  intros Hf. cbv zeta.
  destruct (loop_tasks fuel s Hf) as [_ Ht]. cbv zeta in Ht.
  unfold timers in Ht. injection Ht as Ht _ _.
  rewrite Ht. clear Ht.
  rewrite exec_loop by exact Hf. cbv zeta.
  pose proof (sampler_state_after_sensor_phase fuel
                (ulong (millis_at P (clock_reads s)))
                (tick_sensor (ulong (millis_at P (clock_reads s)))
                   (tick_requests s)) Hf) as H.
  unfold same in H. injection H as Ha Hb Hc.
  rewrite Ha, Hb, Hc. clear Ha Hb Hc.
  destruct (sampler_state_after_requests s) as (Ra & Rb & Rc & Rd).
  unfold tick_sensor. rewrite Rd.
  destruct (due _ (prevSensorMillis s) sensorInterval).
  - rewrite exec_readLightSensor. unfold sampled. cbv zeta.
    cbn [latestData sensor_reads clock_reads set_prevSensorMillis].
    rewrite ?Ra, ?Rb, ?Rc. repeat split; reflexivity.
  - rewrite Ra, Rb, Rc. repeat split; reflexivity.
Qed.


(** ** The link flag and the listener after a link check *)

Lemma drop_noted_link s :
  wifiConnected (drop_noted s) = false /\
  server (drop_noted s) = server s /\
  status_reads (drop_noted s) = S (status_reads s).
Proof.
  unfold drop_noted. cbv zeta.
  destruct (wifiConnected s) eqn:E; repeat split; try reflexivity; exact E.
Qed.

Lemma connect_outcome_link s :
  wifiConnected (connect_outcome s) = wifiConnected s /\
  server (connect_outcome s) = server s /\
  status_reads (connect_outcome s)
  = (status_reads s + S (S (waits P 30 (status_reads s))))%nat.
Proof. repeat split; reflexivity. Qed.

Lemma relinked_link s :
  wifiConnected s = false ->
  wifiConnected (relinked s) = is_connected (status_at P (status_reads s)) /\
  listening (server (relinked s))
  = (listening (server s) || is_connected (status_at P (status_reads s))) /\
  status_reads (relinked s) = S (status_reads s).
Proof.
  intros Hflag. unfold relinked. cbv zeta. rewrite Hflag. cbn [negb].
  rewrite andb_true_r.
  destruct (is_connected (status_at P (status_reads s)));
    cbn [wifiConnected server listening status_reads set_trace set_server
         set_wifiConnected set_status_reads].
  - rewrite orb_true_r. repeat split; reflexivity.
  - rewrite orb_false_r. repeat split; try reflexivity; try exact Hflag.
Qed.

(** A link check probes the status at least once, and when it returns the
    connected flag is the answer of the last probe it made.  The listener
    is bound afterwards exactly when it was bound before or the check found
    the link down and its connect sequence brought it back. *)
Theorem link_flag_follows_last_probe fuel s :
  (31 <= fuel)%nat ->
  let s' := exec (monitorWiFiConnection fuel) s in
  (status_reads s < status_reads s')%nat /\
  wifiConnected s'
  = is_connected (status_at P (Nat.pred (status_reads s'))) /\
  listening (server s')
  = (listening (server s)
     || (negb (is_connected (status_at P (status_reads s)))
         && wifiConnected s')).
Proof.
  intros Hf. cbv zeta. rewrite exec_monitorWiFiConnection by exact Hf.
  unfold link_checked.
  destruct (is_connected (status_at P (status_reads s))) eqn:E; cbn [negb andb].
  - rewrite orb_false_r. unfold link_seen_up. cbv zeta.
    destruct (wifiConnected s) eqn:Ew;
      cbn [wifiConnected server status_reads set_trace set_wifiConnected
           set_status_reads Nat.pred];
      rewrite E; repeat split; try (exact Ew || reflexivity); lia.
  - destruct (drop_noted_link s) as (Da & Db & Dc).
    destruct (connect_outcome_link (drop_noted s)) as (Ca & Cb & Cc).
    rewrite Da in Ca. rewrite Db in Cb. rewrite Dc in Cc.
    destruct (relinked_link (connect_outcome (drop_noted s)) Ca)
      as (Ra & Rb & Rc).
    rewrite Ra, Rb, Rc, Cb. cbn [Nat.pred].
    repeat split; try reflexivity. rewrite Cc. lia.
Qed.


(** ** The server across ticks *)

Lemma exec_ticks_succ fuel n s :
  (31 <= fuel)%nat ->
  exec (ticks fuel (S n)) s = exec (loop fuel) (exec (ticks fuel n) s).
Proof.
  intros Hf. cbn [ticks]. apply exec_seq. apply ticks_returns, Hf.
Qed.

Lemma link_checked_server s :
  listening (server s) = true -> server (link_checked s) = server s.
Proof.
  intros Hl. unfold link_checked.
  destruct (is_connected (status_at P (status_reads s))).
  - unfold link_seen_up. cbv zeta. destruct (wifiConnected s); reflexivity.
  - destruct (drop_noted_link s) as (_ & Db & _).
    destruct (connect_outcome_link (drop_noted s)) as (_ & Cb & _).
    rewrite Db in Cb. unfold relinked. cbv zeta.
    destruct (_ && _);
      cbn [server set_trace set_server set_wifiConnected set_status_reads];
      rewrite Cb; [|reflexivity].
    destruct (server s) as [l r c]. cbn [listening] in Hl. rewrite Hl.
    reflexivity.
Qed.

Lemma loop_server fuel s :
  (31 <= fuel)%nat -> listening (server s) = true ->
  server (exec (loop fuel) s) = server s.
Proof.
  intros Hf Hl.
  destruct (loop_link_view fuel s Hf) as (H2 & _ & H3 & _). cbv zeta in *.
  unfold link_view in H2, H3. injection H2 as _ _ H2. injection H3 as _ _ H3.
  rewrite H3.
  destruct (due _ (previousWiFiMillis s) wifiCheckInterval); [|exact H2].
  rewrite link_checked_server.
  - cbn [server set_previousWiFiMillis]. exact H2.
  - cbn [server set_previousWiFiMillis]. rewrite H2. exact Hl.
Qed.

Lemma ticks_server fuel n s :
  (31 <= fuel)%nat -> listening (server s) = true ->
  server (exec (ticks fuel n) s) = server s.
Proof.
  intros Hf Hl. induction n as [|n IH]; [reflexivity|].
  rewrite exec_ticks_succ by exact Hf.
  rewrite loop_server; [exact IH | exact Hf | rewrite IH; exact Hl].
Qed.


(** ** The reconnect counter across ticks *)

Lemma loop_counter fuel s :
  (31 <= fuel)%nat ->
  0 <= wifiReconnectAttempts s < INT_MAX ->
  let d := (calls FmonitorWiFiConnection (trace (exec (loop fuel) s))
            - calls FmonitorWiFiConnection (trace s))%nat in
  (d <= 1)%nat /\
  (calls FmonitorWiFiConnection (trace s)
   <= calls FmonitorWiFiConnection (trace (exec (loop fuel) s)))%nat /\
  wifiReconnectAttempts s <= wifiReconnectAttempts (exec (loop fuel) s)
  <= wifiReconnectAttempts s + Z.of_nat d.
Proof.
  intros Hf Hc. cbv zeta.
  destruct (loop_tasks fuel s Hf) as [Ht _]. cbv zeta in Ht.
  unfold task_calls in Ht. injection Ht as _ Ht _.
  destruct (loop_link_view fuel s Hf) as (H2 & _ & H3 & _). cbv zeta in *.
  unfold link_view in H2, H3. injection H2 as _ H2 _. injection H3 as _ H3 _.
  rewrite Ht, H3. clear Ht H3.
  destruct (due _ (previousWiFiMillis s) wifiCheckInterval); cbn [ran].
  - rewrite link_checked_counter
      by (cbn [wifiReconnectAttempts set_previousWiFiMillis]; rewrite H2;
          unfold INT_MAX in *; lia).
    cbn [wifiReconnectAttempts set_previousWiFiMillis]. rewrite H2.
    destruct (_ && _); lia.
  - rewrite H2. lia.
Qed.

(** The reconnect counter never decreases and never exceeds the number of
    link checks run, which is at most one per tick: no tick counts a drop
    twice, and below [INT_MAX] the counter does not overflow. *)
Theorem reconnect_counter_bounded_by_checks fuel n s :
  (31 <= fuel)%nat ->
  0 <= wifiReconnectAttempts s ->
  wifiReconnectAttempts s + Z.of_nat n <= INT_MAX ->
  let s' := exec (ticks fuel n) s in
  let checks := (calls FmonitorWiFiConnection (trace s')
                 - calls FmonitorWiFiConnection (trace s))%nat in
  (checks <= n)%nat /\
  wifiReconnectAttempts s <= wifiReconnectAttempts s'
  <= wifiReconnectAttempts s + Z.of_nat checks.
Proof.
  intros Hf H0. cbv zeta. induction n as [|n IH]; intros Hn.
  - cbn [ticks]. unfold exec, ret. cbn [snd]. rewrite Nat.sub_diag. simpl. lia.
  - rewrite exec_ticks_succ by exact Hf.
    assert (Hn' : wifiReconnectAttempts s + Z.of_nat n <= INT_MAX) by lia.
    specialize (IH Hn'). destruct IH as [Ia Ib].
    assert (Hmono : (calls FmonitorWiFiConnection (trace s)
                     <= calls FmonitorWiFiConnection
                          (trace (exec (ticks fuel n) s)))%nat).
    { assert (H : preserves (grows (fun x => calls FmonitorWiFiConnection (trace x)))
                    (@ticks P fuel n)).
      { apply ticks_preserves; [rel_side | rel_side |].
        intros x. destruct (loop_tasks fuel x Hf) as [Ht _]. cbv zeta in Ht.
        unfold task_calls in Ht. injection Ht as _ Ht _.
        unfold grows. rewrite Ht. lia. }
      apply (H s). }
    destruct (loop_counter fuel (exec (ticks fuel n) s) Hf) as (La & Lb & Lc).
    { lia. }
    cbv zeta in La. lia.
Qed.


(** ** Boot *)

Lemma setup_returns fuel :
  (31 <= fuel)%nat -> tsl_begin P = true -> returns (@setup P fuel).
Proof. intros Hf Hb. unfold setup. rewrite Hb. cbn [negb when]. rets. Qed.

Lemma setup_server fuel s :
  (31 <= fuel)%nat -> tsl_begin P = true -> wifiConnected s = false ->
  let up :=
    is_connected
      (status_at P (status_reads s + waits P 30 (status_reads s) + 2)) in
  wifiConnected (exec (setup fuel) s) = up /\
  server (exec (setup fuel) s)
  = (if up then registered (server s) else server s).
Proof.
  intros Hf Hb Hflag. cbv zeta.
  pose proof (setup_flag fuel s Hf Hb Hflag) as Hup.
  split; [exact Hup|].
  destruct (setup_boot_result fuel s) as [[Hs Hw]|[Hw Hs]];
    rewrite <- Hup; rewrite Hw.
  - rewrite Hflag. exact Hs.
  - exact Hs.
Qed.

Lemma setup_requests fuel s :
  client_polls (exec (setup fuel) s) = client_polls s /\
  sends (trace (exec (setup fuel) s)) = sends (trace s) /\
  latestData (exec (setup fuel) s) = latestData s.
Proof.
  assert (H : preserves
                (same (fun x => (latestData x, client_polls x,
                                 sends (trace x))))
                (@setup P fuel)) by pres.
  specialize (H s). unfold same in H. injection H as Ha Hc Hd.
  repeat split; assumption.
Qed.

(** With the sensor present [setup] returns, and the one status probe after
    the boot-time connect sequence decides everything about the server:
    when it answers connected the flag is set and both routes, the
    cross-origin policy and the listener are installed, whatever the
    connectivity test finds; otherwise the server is left as it was.
    [setup] polls no client, sends nothing and leaves snapshot and timers
    alone. *)
Theorem boot_probe_decides_server fuel s :
  (31 <= fuel)%nat -> tsl_begin P = true -> wifiConnected s = false ->
  let s' := exec (setup fuel) s in
  let up :=
    is_connected
      (status_at P (status_reads s + waits P 30 (status_reads s) + 2)) in
  result (setup fuel) s = Some tt /\
  wifiConnected s' = up /\
  server s' = (if up then registered (server s) else server s) /\
  latestData s' = latestData s /\
  timers s' = timers s /\
  client_polls s' = client_polls s /\
  sends (trace s') = sends (trace s).
Proof.
  intros Hf Hb Hflag. cbv zeta.
  split; [apply returns_unit, setup_returns; assumption|].
  destruct (setup_server fuel s Hf Hb Hflag) as [Hw Hs]. cbv zeta in Hw, Hs.
  destruct (setup_requests fuel s) as (Hc & Hd & Ha).
  assert (Ht : preserves (same timers) (@setup P fuel)) by pres.
  repeat split; try assumption. apply (Ht s).
Qed.


(** ** The booted server *)

Lemma loop_requests fuel s :
  (31 <= fuel)%nat ->
  let s0 := set_clock_reads (S (clock_reads s))
              (set_trace (EvCall Floop :: trace s) s) in
  sends (trace (exec (loop fuel) s))
  = sends (trace (exec server_handleClient s0)) /\
  client_polls (exec (loop fuel) s) = S (client_polls s).
Proof.
  intros Hf. cbv zeta. rewrite exec_loop by exact Hf. cbv zeta.
  destruct (sends_after_requests_phase fuel (ulong (millis_at P (clock_reads s)))
              (tick_requests s) Hf) as [Hs Hc].
  rewrite Hs, Hc. unfold tick_requests. split; [reflexivity|].
  pose proof (server_handleClient_cases
                (set_clock_reads (S (clock_reads s))
                   (set_trace (EvCall Floop :: trace s) s))) as H.
  cbv zeta in H. destruct H as (_ & Hp & _). exact Hp.
Qed.

Lemma ticks_client_polls fuel n s :
  (31 <= fuel)%nat ->
  client_polls (exec (ticks fuel n) s) = (client_polls s + n)%nat.
Proof.
  intros Hf. induction n as [|n IH].
  - cbn [ticks]. unfold exec, ret. cbn [snd]. lia.
  - rewrite exec_ticks_succ by exact Hf.
    destruct (loop_requests fuel (exec (ticks fuel n) s) Hf) as [_ Hc].
    rewrite Hc, IH. lia.
Qed.

Lemma exec_sketch fuel n s :
  (31 <= fuel)%nat -> tsl_begin P = true ->
  exec (sketch fuel n) s = exec (ticks fuel n) (exec (setup fuel) s).
Proof.
  intros Hf Hb. unfold sketch. apply exec_seq. apply setup_returns; assumption.
Qed.

(** After a boot that found sensor and link, tick number [n + 1] polls
    client number [n + 1], and a client that waits is always answered, with
    the cross-origin header: [/] with the status page, [/data] with the
    snapshot as it is when the tick starts, any other path with the 404.
    This holds after any number of ticks and whatever the link has done
    since boot. *)
Theorem booted_server_answers fuel n :
  (31 <= fuel)%nat -> tsl_begin P = true ->
  is_connected (status_at P (waits P 30 0 + 2)) = true ->
  let s := exec (sketch fuel n) (@boot P) in
  let s' := exec (loop fuel) s in
  client_polls s = n /\
  server s = registered (server (@boot P)) /\
  match client_at P n with
  | None => sends (trace s') = sends (trace s)
  | Some path =>
      sends (trace s')
      = (if ("/" =? path)%string then root_response P true
         else if ("/data" =? path)%string then data_response (latestData s) true
         else not_found_response true) :: sends (trace s)
  end.
Proof.
  intros Hf Hb Hup. cbv zeta.
  rewrite exec_sketch by assumption.
  destruct (setup_server fuel (@boot P) Hf Hb eq_refl) as [_ Hsrv].
  cbv zeta in Hsrv. cbn [status_reads boot Nat.add] in Hsrv.
  rewrite Hup in Hsrv.
  destruct (setup_requests fuel (@boot P)) as (Hpolls & _ & _).
  assert (Hs : server (exec (ticks fuel n) (exec (setup fuel) (@boot P)))
               = registered (server (@boot P))).
  { rewrite ticks_server; [exact Hsrv | exact Hf |].
    rewrite Hsrv. reflexivity. }
  assert (Hc : client_polls (exec (ticks fuel n) (exec (setup fuel) (@boot P)))
               = n).
  { rewrite ticks_client_polls by exact Hf. rewrite Hpolls. reflexivity. }
  split; [exact Hc|]. split; [exact Hs|].
  set (s := exec (ticks fuel n) (exec (setup fuel) (@boot P))) in *.
  destruct (loop_requests fuel s Hf) as [Hsend _]. cbv zeta in Hsend.
  rewrite Hsend. clear Hsend.
  pose proof (server_handleClient_cases
                (set_clock_reads (S (clock_reads s))
                   (set_trace (EvCall Floop :: trace s) s))) as H.
  cbv zeta in H. destruct H as (_ & _ & Hcase).
  cbn [client_polls server latestData set_clock_reads set_trace trace sends]
    in Hcase.
  rewrite Hc, Hs in Hcase.
  destruct (client_at P n) as [path|]; [|rewrite Hcase; reflexivity].
  cbn [registered listening routes cors boot server app find_route] in Hcase.
  destruct ("/" =? path)%string; [exact Hcase|].
  destruct ("/data" =? path)%string; exact Hcase.
Qed.


(** ** Diagnostics *)

Lemma testInternetConnection_gets s :
  http_gets (exec testInternetConnection s)
  = (http_gets s
     + (if is_connected (status_at P (status_reads s)) then 1 else 0))%nat /\
  status_reads (exec testInternetConnection s) = S (status_reads s).
Proof.
  unfold testInternetConnection, exec, bind, Serial_println, emit, modify,
    WiFi_status, http_GET.
  cbn [snd fst status_reads set_trace trace].
  destruct (is_connected (status_at P (status_reads s))).
  - cbn [snd fst http_gets set_status_reads set_trace].
    destruct (_ =? 200); simpl; (split; [lia | reflexivity]).
  - simpl. split; [lia | reflexivity].
Qed.

(** The three diagnostic routines only log.  They return, leave snapshot,
    timers, link flag, reconnect counter and server as they are, send no
    response, poll no client and read neither sensor nor counter.  The
    connection details probe nothing; the status report and the
    connectivity test probe the status once; the test issues its GET
    exactly when that probe answers connected, and nothing in the state
    depends on the code the GET returns. *)
Theorem diagnostics_only_log s :
  let seen := fun x : @Sys P =>
    (globals x, sends (trace x), client_polls x, sensor_reads x,
     clock_reads x) in
  let up := is_connected (status_at P (status_reads s)) in
  (result logDetailedWiFiStatus s = Some tt /\
   seen (exec logDetailedWiFiStatus s) = seen s /\
   status_reads (exec logDetailedWiFiStatus s) = S (status_reads s) /\
   http_gets (exec logDetailedWiFiStatus s) = http_gets s) /\
  (result printConnectionDetails s = Some tt /\
   seen (exec printConnectionDetails s) = seen s /\
   status_reads (exec printConnectionDetails s) = status_reads s /\
   http_gets (exec printConnectionDetails s) = http_gets s) /\
  (result testInternetConnection s = Some tt /\
   seen (exec testInternetConnection s) = seen s /\
   status_reads (exec testInternetConnection s) = S (status_reads s) /\
   http_gets (exec testInternetConnection s)
   = (http_gets s + (if up then 1 else 0))%nat).
Proof.
  cbv zeta.
  assert (H1 : preserves
                 (same (fun x => (globals x, sends (trace x), client_polls x,
                                  sensor_reads x, clock_reads x)))
                 (@logDetailedWiFiStatus P)) by (unfold globals; pres).
  assert (H2 : preserves
                 (same (fun x => (globals x, sends (trace x), client_polls x,
                                  sensor_reads x, clock_reads x)))
                 (@printConnectionDetails P)) by (unfold globals; pres).
  assert (H3 : preserves
                 (same (fun x => (globals x, sends (trace x), client_polls x,
                                  sensor_reads x, clock_reads x)))
                 (@testInternetConnection P)) by (unfold globals; pres).
  destruct (testInternetConnection_gets s) as [Hg Hs].
  split; [|split].
  - split; [apply returns_unit; rets|]. split; [apply (H1 s)|].
    split; reflexivity.
  - split; [apply returns_unit; rets|]. split; [apply (H2 s)|].
    split; reflexivity.
  - split; [apply returns_unit; rets|]. split; [apply (H3 s)|].
    split; [exact Hs | exact Hg].
Qed.


(** At most one step of a computation moves the counter, by one. *)
Ltac single :=
  lazymatch goal with
  | |- preserves (upto _ 1) (bind _ _) =>
      first
        [ eapply (upto_bind _ 0 1);
            [reflexivity | solve [apply upto_same; pres]
            | intro; cbv beta; single]
        | eapply (upto_bind _ 1 0);
            [reflexivity | single
            | intro; cbv beta; solve [apply upto_same; pres]] ]
  | |- preserves (upto _ 1) (when _ _) =>
      apply preserves_when; [intro; apply upto_refl | single]
  | |- preserves (upto _ 1) (match ?x with _ => _ end) => destruct x; single
  | |- preserves (upto _ 1) _ =>
      first [ solve [apply upto_same; pres]
            | progress unfold setup, testInternetConnection,
                printConnectionDetails; single
            | intros ?s; unfold upto, exec, http_GET, emit, modify;
              simpl; lia ]
  end.

(** The connectivity test and the connection details belong to [setup]
    alone: each runs at most once in the whole sketch, one GET request at
    most is ever made, and no tick runs either of them or makes a request,
    also not the tick whose link check reconnects and restarts the
    server. *)
Theorem connectivity_test_only_at_boot fuel n s :
  let s' := exec (sketch fuel n) s in
  let probes := fun x : @Sys P =>
    (http_gets x, calls FtestInternetConnection (trace x),
     calls FprintConnectionDetails (trace x)) in
  (http_gets s' <= http_gets s + 1)%nat /\
  (calls FtestInternetConnection (trace s')
   <= calls FtestInternetConnection (trace s) + 1)%nat /\
  (calls FprintConnectionDetails (trace s')
   <= calls FprintConnectionDetails (trace s) + 1)%nat /\
  probes (exec (ticks fuel n) s) = probes s /\
  probes (exec (monitorWiFiConnection fuel) s) = probes s.
Proof.
  cbv zeta.
  assert (Ht : forall m, preserves
                 (same (fun x => (http_gets x,
                                  calls FtestInternetConnection (trace x),
                                  calls FprintConnectionDetails (trace x))))
                 (@ticks P fuel m)).
  { intros m. apply ticks_preserves; [rel_side | rel_side | pres]. }
  assert (Hm : preserves
                 (same (fun x => (http_gets x,
                                  calls FtestInternetConnection (trace x),
                                  calls FprintConnectionDetails (trace x))))
                 (@monitorWiFiConnection P fuel)) by pres.
  assert (H1 : preserves (upto http_gets 1) (@setup P fuel)) by single.
  assert (H2 : preserves
                 (upto (fun x => calls FtestInternetConnection (trace x)) 1)
                 (@setup P fuel)) by single.
  assert (H3 : preserves
                 (upto (fun x => calls FprintConnectionDetails (trace x)) 1)
                 (@setup P fuel)) by single.
  split; [|split; [|split; [|split; [apply (Ht n s) | apply (Hm s)]]]].
  - destruct (sketch_cases fuel n s) as [->| ->]; [apply (H1 s)|].
    pose proof (Ht n (exec (setup fuel) s)) as H. unfold same in H.
    injection H as -> _ _. apply (H1 s).
  - destruct (sketch_cases fuel n s) as [->| ->]; [apply (H2 s)|].
    pose proof (Ht n (exec (setup fuel) s)) as H. unfold same in H.
    injection H as _ -> _. apply (H2 s).
  - destruct (sketch_cases fuel n s) as [->| ->]; [apply (H3 s)|].
    pose proof (Ht n (exec (setup fuel) s)) as H. unfold same in H.
    injection H as _ _ ->. apply (H3 s).
Qed.


(** ** How long a tick blocks *)

Lemma connect_outcome_delayed s :
  delayed (trace (connect_outcome s))
  = delayed (trace s) + 1000 + 1000 * Z.of_nat (waits P 30 (status_reads s)).
Proof.
  unfold connect_outcome. cbv zeta. cbn [trace set_status_reads set_trace].
  cbn [delayed]. rewrite delayed_waits. cbn [delayed]. lia.
Qed.

Lemma link_checked_delayed s :
  delayed (trace (link_checked s))
  = delayed (trace s)
    + (if is_connected (status_at P (status_reads s)) then 0
       else 1000 + 1000 * Z.of_nat (waits P 30 (S (status_reads s)))).
Proof.
  unfold link_checked.
  destruct (is_connected (status_at P (status_reads s))).
  - unfold link_seen_up. cbv zeta. destruct (wifiConnected s); simpl; lia.
  - assert (Hr : forall x : @Sys P,
               delayed (trace (relinked x)) = delayed (trace x)).
    { intros x. unfold relinked. cbv zeta. destruct (_ && _); reflexivity. }
    rewrite Hr, connect_outcome_delayed.
    destruct (drop_noted_link s) as (_ & _ & Hs). rewrite Hs.
    assert (Hd : delayed (trace (drop_noted s)) = delayed (trace s)).
    { unfold drop_noted. cbv zeta. destruct (wifiConnected s); reflexivity. }
    rewrite Hd. lia.
Qed.

(** A tick blocks only to reconnect.  The one source of [delay] in a tick
    is the connect sequence of a link check that is due and finds the link
    down: it then sleeps one second plus one second per wait, 31 s at
    most, and polls no further client meanwhile; any other tick does not
    sleep at all. *)
Theorem tick_blocks_only_to_reconnect fuel s :
  (31 <= fuel)%nat ->
  let now := ulong (millis_at P (clock_reads s)) in
  let s' := exec (loop fuel) s in
  delayed (trace s')
  = delayed (trace s)
    + (if due now (previousWiFiMillis s) wifiCheckInterval
          && negb (is_connected (status_at P (status_reads s)))
       then 1000 + 1000 * Z.of_nat (waits P 30 (S (status_reads s)))
       else 0) /\
  delayed (trace s') <= delayed (trace s) + 31000 /\
  client_polls s' = S (client_polls s).
Proof.
  intros Hf. cbv zeta.
  destruct (loop_requests fuel s Hf) as [_ Hpolls].
  rewrite exec_loop by exact Hf. rewrite exec_loop in Hpolls by exact Hf.
  cbv zeta in *.
  assert (H1 : same (fun x => (delayed (trace x), status_reads x,
                               previousWiFiMillis x))
                 s (tick_requests s))
    by (apply tick_requests_preserves; [rel_side | pres | pres | pres]).
  assert (H2 : forall now x,
             same (fun x => (delayed (trace x), status_reads x,
                             previousWiFiMillis x)) x (tick_sensor now x))
    by (intros now x; apply tick_sensor_preserves;
        [rel_side | rel_side | pres | pres]).
  assert (H4 : forall now x,
             same (fun x => delayed (trace x)) x (tick_log now x))
    by (intros now x; apply tick_log_preserves;
        [rel_side | rel_side | pres | pres]).
  specialize (H2 (ulong (millis_at P (clock_reads s))) (tick_requests s)).
  unfold same in *. rewrite H1 in H2. injection H2 as Hd Hs Hp.
  pose proof (waits_le 30 (S (status_reads s))) as Hk.
  refine ((fun Hmain => conj (proj1 Hmain) (conj (proj2 Hmain) Hpolls)) _).
  clear Hpolls. rewrite H4. unfold tick_link. rewrite Hp.
  assert (Hmain :
    delayed (trace
      (if due (ulong (millis_at P (clock_reads s))) (previousWiFiMillis s)
            wifiCheckInterval
       then exec (monitorWiFiConnection fuel)
              (set_previousWiFiMillis (ulong (millis_at P (clock_reads s)))
                 (tick_sensor (ulong (millis_at P (clock_reads s)))
                    (tick_requests s)))
       else tick_sensor (ulong (millis_at P (clock_reads s)))
              (tick_requests s)))
    = delayed (trace s)
      + (if due (ulong (millis_at P (clock_reads s))) (previousWiFiMillis s)
              wifiCheckInterval
            && negb (is_connected (status_at P (status_reads s)))
         then 1000 + 1000 * Z.of_nat (waits P 30 (S (status_reads s)))
         else 0)).
  { destruct (due _ (previousWiFiMillis s) wifiCheckInterval); cbn [andb].
    - rewrite exec_monitorWiFiConnection by exact Hf.
      rewrite link_checked_delayed.
      cbn [trace status_reads set_previousWiFiMillis]. rewrite Hd, Hs.
      destruct (is_connected (status_at P (status_reads s))); reflexivity.
    - rewrite Hd. lia. }
  split; [exact Hmain|].
  rewrite Hmain. destruct (_ && _); lia.
Qed.


(** ** Timestamps *)

Lemma ulong_same_period x y :
  x <= y -> x / 2 ^ 32 = y / 2 ^ 32 -> ulong x <= ulong y.
Proof.
  intros Hle Hq. unfold ulong.
  rewrite (Z.mod_eq x (2 ^ 32)), (Z.mod_eq y (2 ^ 32)) by lia.
  rewrite Hq. lia.
Qed.

(** A tick whose sensor task is due: the sampler runs once and stamps the
    snapshot with the reading that follows the tick's own. *)
Lemma loop_sampling_tick fuel s :
  (31 <= fuel)%nat ->
  due (ulong (millis_at P (clock_reads s))) (prevSensorMillis s) sensorInterval
  = true ->
  timestamp (latestData (exec (loop fuel) s))
  = ulong (millis_at P (S (clock_reads s))) /\
  clock_reads (exec (loop fuel) s) = S (S (clock_reads s)) /\
  calls FreadLightSensor (trace (exec (loop fuel) s))
  = S (calls FreadLightSensor (trace s)).
Proof.
  intros Hf Hdue.
  destruct (loop_tasks fuel s Hf) as [Hc _]. cbv zeta in Hc.
  unfold task_calls in Hc. injection Hc as Hc _ _.
  rewrite Hdue in Hc. cbn [ran] in Hc. rewrite Nat.add_1_r in Hc.
  refine ((fun H => conj (proj1 H) (conj (proj2 H) Hc)) _). clear Hc.
  rewrite exec_loop by exact Hf. cbv zeta.
  pose proof (sampler_state_after_sensor_phase fuel
                (ulong (millis_at P (clock_reads s)))
                (tick_sensor (ulong (millis_at P (clock_reads s)))
                   (tick_requests s)) Hf) as H.
  unfold same in H. injection H as Ha Hb _.
  rewrite Ha, Hb. clear Ha Hb.
  destruct (sampler_state_after_requests s) as (_ & Rb & _ & Rd).
  unfold tick_sensor. rewrite Rd, Hdue.
  rewrite exec_readLightSensor. unfold sampled. cbv zeta.
  cbn [latestData clock_reads set_prevSensorMillis snapshot_of timestamp].
  rewrite Rb. split; reflexivity.
Qed.

Lemma ticks_clock_reads fuel m s :
  (clock_reads s <= clock_reads (exec (ticks fuel m) s))%nat.
Proof.
  assert (H : preserves (grows clock_reads) (@ticks P fuel m))
    by (apply ticks_preserves; [rel_side | rel_side | pres]).
  apply (H s).
Qed.

(** C5, amended.  Take any two writes of the snapshot, the earlier one made
    by a tick from [s], the later one by a tick any number of ticks
    afterwards.  Each is stamped with the counter reading its sampler
    makes.  Whenever the 32-bit counter did not wrap around between these
    two readings, the later timestamp is greater than or equal to the
    earlier one; this holds before and after any number of earlier
    wrap-arounds. *)
Theorem timestamps_monotone_without_wrap fuel m s :
  (31 <= fuel)%nat ->
  let s1 := exec (loop fuel) s in
  let sm := exec (ticks fuel m) s1 in
  let s2 := exec (loop fuel) sm in
  let k1 := S (clock_reads s) in
  let k2 := S (clock_reads sm) in
  due (ulong (millis_at P (clock_reads s))) (prevSensorMillis s) sensorInterval
  = true ->
  due (ulong (millis_at P (clock_reads sm))) (prevSensorMillis sm)
    sensorInterval = true ->
  no_wrap_between P k1 k2 ->
  calls FreadLightSensor (trace s1) = S (calls FreadLightSensor (trace s)) /\
  calls FreadLightSensor (trace s2) = S (calls FreadLightSensor (trace sm)) /\
  timestamp (latestData s1) = ulong (millis_at P k1) /\
  timestamp (latestData s2) = ulong (millis_at P k2) /\
  (k1 < k2)%nat /\
  timestamp (latestData s1) <= timestamp (latestData s2).
Proof.
  intros Hf. cbv zeta. intros Hd1 Hd2 [Hle Hq].
  destruct (loop_sampling_tick fuel s Hf Hd1) as (Ht1 & Hc1 & Hn1).
  destruct (loop_sampling_tick fuel _ Hf Hd2) as (Ht2 & _ & Hn2).
  pose proof (ticks_clock_reads fuel m (exec (loop fuel) s)) as Hg.
  split; [exact Hn1|]. split; [exact Hn2|].
  split; [exact Ht1|]. split; [exact Ht2|]. split; [lia|].
  rewrite Ht1, Ht2. apply ulong_same_period; assumption.
Qed.

End Properties.


(** * Concrete runs *)

(** A first tick at 31,000 ms after boot enters each task once. *)
Lemma tick_runs_due_tasks_once_witness :
  (31 <= 31)%nat /\
  task_calls (exec (loop 31) (@boot bench_late_tick)) = (1, 1, 1)%nat /\
  timers (exec (loop 31) (@boot bench_late_tick)) = (31000, 31000, 31000).
Proof.
  split; [apply Nat.le_refl|].
  destruct (@tick_runs_due_tasks_once bench_late_tick 31 boot (Nat.le_refl 31))
    as (_ & _ & _ & H).
  apply H; reflexivity.
Defined.


(** Link up at boot, then down for good: six ticks, six link checks, the
    counter goes from 0 to 1. *)
Lemma reconnect_counter_counts_drops_witness :
  let s := exec (setup 31) (@boot bench_link_drop) in
  let s6 := exec (ticks 31 6) s in
  (31 <= 31)%nat /\
  - 2 ^ 31 <= wifiReconnectAttempts s < INT_MAX /\
  wifiConnected s = true /\
  link_down_from bench_link_drop (status_reads s) /\
  calls FmonitorWiFiConnection (trace s6) = 6%nat /\
  wifiReconnectAttempts s6 = 1.
Proof.
  cbv zeta.
  set (s := exec (setup 31) (@boot bench_link_drop)).
  assert (Hc : - 2 ^ 31 <= wifiReconnectAttempts s < INT_MAX).
  { change (wifiReconnectAttempts s) with 0. unfold INT_MAX. lia. }
  assert (Hflag : wifiConnected s = true) by reflexivity.
  assert (Hdown : link_down_from bench_link_drop (status_reads s)).
  { change (status_reads s) with 4%nat. intros j Hj.
    cbn [status_at bench_link_drop bench].
    destruct (Nat.ltb_spec j 4); [lia | reflexivity]. }
  assert (Hcalls : calls FmonitorWiFiConnection (trace (exec (ticks 31 6) s)) = 6%nat)
    by (vm_compute; reflexivity).
  pose proof (@reconnect_counter_counts_drops bench_link_drop 31 s
                (Nat.le_refl 31) Hc) as H.
  cbv zeta in H. destruct H as (_ & _ & H).
  specialize (H Hflag Hdown 6%nat).
  split; [apply Nat.le_refl|]. split; [exact Hc|]. split; [exact Hflag|].
  split; [exact Hdown|]. split; [exact Hcalls|].
  rewrite H, Hcalls. reflexivity.
Defined.

(** A network that never connects: 30 waits, 32 probes, 31 s asleep. *)
Lemma connect_sequence_bounded_witness :
  let s' := exec (connectToNYUWiFi 31) (@boot bench_link_down) in
  (31 <= 31)%nat /\
  result (connectToNYUWiFi 31) (@boot bench_link_down) = Some tt /\
  status_reads s' = 32%nat /\
  delayed (trace s') = 31000 /\
  begins (trace s') = 1%nat.
Proof.
  cbv zeta.
  pose proof (@connect_sequence_bounded bench_link_down 31 boot
                (Nat.le_refl 31)) as H.
  cbv zeta in H. destruct H as (H1 & _ & _ & _ & H5 & H6 & _ & H8 & _).
  split; [apply Nat.le_refl|]. split; [exact H1|].
  split; [rewrite H5; reflexivity|].
  split; [rewrite H6; reflexivity | rewrite H8; reflexivity].
Defined.

(** Without a sensor the sketch with fuel 5 is still blinking, whatever
    the number of ticks asked for. *)
Lemma failed_sensor_init_halts_witness :
  tsl_begin bench_no_sensor = false /\
  result (sketch 5 3) (@boot bench_no_sensor) = None /\
  calls Floop (trace (exec (sketch 5 3) (@boot bench_no_sensor))) = 0%nat.
Proof.
  pose proof (@failed_sensor_init_halts bench_no_sensor 5 3 eq_refl) as H.
  cbv zeta in H. destruct H as (H1 & _ & _ & H4 & _).
  split; [reflexivity|]. split; [exact H1 | exact H4].
Defined.

(** Boot without a link, reconnect at the first link check: the listener
    is bound, the route table stays empty, and the client asking for
    [/data] gets the 404. *)
Lemma routes_registered_only_at_boot_witness :
  let s0 := exec (setup 31) (@boot bench_reconnect) in
  let s2 := exec (sketch 31 2) (@boot bench_reconnect) in
  wifiConnected s0 = false /\
  routes (server s2) = [] /\
  cors (server s2) = false /\
  wifiConnected s2 = true /\
  listening (server s2) = true /\
  map code (sends (trace s2)) = [404].
Proof.
  cbv zeta.
  pose proof (@routes_registered_only_at_boot bench_reconnect 31 2 eq_refl) as H.
  cbv zeta in H. destruct H as (_ & H1 & H2 & _).
  split; [reflexivity|]. split; [exact H1|]. split; [exact H2|].
  split; [reflexivity|]. split; reflexivity.
Defined.

(** After the wrap-around.  On the device that has been up for almost
    2^32 ms the second and the third tick both sample, at true times
    4294967601 and 4294968201: the counter has wrapped before the first of
    these writes and not between them, and the stamps are 305 and 905. *)
Lemma timestamps_monotone_without_wrap_witness :
  let s := exec (loop 31) near_wrap in
  let s1 := exec (loop 31) s in
  let s2 := exec (loop 31) (exec (ticks 31 0) s1) in
  (31 <= 31)%nat /\
  no_wrap_between bench_wrap 3 5 /\
  millis_at bench_wrap 3 / 2 ^ 32 = 1 /\
  timestamp (latestData s1) = 305 /\
  timestamp (latestData s2) = 905 /\
  timestamp (latestData s1) <= timestamp (latestData s2).
Proof.
  cbv zeta.
  assert (Hw : no_wrap_between bench_wrap 3 5)
    by (split; [vm_compute; discriminate | reflexivity]).
  assert (Hd1 : due (ulong (millis_at bench_wrap
                              (clock_reads (exec (loop 31) near_wrap))))
                    (prevSensorMillis (exec (loop 31) near_wrap))
                    sensorInterval = true)
    by (vm_compute; reflexivity).
  assert (Hd2 : due (ulong (millis_at bench_wrap
                              (clock_reads
                                 (exec (ticks 31 0)
                                    (exec (loop 31) (exec (loop 31) near_wrap))))))
                    (prevSensorMillis
                       (exec (ticks 31 0)
                          (exec (loop 31) (exec (loop 31) near_wrap))))
                    sensorInterval = true)
    by (vm_compute; reflexivity).
  split; [apply Nat.le_refl|]. split; [exact Hw|].
  split; [reflexivity|].
  pose proof (@timestamps_monotone_without_wrap bench_wrap 31 0
                (exec (loop 31) near_wrap) (Nat.le_refl 31)
                Hd1 Hd2 Hw) as H.
  cbv zeta in H. destruct H as (_ & _ & H1 & H2 & _ & H).
  split; [rewrite H1; vm_compute; reflexivity|].
  split; [rewrite H2; vm_compute; reflexivity|].
  exact H.
Defined.

(** C5 as stated fails when the counter wraps.  On a device up for almost
    2^32 ms, two successive ticks both sample: the first write is stamped
    4294967001, the next one 305. *)
Lemma timestamp_decreases_at_wrap :
  let s1 := exec (loop 31) near_wrap in
  let s2 := exec (loop 31) s1 in
  clock_monotone bench_wrap /\
  calls FreadLightSensor (trace s1) = 1%nat /\
  calls FreadLightSensor (trace s2) = 2%nat /\
  timestamp (latestData s1) = 4294967001 /\
  timestamp (latestData s2) = 305 /\
  ~ timestamp (latestData s1) <= timestamp (latestData s2).
Proof.
  cbv zeta.
  split.
  { intros i j Hij. cbn [millis_at bench_wrap bench].
    pose proof (Nat.div_mod_eq i 2). pose proof (Nat.div_mod_eq j 2).
    pose proof (Nat.mod_upper_bound i 2). pose proof (Nat.mod_upper_bound j 2).
    lia. }
  split; [reflexivity|]. split; [reflexivity|].
  split; [reflexivity|]. split; [reflexivity|].
  intros H. vm_compute in H. apply H. reflexivity.
Qed.

(** C3 fails on the restore path.  The boot-time connect fails, so the
    listener is never bound; the link then comes up by itself, the first
    link check takes the flag from clear to set and reports the connection
    restored, but does not call [server.begin()].  The client asking for
    [/data] on the next tick gets no response. *)
Lemma link_restored_without_listener :
  let s0 := exec (setup 31) (@boot bench_late_link) in
  let s1 := exec (loop 31) s0 in
  let s2 := exec (loop 31) s1 in
  wifiConnected s0 = false /\
  calls FmonitorWiFiConnection (trace s1) = 1%nat /\
  wifiConnected s1 = true /\
  listening (server s1) = false /\
  client_at bench_late_link (client_polls s1) = Some "/data"%string /\
  sends (trace s2) = [] /\
  calls FhandleData (trace s2) = 0%nat.
Proof.
  cbv zeta. repeat split; reflexivity.
Qed.

(** The readings (broadband 100, infrared 10) then (broadband 50,
    infrared 5): the response shows the second sample only. *)
Example second_sample_only :
  sends (trace (exec (bind readLightSensor (fun _ =>
                      bind readLightSensor (fun _ => handleData)))
                  (@boot bench_two_samples)))
  = [ {| code := 200;
         content_type := "application/json";
         body := json_object [("visible_ir", "50"); ("ir", "5");
                              ("lux", "45.00"); ("timestamp", "600")];
         allow_origin := false |} ]%string.
Proof. reflexivity. Qed.

(** ... and a client decoding it reads 50, 5, [45.00] and 600. *)
Example second_sample_decoded :
  decode_data
    (json_object [("visible_ir", "50"); ("ir", "5");
                  ("lux", "45.00"); ("timestamp", "600")]%string)
  = Some (50, 5, "45.00"%string, 600).
Proof. reflexivity. Qed.



(** ** Concrete runs of the further properties *)

(** The first tick after boot answers the waiting [/data] request with the
    boot-time snapshot. *)
Lemma tick_answers_waiting_request_witness :
  (31 <= 31)%nat /\
  let s := exec (setup 31) (@boot bench_requests) in
  client_polls (exec (loop 31) s) = 1%nat /\
  sends (trace (exec (loop 31) s)) = [data_response (latestData s) true].
Proof.
  split; [apply Nat.le_refl|]. cbv zeta.
  pose proof (@tick_answers_waiting_request bench_requests 31
                (exec (setup 31) (@boot bench_requests)) (Nat.le_refl 31)) as H.
  cbv zeta in H. destruct H as [H1 H2].
  split; [exact H1|]. vm_compute in H2. vm_compute. exact H2.
Defined.

(** The second tick on a 600 ms clock samples: the timer gets the tick's
    reading (600), the snapshot the sampler's own (1200). *)
Lemma tick_snapshot_written_by_sampler_witness :
  (31 <= 31)%nat /\
  let s' := exec (loop 31) (exec (loop 31) (@boot bench_two_samples)) in
  prevSensorMillis s' = 600 /\
  timestamp (latestData s') = 1200 /\
  visible_ir (latestData s') = 100 /\
  ir (latestData s') = 10.
Proof.
  split; [apply Nat.le_refl|]. cbv zeta.
  pose proof (@tick_snapshot_written_by_sampler bench_two_samples 31
                (exec (loop 31) (@boot bench_two_samples)) (Nat.le_refl 31)) as H.
  cbv zeta in H.
  change (due (ulong (millis_at bench_two_samples
                        (clock_reads (exec (loop 31) (@boot bench_two_samples)))))
              (prevSensorMillis (exec (loop 31) (@boot bench_two_samples)))
              sensorInterval) with true in H.
  cbv iota in H. destruct H as (Hd & Ht & _).
  split; [rewrite Ht; reflexivity|]. rewrite Hd. repeat split; reflexivity.
Defined.

(** A link check that finds the link down and reconnects at once: four
    probes, flag set, listener bound. *)
Lemma link_flag_follows_last_probe_witness :
  (31 <= 31)%nat /\
  let s := set_status_reads 33 (@boot bench_reconnect) in
  let s' := exec (monitorWiFiConnection 31) s in
  status_reads s' = 37%nat /\
  wifiConnected s' = true /\
  listening (server s') = true.
Proof.
  split; [apply Nat.le_refl|]. cbv zeta.
  pose proof (@link_flag_follows_last_probe bench_reconnect 31
                (set_status_reads 33 (@boot bench_reconnect))
                (Nat.le_refl 31)) as H.
  cbv zeta in H. destruct H as (_ & Hf & Hl).
  split; [reflexivity|]. split.
  - rewrite Hf. reflexivity.
  - rewrite Hl. reflexivity.
Defined.

(** The link is up at boot and down ever after: six ticks, six link
    checks, one counted drop. *)
Lemma reconnect_counter_bounded_by_checks_witness :
  (31 <= 31)%nat /\
  let s := exec (setup 31) (@boot bench_link_drop) in
  let s' := exec (ticks 31 6) s in
  wifiReconnectAttempts s = 0 /\
  0 + Z.of_nat 6 <= INT_MAX /\
  (calls FmonitorWiFiConnection (trace s')
   - calls FmonitorWiFiConnection (trace s) <= 6)%nat /\
  0 <= wifiReconnectAttempts s' <= 6.
Proof.
  split; [apply Nat.le_refl|]. cbv zeta.
  assert (H0 : 0 <= wifiReconnectAttempts
                      (exec (setup 31) (@boot bench_link_drop)))
    by (vm_compute; discriminate).
  assert (Hn : wifiReconnectAttempts (exec (setup 31) (@boot bench_link_drop))
               + Z.of_nat 6 <= INT_MAX) by (vm_compute; discriminate).
  pose proof (@reconnect_counter_bounded_by_checks bench_link_drop 31 6
                (exec (setup 31) (@boot bench_link_drop))
                (Nat.le_refl 31) H0 Hn) as H.
  cbv zeta in H. destruct H as (Hc & Hlo & Hhi).
  split; [reflexivity|]. split; [vm_compute; discriminate|].
  split; [exact Hc|].
  change (wifiReconnectAttempts (exec (setup 31) (@boot bench_link_drop)))
    with 0 in Hlo, Hhi.
  split; [exact Hlo|]. lia.
Defined.

(** Boot with sensor and link: flag set, server registered. *)
Lemma boot_probe_decides_server_witness :
  (31 <= 31)%nat /\ tsl_begin bench_requests = true /\
  let s' := exec (setup 31) (@boot bench_requests) in
  wifiConnected s' = true /\
  server s' = registered (server (@boot bench_requests)) /\
  client_polls s' = 0%nat.
Proof.
  split; [apply Nat.le_refl|]. split; [reflexivity|]. cbv zeta.
  pose proof (@boot_probe_decides_server bench_requests 31 boot
                (Nat.le_refl 31) eq_refl eq_refl) as H.
  cbv zeta in H. destruct H as (_ & Hw & Hs & _ & _ & Hc & _).
  split; [rewrite Hw; reflexivity|]. split; [rewrite Hs; reflexivity|].
  exact Hc.
Defined.

(** The second tick after that boot finds the client asking for [/] and
    answers with the status page; the first had answered [/data]. *)
Lemma booted_server_answers_witness :
  (31 <= 31)%nat /\ tsl_begin bench_requests = true /\
  let s := exec (sketch 31 1) (@boot bench_requests) in
  client_polls s = 1%nat /\
  map code (sends (trace (exec (loop 31) s))) = [200; 200] /\
  map content_type (sends (trace (exec (loop 31) s)))
  = ["text/html"; "application/json"]%string.
Proof.
  split; [apply Nat.le_refl|]. split; [reflexivity|]. cbv zeta.
  pose proof (@booted_server_answers bench_requests 31 1
                (Nat.le_refl 31) eq_refl eq_refl) as H.
  cbv zeta in H. destruct H as (Hc & _ & Hs).
  split; [exact Hc|].
  change (client_at bench_requests 1) with (Some "/"%string) in Hs.
  cbv iota in Hs. rewrite Hs. split; reflexivity.
Defined.

(** The network is down at the first tick, 40 s after boot: the link
    check is due and its connect sequence sleeps the full 31 s. *)
Lemma tick_blocks_only_to_reconnect_witness :
  (31 <= 31)%nat /\
  delayed (trace (exec (loop 31) (@boot bench_link_down))) = 31000 /\
  client_polls (exec (loop 31) (@boot bench_link_down)) = 1%nat.
Proof.
  split; [apply Nat.le_refl|].
  destruct (@tick_blocks_only_to_reconnect bench_link_down 31 boot
              (Nat.le_refl 31)) as (H & _ & Hc).
  split; [rewrite H; reflexivity | exact Hc].
Defined.



(** * Properties of the dashboards *)

Section DashboardProperties.

Import Dashboard.

Context {R : Runtime}.

(** ** Arrays *)

Lemma slice_neg {A} (n : nat) (arr : list A) :
  (0 < n)%nat -> slice (- Z.of_nat n) arr = lastn n arr.
Proof.
  intros Hn. unfold slice, lastn. cbv zeta.
  destruct (- Z.of_nat n <? 0) eqn:E; [|apply Z.ltb_ge in E; lia].
  f_equal. lia.
Qed.

Lemma slice_nonneg {A} (k : nat) (arr : list A) :
  slice (Z.of_nat k) arr = skipn k arr.
Proof.
  unfold slice. cbv zeta.
  destruct (Z.of_nat k <? 0) eqn:E; [apply Z.ltb_lt in E; lia|].
  destruct (Nat.le_gt_cases k (List.length arr)) as [H|H].
  - f_equal. lia.
  - rewrite (skipn_all2 arr (n := k)) by lia.
    apply skipn_all2. lia.
Qed.

Lemma lastn_length {A} (n : nat) (arr : list A) :
  List.length (lastn n arr) = Nat.min n (List.length arr).
Proof. unfold lastn. rewrite length_skipn. lia. Qed.

Lemma lastn_app {A} (n : nat) (arr tail : list A) :
  lastn (n + List.length tail) (arr ++ tail) = lastn n arr ++ tail.
Proof.
  unfold lastn. rewrite length_app, skipn_app.
  replace (List.length arr + List.length tail - (n + List.length tail))%nat
    with (List.length arr - n)%nat by lia.
  replace (List.length arr - n - List.length arr)%nat with 0%nat by lia.
  reflexivity.
Qed.

Lemma lastn_tail {A} (arr tail : list A) :
  lastn (List.length tail) (arr ++ tail) = tail.
Proof.
  unfold lastn. rewrite length_app, skipn_app.
  replace (List.length arr + List.length tail - List.length tail)%nat
    with (List.length arr) by lia.
  rewrite skipn_all, Nat.sub_diag. reflexivity.
Qed.

(** Appending to the last [n] gives the last [n + 1] of the extended
    array. *)
Lemma lastn_push {A} (n : nat) (arr : list A) (x : A) :
  lastn n arr ++ [x] = lastn (S n) (arr ++ [x]).
Proof.
  rewrite <- (lastn_app n arr [x]). f_equal. simpl. lia.
Qed.

Lemma lastn_lastn_app {A} (n : nat) (arr tail : list A) :
  lastn n (lastn n arr ++ tail) = lastn n (arr ++ tail).
Proof.
  unfold lastn. rewrite !length_app, !skipn_app, length_skipn, skipn_skipn.
  f_equal; f_equal; lia.
Qed.


(** ** The device dashboard *)

Lemma SensorDashboard_success (m : @SensorDashboard.Mounted R) j :
  SensorDashboard.dataPoints
    (SensorDashboard.state (SensorDashboard.step m (SensorDashboard.Success j)))
  = lastn 60 (SensorDashboard.dataPoints (SensorDashboard.state m) ++ [j]).
Proof.
  cbn [SensorDashboard.step SensorDashboard.state SensorDashboard.on_success
       SensorDashboard.dataPoints].
  change (-60) with (- Z.of_nat 60). apply slice_neg. lia.
Qed.

Lemma SensorDashboard_window es : forall (m : @SensorDashboard.Mounted R),
  (List.length (SensorDashboard.dataPoints (SensorDashboard.state m)) <= 60)%nat ->
  (List.length
     (SensorDashboard.dataPoints
        (SensorDashboard.state (SensorDashboard.run es m))) <= 60)%nat.
Proof.
  induction es as [|e es IH]; intros m H; [exact H|].
  apply (IH (SensorDashboard.step m e)).
  destruct e as [j| |text|].
  - rewrite SensorDashboard_success, lastn_length. lia.
  - exact H.
  - exact H.
  - cbn [SensorDashboard.step]. cbv zeta.
    destruct (String.eqb _ _); [exact H|].
    cbn [SensorDashboard.state SensorDashboard.effect_start
         SensorDashboard.dataPoints List.length]. lia.
Qed.

Lemma SensorDashboard_successes js :
  forall (m : @SensorDashboard.Mounted R) j,
  SensorDashboard.dataPoints
    (SensorDashboard.state
       (SensorDashboard.run (map SensorDashboard.Success (j :: js)) m))
  = lastn 60 (SensorDashboard.dataPoints (SensorDashboard.state m) ++ j :: js).
Proof.
  induction js as [|k js IH]; intros m j.
  - apply SensorDashboard_success.
  - change (SensorDashboard.run (map SensorDashboard.Success (j :: k :: js)) m)
      with (SensorDashboard.run (map SensorDashboard.Success (k :: js))
              (SensorDashboard.step m (SensorDashboard.Success j))).
    rewrite IH, SensorDashboard_success, lastn_lastn_app, <- app_assoc.
    reflexivity.
Qed.

(** The device dashboard shows the 60 most recent readings: after one or
    more successful fetches [dataPoints] is the last 60 of what it was
    followed by the new readings in order, and whatever happens after the
    mount (fetches that succeed or fail, typing, changes of address) it
    never holds more than 60 points. *)
Theorem dashboard_window_is_last_60 (m : @SensorDashboard.Mounted R) j js es :
  SensorDashboard.dataPoints
    (SensorDashboard.state
       (SensorDashboard.run (map SensorDashboard.Success (j :: js)) m))
  = lastn 60 (SensorDashboard.dataPoints (SensorDashboard.state m) ++ j :: js) /\
  (List.length
     (SensorDashboard.dataPoints
        (SensorDashboard.state
           (SensorDashboard.run es (@SensorDashboard.mount R)))) <= 60)%nat.
Proof.
  split; [apply SensorDashboard_successes|].
  apply SensorDashboard_window. cbn. lia.
Qed.




(** ** The window of the mock-API page *)

Lemma Forall_without {A} (Q : A -> Prop) i : forall arr,
  Forall Q arr -> Forall Q (without i arr).
Proof.
  induction i as [|i IH]; intros arr H; destruct H as [|x arr Hx H];
    cbn [without]; try constructor; auto.
Qed.

Lemma Forall_nth_error {A} (Q : A -> Prop) arr i x :
  Forall Q arr -> nth_error arr i = Some x -> Q x.
Proof.
  intros H E. apply nth_error_In in E.
  rewrite Forall_forall in H. apply H, E.
Qed.

Lemma Home_on_reading_running (s : @Home.State R) p l :
  Home.dataPoints s = lastn 30 l ->
  Home.dataPoints (Home.on_reading false p s) = lastn 30 (l ++ [p]).
Proof.
  intros H. cbn [Home.on_reading Home.dataPoints]. rewrite H.
  change (-29) with (- Z.of_nat 29). rewrite slice_neg by lia.
  rewrite lastn_push. apply lastn_lastn_app.
Qed.

Lemma Home_run_never_paused es : forall (m : @Home.Mounted R) l,
  forallb (fun e => negb (Home.is_pause e)) es = true ->
  Home.isPaused (Home.state m) = false ->
  Forall (fun paused => paused = false) (Home.in_flight m) ->
  Home.dataPoints (Home.state m) = lastn 30 l ->
  Home.dataPoints (Home.state (Home.run es m))
  = lastn 30 (l ++ map snd (Home.handled es m)) /\
  Home.isPaused (Home.state (Home.run es m)) = false /\
  Home.bufferedPoints (Home.state (Home.run es m))
  = Home.bufferedPoints (Home.state m).
Proof.
  induction es as [|e es IH]; intros m l Hes Hp Hf Hd.
  - cbn [Home.run fold_left Home.handled map]. rewrite app_nil_r. auto.
  - cbn [forallb] in Hes. apply andb_true_iff in Hes. destruct Hes as [He Hes].
    change (Home.run (e :: es) m) with (Home.run es (Home.step m e)).
    cbn [Home.handled].
    destruct e as [|i p|i| |]; try discriminate He; cbn [Home.step].
    + destruct (IH (Home.step m Home.Tick) l Hes Hp) as (Id & Ip & Ib).
      * cbn [Home.step Home.in_flight]. apply Forall_app. split; [exact Hf|].
        constructor; [exact Hp | constructor].
      * exact Hd.
      * cbn [Home.step] in Id, Ip, Ib. cbn [app]. auto.
    + destruct (nth_error (Home.in_flight m) i) as [paused|] eqn:E.
      * pose proof (Forall_nth_error _ _ _ _ Hf E) as Hb. cbv beta in Hb.
        subst paused.
        destruct (IH {| Home.state := Home.on_reading false p (Home.state m);
                        Home.in_flight := without i (Home.in_flight m) |}
                    (l ++ [p]) Hes) as (Id & Ip & Ib).
        -- exact Hp.
        -- apply Forall_without, Hf.
        -- apply Home_on_reading_running, Hd.
        -- cbn [map snd app]. rewrite Id, Ip, Ib, <- app_assoc.
           repeat split.
      * cbn [app]. apply IH; assumption.
    + destruct (IH {| Home.state := Home.state m;
                      Home.in_flight := without i (Home.in_flight m) |}
                  l Hes Hp) as (Id & Ip & Ib).
      * apply Forall_without, Hf.
      * exact Hd.
      * cbn [app]. auto.
    + rewrite Hp. cbn [app]. apply IH; assumption.
Qed.

Lemma Chart_readings ps : forall (prev : list (@Home.DataPoint R)) p,
  fold_left (fun arr x => Chart.on_reading x arr) (p :: ps) prev
  = lastn 30 (prev ++ p :: ps).
Proof.
  assert (H1 : forall (prev : list (@Home.DataPoint R)) p,
             Chart.on_reading p prev = lastn 30 (prev ++ [p])).
  { intros prev p. unfold Chart.on_reading.
    change (-29) with (- Z.of_nat 29). rewrite slice_neg by lia.
    apply lastn_push. }
  induction ps as [|q ps IH]; intros prev p.
  - apply H1.
  - change (fold_left (fun arr x => Chart.on_reading x arr) (p :: q :: ps) prev)
      with (fold_left (fun arr x => Chart.on_reading x arr) (q :: ps)
              (Chart.on_reading p prev)).
    rewrite IH, H1, lastn_lastn_app, <- app_assoc. reflexivity.
Qed.

(** As long as Pause has not been clicked, the chart of the mock-API page
    is the last 30 of the readings that have arrived, in order of arrival
    (which need not be the order in which the fetches were started), so
    it never holds more than 30 points, and the buffer is empty.  This
    holds for every interleaving of interval ticks, arriving and failing
    fetches.  The plain chart keeps the same window. *)
Theorem chart_window_is_last_30 es :
  forallb (fun e => negb (Home.is_pause e)) es = true ->
  let s := Home.state (Home.run es (@Home.mount R)) in
  Home.dataPoints s = lastn 30 (map snd (Home.handled es Home.mount)) /\
  (List.length (Home.dataPoints s) <= 30)%nat /\
  Home.isPaused s = false /\
  Home.bufferedPoints s = [] /\
  forall (prev : list (@Home.DataPoint R)) p ps,
    fold_left (fun arr x => Chart.on_reading x arr) (p :: ps) prev
    = lastn 30 (prev ++ p :: ps).
Proof.
  intros Hes. cbv zeta.
  destruct (Home_run_never_paused es Home.mount [] Hes eq_refl)
    as (Hd & Hp & Hb); [constructor | reflexivity|].
  cbn [app] in Hd. rewrite Hd, Hp, Hb, lastn_length.
  split; [reflexivity|]. split; [lia|]. split; [reflexivity|].
  split; [reflexivity|]. intros prev p ps. apply Chart_readings.
Qed.


(** ** Pause and resume on the mock-API page *)

(** Resuming clears the pause flag, empties the buffer and puts all of the
    buffer the handler closed over, in order, at the end of the chart.
    How much of the old chart is kept depends on the size [n] of that
    buffer: below 29 the chart becomes the last 29 of old chart and
    buffer; from 29 on the start index [-29 + n] is no longer negative, so
    only the first [n - 29] old points are dropped.  The chart then
    exceeds the window of 30 points exactly when 31 or more points were
    buffered, or 29 or 30 were buffered and the old chart had at least
    two. *)
Theorem resume_appends_whole_buffer (s : @Home.State R) buffered :
  let n := List.length buffered in
  let old := List.length (Home.dataPoints s) in
  let s' := Home.handleResume buffered s in
  Home.isPaused s' = false /\
  Home.bufferedPoints s' = [] /\
  Home.alert s' = Home.alert s /\
  Home.dataPoints s'
  = (if (n <? 29)%nat then lastn 29 (Home.dataPoints s ++ buffered)
     else skipn (n - 29) (Home.dataPoints s) ++ buffered) /\
  lastn n (Home.dataPoints s') = buffered /\
  List.length (Home.dataPoints s')
  = (if (n <? 29)%nat then Nat.min 29 (old + n) else old - (n - 29) + n)%nat /\
  ((30 < List.length (Home.dataPoints s'))%nat <->
   (31 <= n)%nat \/ ((29 <= n)%nat /\ (2 <= old)%nat)).
Proof.
  cbv zeta. unfold Home.handleResume.
  cbn [Home.dataPoints Home.isPaused Home.bufferedPoints Home.alert].
  split; [reflexivity|]. split; [reflexivity|]. split; [reflexivity|].
  assert (Hd : slice (-29 + Z.of_nat (List.length buffered))
                 (Home.dataPoints s) ++ buffered
               = if (List.length buffered <? 29)%nat
                 then lastn 29 (Home.dataPoints s ++ buffered)
                 else skipn (List.length buffered - 29) (Home.dataPoints s)
                      ++ buffered).
  { destruct (List.length buffered <? 29)%nat eqn:E.
    - apply Nat.ltb_lt in E.
      replace (-29 + Z.of_nat (List.length buffered))
        with (- Z.of_nat (29 - List.length buffered)) by lia.
      rewrite slice_neg by lia. rewrite <- lastn_app. f_equal. lia.
    - apply Nat.ltb_ge in E.
      replace (-29 + Z.of_nat (List.length buffered))
        with (Z.of_nat (List.length buffered - 29)) by lia.
      rewrite slice_nonneg. reflexivity. }
  assert (Hl : List.length
                 (slice (-29 + Z.of_nat (List.length buffered))
                    (Home.dataPoints s) ++ buffered)
               = if (List.length buffered <? 29)%nat
                 then Nat.min 29 (List.length (Home.dataPoints s)
                                  + List.length buffered)
                 else (List.length (Home.dataPoints s)
                       - (List.length buffered - 29)
                       + List.length buffered)%nat).
  { rewrite Hd. destruct (List.length buffered <? 29)%nat.
    - rewrite lastn_length, length_app. reflexivity.
    - rewrite length_app, length_skipn. reflexivity. }
  split; [exact Hd|]. split; [apply lastn_tail|]. split; [exact Hl|].
  rewrite Hl. destruct (List.length buffered <? 29)%nat eqn:E.
  - apply Nat.ltb_lt in E. lia.
  - apply Nat.ltb_ge in E. lia.
Qed.




(** ** The live page *)






Lemma HomeLive_run_first_effect es : forall (m : @HomeLive.Mounted R),
  forallb (fun e => negb (HomeLive.is_restart e)) es = true ->
  HomeLive.closed_over m = [] ->
  Forall (fun c => snd c = []) (HomeLive.in_flight m) ->
  HomeLive.status (HomeLive.state m) <> SensorDashboard.disconnected ->
  HomeLive.closed_over (HomeLive.run es m) = [] /\
  Forall (fun c => snd c = []) (HomeLive.in_flight (HomeLive.run es m)) /\
  HomeLive.status (HomeLive.state (HomeLive.run es m))
  <> SensorDashboard.disconnected.
Proof.
  induction es as [|e es IH]; intros m Hes Hc Hf Hs; [auto|].
  cbn [forallb] in Hes. apply andb_true_iff in Hes. destruct Hes as [He Hes].
  change (HomeLive.run (e :: es) m)
    with (HomeLive.run es (HomeLive.step m e)).
  destruct e as [|i j|i| | |text|]; try discriminate He; cbn [HomeLive.step].
  - apply (IH {| HomeLive.state := HomeLive.state m;
                 HomeLive.closed_over := HomeLive.closed_over m;
                 HomeLive.in_flight :=
                   HomeLive.in_flight m
                   ++ [(HomeLive.isPaused (HomeLive.state m),
                        HomeLive.closed_over m)] |}); try assumption.
    cbn [HomeLive.in_flight]. apply Forall_app. split; [exact Hf|].
    constructor; [exact Hc | constructor].
  - destruct (nth_error (HomeLive.in_flight m) i) as [[paused seen]|];
      [|apply IH; assumption].
    apply (IH {| HomeLive.state := HomeLive.on_success paused j (HomeLive.state m);
                 HomeLive.closed_over := HomeLive.closed_over m;
                 HomeLive.in_flight := without i (HomeLive.in_flight m) |});
      try assumption.
    + apply Forall_without, Hf.
    + cbn. discriminate.
  - destruct (nth_error (HomeLive.in_flight m) i) as [[paused seen]|] eqn:E;
      [|apply IH; assumption].
    pose proof (Forall_nth_error _ _ _ _ Hf E) as Hseen. cbn [snd] in Hseen.
    subst seen.
    apply (IH {| HomeLive.state := HomeLive.on_failure [] (HomeLive.state m);
                 HomeLive.closed_over := HomeLive.closed_over m;
                 HomeLive.in_flight := without i (HomeLive.in_flight m) |});
      try assumption.
    + apply Forall_without, Hf.
    + cbn. discriminate.
  - apply (IH {| HomeLive.state := HomeLive.setInputIp text (HomeLive.state m);
                 HomeLive.closed_over := HomeLive.closed_over m;
                 HomeLive.in_flight := HomeLive.in_flight m |});
      assumption.
Qed.

(** On the live page a failed fetch reports by the [dataPoints] that its
    [fetchData] closed over, not by the points the page holds when it
    fails: loading when that array was empty, disconnected otherwise, also
    when the polling effect has been restarted meanwhile.  Until the first
    pause, resume or change of address only the effect of the mount has
    run and it closed over the empty initial array: every failure then
    sets the status to loading, however many readings have arrived, the
    status is never disconnected, and a failure leaves the points
    alone. *)
Theorem live_failure_status_uses_effect_history es :
  forallb (fun e => negb (HomeLive.is_restart e)) es = true ->
  let m := HomeLive.run es (@HomeLive.mount R) in
  HomeLive.closed_over m = [] /\
  HomeLive.status (HomeLive.state m) <> SensorDashboard.disconnected /\
  (forall i,
     HomeLive.status (HomeLive.state (HomeLive.step m (HomeLive.Failure i)))
     = (if (i <? List.length (HomeLive.in_flight m))%nat
        then SensorDashboard.loading
        else HomeLive.status (HomeLive.state m)) /\
     HomeLive.collected (HomeLive.state (HomeLive.step m (HomeLive.Failure i)))
     = HomeLive.collected (HomeLive.state m)) /\
  (forall (m0 : @HomeLive.Mounted R) i paused seen,
     nth_error (HomeLive.in_flight m0) i = Some (paused, seen) ->
     HomeLive.status (HomeLive.state (HomeLive.step m0 (HomeLive.Failure i)))
     = (if (List.length seen =? 0)%nat then SensorDashboard.loading
        else SensorDashboard.disconnected)).
Proof.
  intros Hes. cbv zeta.
  destruct (HomeLive_run_first_effect es HomeLive.mount Hes eq_refl)
    as (Hc & Hf & Hs).
  { cbn. constructor; [reflexivity | constructor]. }
  { cbn. discriminate. }
  split; [exact Hc|]. split; [exact Hs|]. split.
  - intros i. cbn [HomeLive.step].
    destruct (nth_error (HomeLive.in_flight (HomeLive.run es HomeLive.mount)) i)
      as [[paused seen]|] eqn:E.
    + pose proof (Forall_nth_error _ _ _ _ Hf E) as Hseen. cbn [snd] in Hseen.
      subst seen.
      assert (Hi : (i < List.length
                          (HomeLive.in_flight (HomeLive.run es HomeLive.mount)))%nat)
        by (apply nth_error_Some; rewrite E; discriminate).
      apply Nat.ltb_lt in Hi. rewrite Hi. split; reflexivity.
    + apply nth_error_None in E. apply Nat.ltb_ge in E. rewrite E.
      split; reflexivity.
  - intros m0 i paused seen E. cbn [HomeLive.step]. rewrite E. reflexivity.
Qed.

End DashboardProperties.



(** ** Concrete runs of the pages *)

(** Thirty-one fetches, each answered before the next tick, on a fresh
    page: the chart holds readings 2 to 31. *)
Lemma chart_window_is_last_30_witness :
  let es := flat_map (fun p => [Dashboard.Home.Tick;
                                Dashboard.Home.Reading 0 p])
              (bench_points 1 31) in
  forallb (fun e => negb (Dashboard.Home.is_pause e)) es = true /\
  map Dashboard.Home.value
    (Dashboard.Home.dataPoints
       (Dashboard.Home.state
          (Dashboard.Home.run es (@Dashboard.Home.mount bench_runtime))))
  = map Z.of_nat (seq 2 30).
Proof.
  cbv zeta. split; [reflexivity|].
  destruct (@chart_window_is_last_30 bench_runtime
              (flat_map (fun p => [Dashboard.Home.Tick;
                                   Dashboard.Home.Reading 0 p])
                 (bench_points 1 31)) eq_refl) as [H _].
  rewrite H. reflexivity.
Defined.



(** The same on the live page: two readings arrive after the mount, then
    the next fetch fails. *)
Lemma live_failure_status_uses_effect_history_witness :
  let es := [Dashboard.HomeLive.Success 0 (bench_sample 100);
             Dashboard.HomeLive.Tick;
             Dashboard.HomeLive.Success 0 (bench_sample 90);
             Dashboard.HomeLive.Tick;
             Dashboard.HomeLive.Type_ "10.0.0.7"%string] in
  let m := Dashboard.HomeLive.run es
             (@Dashboard.HomeLive.mount bench_runtime) in
  let m' := Dashboard.HomeLive.step m (Dashboard.HomeLive.Failure 0) in
  forallb (fun e => negb (Dashboard.HomeLive.is_restart e)) es = true /\
  Dashboard.HomeLive.status (Dashboard.HomeLive.state m')
  = Dashboard.SensorDashboard.loading /\
  List.length (Dashboard.HomeLive.dataPoints (Dashboard.HomeLive.state m'))
  = 2%nat.
Proof.
  cbv zeta. split; [reflexivity|].
  destruct (@live_failure_status_uses_effect_history bench_runtime
              [Dashboard.HomeLive.Success 0 (bench_sample 100);
               Dashboard.HomeLive.Tick;
               Dashboard.HomeLive.Success 0 (bench_sample 90);
               Dashboard.HomeLive.Tick;
               Dashboard.HomeLive.Type_ "10.0.0.7"%string]
              eq_refl) as (_ & _ & H & _).
  destruct (H 0%nat) as [Hs _].
  split; [rewrite Hs; reflexivity | reflexivity].
Defined.

(** Thirty readings, a pause of twenty-nine readings, resume: the start
    index of the slice is 0 and the chart holds all fifty-nine points. *)
Example resume_after_long_pause :
  let arrive := flat_map (fun p => [Dashboard.Home.Tick;
                                    Dashboard.Home.Reading 0 p]) in
  let m := Dashboard.Home.run
             (arrive (bench_points 1 30)
              ++ Dashboard.Home.ClickPause
              :: arrive (bench_points 31 29)
              ++ [Dashboard.Home.ClickResume])
             (@Dashboard.Home.mount bench_runtime) in
  Dashboard.Home.dataPoints (Dashboard.Home.state m) = bench_points 1 59 /\
  Dashboard.Home.isPaused (Dashboard.Home.state m) = false.
Proof. split; reflexivity. Qed.

(** A fetch keeps the callback that started it.  A reading whose fetch was
    started during a pause and is answered after Resume goes to the
    buffer of the running page and stays there; a reading whose fetch was
    started before Pause and is answered after it goes to the chart of
    the paused page. *)
Example reading_in_flight_across_click :
  let p := fun k => @Dashboard.Home.Build_DataPoint bench_runtime
                      EmptyString k in
  let m := Dashboard.Home.run
             [Dashboard.Home.Tick; Dashboard.Home.Reading 0 (p 1);
              Dashboard.Home.Tick; Dashboard.Home.Reading 0 (p 2);
              Dashboard.Home.ClickPause; Dashboard.Home.Tick;
              Dashboard.Home.ClickResume; Dashboard.Home.Reading 0 (p 3)]
             Dashboard.Home.mount in
  let m' := Dashboard.Home.run
              [Dashboard.Home.Tick; Dashboard.Home.ClickPause;
               Dashboard.Home.Reading 0 (p 1)]
              Dashboard.Home.mount in
  Dashboard.Home.isPaused (Dashboard.Home.state m) = false /\
  Dashboard.Home.dataPoints (Dashboard.Home.state m) = [p 1; p 2] /\
  Dashboard.Home.bufferedPoints (Dashboard.Home.state m) = [p 3] /\
  Dashboard.Home.isPaused (Dashboard.Home.state m') = true /\
  Dashboard.Home.dataPoints (Dashboard.Home.state m') = [p 1] /\
  Dashboard.Home.bufferedPoints (Dashboard.Home.state m') = [].
Proof. repeat split; reflexivity. Qed.

(** The same on the live page.  Readings 1 to 3 arrive; the fetch started
    by Pause is still in flight at Resume and is answered (reading 4)
    after the fetch started by Resume (reading 5): the chart is 1, 2, 3,
    5 and reading 4 sits in the buffer of the running page.  When instead
    the fetch started by Pause and one started before it both fail, the
    older one reports loading and the newer one disconnected. *)
Example live_fetch_in_flight_across_restart :
  let arrived := [Dashboard.HomeLive.Success 0 (bench_sample 1);
                  Dashboard.HomeLive.Tick;
                  Dashboard.HomeLive.Success 0 (bench_sample 2);
                  Dashboard.HomeLive.Tick;
                  Dashboard.HomeLive.Success 0 (bench_sample 3)] in
  let m := Dashboard.HomeLive.run
             (arrived
              ++ [Dashboard.HomeLive.ClickPause;
                  Dashboard.HomeLive.ClickResume;
                  Dashboard.HomeLive.Success 1 (bench_sample 5);
                  Dashboard.HomeLive.Success 0 (bench_sample 4)])
             (@Dashboard.HomeLive.mount bench_runtime) in
  let m' := Dashboard.HomeLive.run
              [Dashboard.HomeLive.Tick;
               Dashboard.HomeLive.Success 0 (bench_sample 1);
               Dashboard.HomeLive.ClickPause]
              (@Dashboard.HomeLive.mount bench_runtime) in
  Dashboard.HomeLive.isPaused (Dashboard.HomeLive.state m) = false /\
  Dashboard.HomeLive.dataPoints (Dashboard.HomeLive.state m)
  = map bench_sample [1; 2; 3; 5] /\
  Dashboard.HomeLive.bufferedPoints (Dashboard.HomeLive.state m)
  = [bench_sample 4] /\
  Dashboard.HomeLive.status
    (Dashboard.HomeLive.state
       (Dashboard.HomeLive.step m' (Dashboard.HomeLive.Failure 0)))
  = Dashboard.SensorDashboard.loading /\
  Dashboard.HomeLive.status
    (Dashboard.HomeLive.state
       (Dashboard.HomeLive.step m' (Dashboard.HomeLive.Failure 1)))
  = Dashboard.SensorDashboard.disconnected.
Proof. repeat split; reflexivity. Qed.
